(** * Loom: motivation registry, motivation engine and worker token budget

    A shallow embedding of
      - [internal/motivation/registry.go]  (Registry and its operations),
      - [internal/motivation/engine.go]    (Engine.Tick, fire, ManualTrigger),
      - the worker's [handleTokenLimits] / [getModelTokenLimit],
    followed by the properties proved about them. *)

From Stdlib Require Import ZArith List String Ascii Lia SpecFloat DecimalString.
From stdpp Require Import gmap strings list.

Local Open Scope Z_scope.

(* ===================================================================== *)
(** * Part I: definitions *)
(* ===================================================================== *)

(** ** Machine integers and time *)

(** Go's [int] and [int64] are 64-bit two's complement. *)
Definition min_int64 : Z := - 2 ^ 63.
Definition max_int64 : Z := 2 ^ 63 - 1.

(** Wrap-around of a 64-bit signed result. *)
Definition wrap64 (z : Z) : Z := (z + 2 ^ 63) mod 2 ^ 64 - 2 ^ 63.

(** [time.Time] as an instant in nanoseconds on one time line (the Unix
    clock); [time.Duration] is an [int64] count of nanoseconds. *)
Definition Time := Z.
Definition Duration := Z.

(** The zero [time.Time] is January 1, year 1, 00:00 UTC. *)
Definition zeroTime : Time := -62135596800 * 1000000000.
Definition IsZero (t : Time) : bool := t =? zeroTime.

(** [t.Sub(u)]: the difference, saturated to the range of [Duration]. *)
Definition Sub (t u : Time) : Duration :=
  Z.max min_int64 (Z.min max_int64 (t - u)).

(** [%d] of an integer. *)
Definition fmt_d (z : Z) : string := NilZero.string_of_int (Z.to_int z).

(** ** Worker: token budget ([handleTokenLimits], [getModelTokenLimit]) *)

Record ChatMessage := mkChatMessage { Role : string; Content : string }.

(** The one field of the worker the two functions read:
    [w.provider.Config.Model]. *)
Record Worker := mkWorker { provider_Config_Model : string }.

(** The literal table of [getModelTokenLimit]. *)
Definition modelLimits : gmap string Z :=
  list_to_map
    [ ("gpt-4"%string, 8192);
      ("gpt-4-32k"%string, 32768);
      ("gpt-4-turbo"%string, 128000);
      ("gpt-3.5-turbo"%string, 4096);
      ("gpt-3.5-turbo-16k"%string, 16384);
      ("claude-3-opus"%string, 200000);
      ("claude-3-sonnet"%string, 200000);
      ("claude-3-haiku"%string, 200000) ].

Definition getModelTokenLimit (w : Worker) : Z :=
  match modelLimits !! provider_Config_Model w with
  | Some limit => limit
  | None => 100000
  end.

(** The values [getModelTokenLimit] can return. *)
Definition knownLimits : list Z :=
  [8192; 32768; 128000; 4096; 16384; 200000; 100000].

(** IEEE 754 binary64, as Go's [float64]. *)
Definition f64_prec : Z := 53.
Definition f64_emax : Z := 1024.

(** [float64(n)] for an integer [n]. *)
Definition float64_of_int (n : Z) : spec_float :=
  binary_normalize f64_prec f64_emax n 0 false.

(** The constant [0.8] as a [float64]: 0x3FE999999999999A. *)
Definition f64_0_8 : spec_float := S754_finite false 7205759403792794 (-53).

(** [int(f)]: truncation toward zero (the conversion is only used on finite
    values here; infinities and NaN are mapped to 0). *)
Definition int_of_float64 (f : spec_float) : Z :=
  match f with
  | S754_finite s m e =>
      let a := if 0 <=? e then Z.pos m * 2 ^ e else Z.pos m / 2 ^ (- e) in
      if s then - a else a
  | _ => 0
  end.

(** [maxTokens := int(float64(modelLimit) * 0.8)]. *)
Definition maxTokensOf (modelLimit : Z) : Z :=
  int_of_float64 (SFmul f64_prec f64_emax (float64_of_int modelLimit) f64_0_8).

(** [len(msg.Content) / 4].  [len] of a Go string is its number of bytes. *)
Definition msgTokens (m : ChatMessage) : Z :=
  Z.quot (Z.of_nat (String.length (Content m))) 4.

(** [totalTokens]: the first loop of [handleTokenLimits].  The estimates are
    sums of [len/4] over a slice held in memory; they stay far below 2^63
    and are taken in [Z]. *)
Definition totalTokens (messages : list ChatMessage) : Z :=
  fold_left (fun acc m => acc + msgTokens m) messages 0.

(** The backwards loop
      [for i := len(messages) - 1; i > 0; i-- { ... }]
    entered at index [i] with the running [recentTokens] and the current
    [startIndex]; it returns the final [startIndex]. *)
Fixpoint truncateLoop (messages : list ChatMessage) (maxTokens systemTokens : Z)
    (i : nat) (recentTokens : Z) (startIndex : nat) : nat :=
  match i with
  | O => startIndex
  | S j =>
      match messages !! i with
      | None => startIndex
      | Some msg =>
          if systemTokens + recentTokens + msgTokens msg >? maxTokens
          then S i
          else truncateLoop messages maxTokens systemTokens j
                 (recentTokens + msgTokens msg) startIndex
      end
  end.

Definition noticeContent (truncatedCount : Z) : string :=
  ("[Note: " ++ fmt_d truncatedCount
     ++ " older messages truncated to stay within token limit]")%string.

Definition noticeMsg (truncatedCount : Z) : ChatMessage :=
  {| Role := "system"; Content := noticeContent truncatedCount |}.

(** The value of [startIndex] after the backwards loop. *)
Definition startIndexOf (maxTokens : Z) (messages : list ChatMessage) : nat :=
  match messages with
  | [] => O
  | systemMsg :: _ =>
      truncateLoop messages maxTokens (msgTokens systemMsg)
        (length messages - 1)%nat 0 (length messages)
  end.

Definition handleTokenLimits (w : Worker) (messages : list ChatMessage)
    : list ChatMessage :=
  let modelLimit := getModelTokenLimit w in
  let maxTokens := maxTokensOf modelLimit in
  if totalTokens messages <=? maxTokens then messages
  else
    match messages with
    | [] => messages
    | systemMsg :: _ =>
        let startIndex := startIndexOf maxTokens messages in
        if (1 <? startIndex)%nat then
          let truncatedCount := Z.of_nat startIndex - 1 in
          [systemMsg; noticeMsg truncatedCount] ++ drop startIndex messages
        else messages
    end.

(** ** Motivation package: data model

    [registry.go] and [engine.go] use the types [Motivation],
    [MotivationTrigger] and [MotivationConfig] and the constants of
    [MotivationStatus] and [TriggerResult] without declaring them. *)

(** Modelled from the spec: the [MotivationStatus] constants, "status ∈
    {Active, Cooldown, Disabled}"; [StatusUnset] is the empty string that
    [Register] tests for. *)
Inductive MotivationStatus :=
| StatusUnset
| MotivationStatusActive
| MotivationStatusCooldown
| MotivationStatusDisabled.

(** Modelled from the spec: the [TriggerResult] constants, "result ∈
    {Success, Skipped, Error}". *)
Inductive TriggerResult :=
| TriggerResultSuccess
| TriggerResultSkipped
| TriggerResultError.

Global Instance MotivationStatus_eq_dec : EqDecision MotivationStatus.
Proof. solve_decision. Defined.

Global Instance TriggerResult_eq_dec : EqDecision TriggerResult.
Proof. solve_decision. Defined.

(** Scalars held in a [map[string]interface{}]. *)
Inductive Value :=
| VBool (b : bool)
| VInt (z : Z)
| VString (s : string)
| VDuration (d : Duration).

(** Modelled from the spec: the [Motivation] struct, with the attributes of
    the data model (identifier, name and description, variant and condition
    tags, agent id and role, project id, parameter bag, cooldown period,
    priority, status, the three flags, the lifecycle timestamps, trigger
    count) under the field names and with the types that [registry.go],
    [engine.go] and the tests use.  [Type_] stands for the field [Type]. *)
Record Motivation := mkMotivation {
  ID : string;
  Name : string;
  Description : string;
  Type_ : string;
  Condition : string;
  AgentID : string;
  AgentRole : string;
  ProjectID : string;
  Parameters : gmap string Value;
  CooldownPeriod : Duration;
  Priority : Z;
  Status : MotivationStatus;
  CreateBeadOnTrigger : bool;
  WakeAgent : bool;
  IsBuiltIn : bool;
  CreatedAt : Time;
  UpdatedAt : Time;
  LastTriggeredAt : option Time;
  NextTriggerAt : option Time;
  DisabledAt : option Time;
  TriggerCount : Z
}.

(** Field assignments [m.F = x]. *)
Definition set_ID (x : string) (m : Motivation) : Motivation :=
  {| ID := x; Name := Name m; Description := Description m;
     Type_ := Type_ m; Condition := Condition m; AgentID := AgentID m;
     AgentRole := AgentRole m; ProjectID := ProjectID m;
     Parameters := Parameters m; CooldownPeriod := CooldownPeriod m;
     Priority := Priority m; Status := Status m;
     CreateBeadOnTrigger := CreateBeadOnTrigger m; WakeAgent := WakeAgent m;
     IsBuiltIn := IsBuiltIn m; CreatedAt := CreatedAt m;
     UpdatedAt := UpdatedAt m; LastTriggeredAt := LastTriggeredAt m;
     NextTriggerAt := NextTriggerAt m; DisabledAt := DisabledAt m;
     TriggerCount := TriggerCount m |}.

Definition set_Name (x : string) (m : Motivation) : Motivation :=
  {| ID := ID m; Name := x; Description := Description m; Type_ := Type_ m;
     Condition := Condition m; AgentID := AgentID m;
     AgentRole := AgentRole m; ProjectID := ProjectID m;
     Parameters := Parameters m; CooldownPeriod := CooldownPeriod m;
     Priority := Priority m; Status := Status m;
     CreateBeadOnTrigger := CreateBeadOnTrigger m; WakeAgent := WakeAgent m;
     IsBuiltIn := IsBuiltIn m; CreatedAt := CreatedAt m;
     UpdatedAt := UpdatedAt m; LastTriggeredAt := LastTriggeredAt m;
     NextTriggerAt := NextTriggerAt m; DisabledAt := DisabledAt m;
     TriggerCount := TriggerCount m |}.

Definition set_Description (x : string) (m : Motivation) : Motivation :=
  {| ID := ID m; Name := Name m; Description := x; Type_ := Type_ m;
     Condition := Condition m; AgentID := AgentID m;
     AgentRole := AgentRole m; ProjectID := ProjectID m;
     Parameters := Parameters m; CooldownPeriod := CooldownPeriod m;
     Priority := Priority m; Status := Status m;
     CreateBeadOnTrigger := CreateBeadOnTrigger m; WakeAgent := WakeAgent m;
     IsBuiltIn := IsBuiltIn m; CreatedAt := CreatedAt m;
     UpdatedAt := UpdatedAt m; LastTriggeredAt := LastTriggeredAt m;
     NextTriggerAt := NextTriggerAt m; DisabledAt := DisabledAt m;
     TriggerCount := TriggerCount m |}.

Definition set_Parameters (x : gmap string Value) (m : Motivation) : Motivation :=
  {| ID := ID m; Name := Name m; Description := Description m;
     Type_ := Type_ m; Condition := Condition m; AgentID := AgentID m;
     AgentRole := AgentRole m; ProjectID := ProjectID m; Parameters := x;
     CooldownPeriod := CooldownPeriod m; Priority := Priority m;
     Status := Status m; CreateBeadOnTrigger := CreateBeadOnTrigger m;
     WakeAgent := WakeAgent m; IsBuiltIn := IsBuiltIn m;
     CreatedAt := CreatedAt m; UpdatedAt := UpdatedAt m;
     LastTriggeredAt := LastTriggeredAt m; NextTriggerAt := NextTriggerAt m;
     DisabledAt := DisabledAt m; TriggerCount := TriggerCount m |}.

Definition set_CooldownPeriod (x : Duration) (m : Motivation) : Motivation :=
  {| ID := ID m; Name := Name m; Description := Description m;
     Type_ := Type_ m; Condition := Condition m; AgentID := AgentID m;
     AgentRole := AgentRole m; ProjectID := ProjectID m;
     Parameters := Parameters m; CooldownPeriod := x;
     Priority := Priority m; Status := Status m;
     CreateBeadOnTrigger := CreateBeadOnTrigger m; WakeAgent := WakeAgent m;
     IsBuiltIn := IsBuiltIn m; CreatedAt := CreatedAt m;
     UpdatedAt := UpdatedAt m; LastTriggeredAt := LastTriggeredAt m;
     NextTriggerAt := NextTriggerAt m; DisabledAt := DisabledAt m;
     TriggerCount := TriggerCount m |}.

Definition set_Priority (x : Z) (m : Motivation) : Motivation :=
  {| ID := ID m; Name := Name m; Description := Description m;
     Type_ := Type_ m; Condition := Condition m; AgentID := AgentID m;
     AgentRole := AgentRole m; ProjectID := ProjectID m;
     Parameters := Parameters m; CooldownPeriod := CooldownPeriod m;
     Priority := x; Status := Status m;
     CreateBeadOnTrigger := CreateBeadOnTrigger m; WakeAgent := WakeAgent m;
     IsBuiltIn := IsBuiltIn m; CreatedAt := CreatedAt m;
     UpdatedAt := UpdatedAt m; LastTriggeredAt := LastTriggeredAt m;
     NextTriggerAt := NextTriggerAt m; DisabledAt := DisabledAt m;
     TriggerCount := TriggerCount m |}.

Definition set_Status (x : MotivationStatus) (m : Motivation) : Motivation :=
  {| ID := ID m; Name := Name m; Description := Description m;
     Type_ := Type_ m; Condition := Condition m; AgentID := AgentID m;
     AgentRole := AgentRole m; ProjectID := ProjectID m;
     Parameters := Parameters m; CooldownPeriod := CooldownPeriod m;
     Priority := Priority m; Status := x;
     CreateBeadOnTrigger := CreateBeadOnTrigger m; WakeAgent := WakeAgent m;
     IsBuiltIn := IsBuiltIn m; CreatedAt := CreatedAt m;
     UpdatedAt := UpdatedAt m; LastTriggeredAt := LastTriggeredAt m;
     NextTriggerAt := NextTriggerAt m; DisabledAt := DisabledAt m;
     TriggerCount := TriggerCount m |}.

Definition set_CreatedAt (x : Time) (m : Motivation) : Motivation :=
  {| ID := ID m; Name := Name m; Description := Description m;
     Type_ := Type_ m; Condition := Condition m; AgentID := AgentID m;
     AgentRole := AgentRole m; ProjectID := ProjectID m;
     Parameters := Parameters m; CooldownPeriod := CooldownPeriod m;
     Priority := Priority m; Status := Status m;
     CreateBeadOnTrigger := CreateBeadOnTrigger m; WakeAgent := WakeAgent m;
     IsBuiltIn := IsBuiltIn m; CreatedAt := x; UpdatedAt := UpdatedAt m;
     LastTriggeredAt := LastTriggeredAt m; NextTriggerAt := NextTriggerAt m;
     DisabledAt := DisabledAt m; TriggerCount := TriggerCount m |}.

Definition set_UpdatedAt (x : Time) (m : Motivation) : Motivation :=
  {| ID := ID m; Name := Name m; Description := Description m;
     Type_ := Type_ m; Condition := Condition m; AgentID := AgentID m;
     AgentRole := AgentRole m; ProjectID := ProjectID m;
     Parameters := Parameters m; CooldownPeriod := CooldownPeriod m;
     Priority := Priority m; Status := Status m;
     CreateBeadOnTrigger := CreateBeadOnTrigger m; WakeAgent := WakeAgent m;
     IsBuiltIn := IsBuiltIn m; CreatedAt := CreatedAt m; UpdatedAt := x;
     LastTriggeredAt := LastTriggeredAt m; NextTriggerAt := NextTriggerAt m;
     DisabledAt := DisabledAt m; TriggerCount := TriggerCount m |}.

Definition set_LastTriggeredAt (x : option Time) (m : Motivation) : Motivation :=
  {| ID := ID m; Name := Name m; Description := Description m;
     Type_ := Type_ m; Condition := Condition m; AgentID := AgentID m;
     AgentRole := AgentRole m; ProjectID := ProjectID m;
     Parameters := Parameters m; CooldownPeriod := CooldownPeriod m;
     Priority := Priority m; Status := Status m;
     CreateBeadOnTrigger := CreateBeadOnTrigger m; WakeAgent := WakeAgent m;
     IsBuiltIn := IsBuiltIn m; CreatedAt := CreatedAt m;
     UpdatedAt := UpdatedAt m; LastTriggeredAt := x;
     NextTriggerAt := NextTriggerAt m; DisabledAt := DisabledAt m;
     TriggerCount := TriggerCount m |}.

Definition set_DisabledAt (x : option Time) (m : Motivation) : Motivation :=
  {| ID := ID m; Name := Name m; Description := Description m;
     Type_ := Type_ m; Condition := Condition m; AgentID := AgentID m;
     AgentRole := AgentRole m; ProjectID := ProjectID m;
     Parameters := Parameters m; CooldownPeriod := CooldownPeriod m;
     Priority := Priority m; Status := Status m;
     CreateBeadOnTrigger := CreateBeadOnTrigger m; WakeAgent := WakeAgent m;
     IsBuiltIn := IsBuiltIn m; CreatedAt := CreatedAt m;
     UpdatedAt := UpdatedAt m; LastTriggeredAt := LastTriggeredAt m;
     NextTriggerAt := NextTriggerAt m; DisabledAt := x;
     TriggerCount := TriggerCount m |}.

Definition set_TriggerCount (x : Z) (m : Motivation) : Motivation :=
  {| ID := ID m; Name := Name m; Description := Description m;
     Type_ := Type_ m; Condition := Condition m; AgentID := AgentID m;
     AgentRole := AgentRole m; ProjectID := ProjectID m;
     Parameters := Parameters m; CooldownPeriod := CooldownPeriod m;
     Priority := Priority m; Status := Status m;
     CreateBeadOnTrigger := CreateBeadOnTrigger m; WakeAgent := WakeAgent m;
     IsBuiltIn := IsBuiltIn m; CreatedAt := CreatedAt m;
     UpdatedAt := UpdatedAt m; LastTriggeredAt := LastTriggeredAt m;
     NextTriggerAt := NextTriggerAt m; DisabledAt := DisabledAt m;
     TriggerCount := x |}.

(** Modelled from the spec: the [MotivationTrigger] struct (trigger id,
    motivation id and pointer, [TriggeredAt], trigger data, result, bead
    created, agent woken, error string), under the field names [engine.go]
    uses; [TrigID] stands for the field [ID] and [MotivationRef] for the
    pointer field [Motivation].

    A [*Motivation] held by the registry is identified with the key under
    which [Register] stored it: [motivations] below is at once the Go map
    and the store of the objects the stored pointers refer to.  The index
    slices and [MotivationRef] hold such pointers. *)
Record MotivationTrigger := mkMotivationTrigger {
  TrigID : string;
  MotivationID : string;
  MotivationRef : string;
  TriggeredAt : Time;
  TriggerData : gmap string Value;
  Result : TriggerResult;
  Error : string;
  BeadCreated : string;
  AgentWoken : string
}.

Definition set_Result (x : TriggerResult) (t : MotivationTrigger)
    : MotivationTrigger :=
  {| TrigID := TrigID t; MotivationID := MotivationID t;
     MotivationRef := MotivationRef t; TriggeredAt := TriggeredAt t;
     TriggerData := TriggerData t; Result := x; Error := Error t;
     BeadCreated := BeadCreated t; AgentWoken := AgentWoken t |}.

Definition set_Error (x : string) (t : MotivationTrigger)
    : MotivationTrigger :=
  {| TrigID := TrigID t; MotivationID := MotivationID t;
     MotivationRef := MotivationRef t; TriggeredAt := TriggeredAt t;
     TriggerData := TriggerData t; Result := Result t; Error := x;
     BeadCreated := BeadCreated t; AgentWoken := AgentWoken t |}.

Definition set_BeadCreated (x : string) (t : MotivationTrigger)
    : MotivationTrigger :=
  {| TrigID := TrigID t; MotivationID := MotivationID t;
     MotivationRef := MotivationRef t; TriggeredAt := TriggeredAt t;
     TriggerData := TriggerData t; Result := Result t; Error := Error t;
     BeadCreated := x; AgentWoken := AgentWoken t |}.

Definition set_AgentWoken (x : string) (t : MotivationTrigger)
    : MotivationTrigger :=
  {| TrigID := TrigID t; MotivationID := MotivationID t;
     MotivationRef := MotivationRef t; TriggeredAt := TriggeredAt t;
     TriggerData := TriggerData t; Result := Result t; Error := Error t;
     BeadCreated := BeadCreated t; AgentWoken := x |}.

(** Modelled from the spec: the [MotivationConfig] struct, with the fields
    the registry, the engine and the tests read ([MaxTriggersPerTick] is
    "configurable, default 10"). *)
Record MotivationConfig := mkMotivationConfig {
  EvaluationInterval : Duration;
  DefaultCooldown : Duration;
  MaxTriggersPerTick : Z;
  IdleThreshold : Duration;
  EnabledByDefault : bool
}.

(** ** Registry ([registry.go]) *)

Record Registry := mkRegistry {
  motivations : gmap string Motivation;
  byRole : gmap string (list string);
  byProject : gmap string (list string);
  triggers : list MotivationTrigger;
  config : MotivationConfig;
  nextID : Z
}.

Definition set_motivations (x : gmap string Motivation) (r : Registry) : Registry :=
  {| motivations := x; byRole := byRole r; byProject := byProject r;
     triggers := triggers r; config := config r; nextID := nextID r |}.

Definition set_byRole (x : gmap string (list string)) (r : Registry) : Registry :=
  {| motivations := motivations r; byRole := x; byProject := byProject r;
     triggers := triggers r; config := config r; nextID := nextID r |}.

Definition set_byProject (x : gmap string (list string)) (r : Registry) : Registry :=
  {| motivations := motivations r; byRole := byRole r; byProject := x;
     triggers := triggers r; config := config r; nextID := nextID r |}.

Definition set_triggers (x : list MotivationTrigger) (r : Registry) : Registry :=
  {| motivations := motivations r; byRole := byRole r;
     byProject := byProject r; triggers := x; config := config r;
     nextID := nextID r |}.

Definition set_nextID (x : Z) (r : Registry) : Registry :=
  {| motivations := motivations r; byRole := byRole r;
     byProject := byProject r; triggers := triggers r; config := config r;
     nextID := x |}.

(** An [error] is [nil] or carries its message. *)
Definition error := option string.

(** [NewRegistry] with a non-nil configuration. *)
Definition NewRegistry (cfg : MotivationConfig) : Registry :=
  {| motivations := ∅; byRole := ∅; byProject := ∅; triggers := [];
     config := cfg; nextID := 1 |}.

(** [r.byRole[k]] for a possibly absent key: the nil slice. *)
Definition index_get (ix : gmap string (list string)) (k : string) : list string :=
  default [] (ix !! k).

(** The "Set defaults" block of [Register]; the two times are what its two
    [time.Now()] calls return. *)
Definition withDefaults (cfg : MotivationConfig) (m : Motivation)
    (nowCreated nowUpdated : Time) : Motivation :=
  let m :=
    match Status m with
    | StatusUnset =>
        if EnabledByDefault cfg
        then set_Status MotivationStatusActive m
        else set_Status MotivationStatusDisabled m
    | _ => m
    end in
  let m := if CooldownPeriod m =? 0
           then set_CooldownPeriod (DefaultCooldown cfg) m
           else m in
  let m := if IsZero (CreatedAt m) then set_CreatedAt nowCreated m else m in
  set_UpdatedAt nowUpdated m.

(** The "Index by role" block. *)
Definition indexByRole (r : Registry) (m : Motivation) : Registry :=
  if String.eqb (AgentRole m) "" then r
  else set_byRole (<[AgentRole m := index_get (byRole r) (AgentRole m) ++ [ID m]]>
                     (byRole r)) r.

(** The "Index by project" block. *)
Definition indexByProject (r : Registry) (m : Motivation) : Registry :=
  if String.eqb (ProjectID m) ""
  then set_byProject (<[""%string := index_get (byProject r) "" ++ [ID m]]>
                        (byProject r)) r
  else set_byProject (<[ProjectID m :=
                         index_get (byProject r) (ProjectID m) ++ [ID m]]>
                        (byProject r)) r.

(** The "Generate ID if not provided" block: the motivation and the
    registry after it. *)
Definition withID (r : Registry) (m : Motivation) : Motivation * Registry :=
  if String.eqb (ID m) ""
  then (set_ID ("mot-" ++ fmt_d (nextID r)) m, set_nextID (wrap64 (nextID r + 1)) r)
  else (m, r).

(** The ID [Register] goes on with: the motivation's own, or the generated
    one when it has none. *)
Definition storedID (r : Registry) (m : Motivation) : string :=
  ID (withID r m).1.

(** [Register].  The argument is the pointer's target ([None] for nil).
    The result holds the registry, the target after the assignments made
    through the pointer, and the error. *)
Definition Register (r : Registry) (mp : option Motivation)
    (nowCreated nowUpdated : Time) : Registry * option Motivation * error :=
  match mp with
  | None => (r, None, Some "motivation cannot be nil"%string)
  | Some m =>
      let '(m, r) := withID r m in
      match motivations r !! ID m with
      | Some _ =>
          (r, Some m,
           Some ("motivation with ID " ++ ID m ++ " already exists")%string)
      | None =>
          let m := withDefaults (config r) m nowCreated nowUpdated in
          let r := set_motivations (<[ID m := m]> (motivations r)) r in
          let r := indexByRole r m in
          let r := indexByProject r m in
          (r, Some m, None)
      end
  end.

(** [item.ID] for an indexed pointer. *)
Definition deref_ID (r : Registry) (p : string) : string :=
  match motivations r !! p with
  | Some m => ID m
  | None => p
  end.

(** [removeFromSlice]: the slice without its first item whose ID is [id]. *)
Fixpoint removeFromSlice (r : Registry) (slice : list string) (id : string)
    : list string :=
  match slice with
  | [] => []
  | item :: rest =>
      if String.eqb (deref_ID r item) id then rest
      else item :: removeFromSlice r rest id
  end.

Definition Unregister (r : Registry) (id : string) : Registry * error :=
  match motivations r !! id with
  | None => (r, Some ("motivation not found: " ++ id)%string)
  | Some m =>
      let r1 :=
        if String.eqb (AgentRole m) "" then r
        else set_byRole (<[AgentRole m :=
                            removeFromSlice r (index_get (byRole r) (AgentRole m)) (ID m)]>
                           (byRole r)) r in
      let r2 :=
        if String.eqb (ProjectID m) ""
        then set_byProject (<[""%string :=
                               removeFromSlice r (index_get (byProject r) "") (ID m)]>
                              (byProject r1)) r1
        else set_byProject (<[ProjectID m :=
                               removeFromSlice r (index_get (byProject r) (ProjectID m)) (ID m)]>
                              (byProject r1)) r1 in
      (set_motivations (delete id (motivations r2)) r2, None)
  end.

Definition Get (r : Registry) (id : string) : option Motivation * error :=
  match motivations r !! id with
  | None => (None, Some ("motivation not found: " ++ id)%string)
  | Some m => (Some m, None)
  end.

Definition isActive (m : Motivation) : bool :=
  bool_decide (Status m = MotivationStatusActive).

(** [GetActive].  Go leaves the order of [range] over a map unspecified:
    [order] is the order in which this call visits the keys.  The result
    lists the pointers of the active motivations in that order. *)
Definition activeAt (r : Registry) (k : string) : bool :=
  match motivations r !! k with
  | Some m => isActive m
  | None => false
  end.

Definition GetActive (r : Registry) (order : list string) : list string :=
  filter (fun k => activeAt r k = true) order.

Definition Enable (r : Registry) (id : string) (now : Time) : Registry * error :=
  match motivations r !! id with
  | None => (r, Some ("motivation not found: " ++ id)%string)
  | Some m =>
      let m := set_Status MotivationStatusActive m in
      let m := set_DisabledAt None m in
      let m := set_UpdatedAt now m in
      (set_motivations (<[id := m]> (motivations r)) r, None)
  end.

Definition Disable (r : Registry) (id : string) (now : Time) : Registry * error :=
  match motivations r !! id with
  | None => (r, Some ("motivation not found: " ++ id)%string)
  | Some m =>
      let m := set_Status MotivationStatusDisabled m in
      let m := set_DisabledAt (Some now) m in
      let m := set_UpdatedAt now m in
      (set_motivations (<[id := m]> (motivations r)) r, None)
  end.

(** The values an [updates] map of [Update] can hold. *)
Inductive UpdateValue :=
| UScalar (v : Value)
| UParameters (p : gmap string Value).

Definition Update (r : Registry) (id : string) (updates : gmap string UpdateValue)
    (now : Time) : Registry * error :=
  match motivations r !! id with
  | None => (r, Some ("motivation not found: " ++ id)%string)
  | Some m =>
      let m := match updates !! "name"%string with
               | Some (UScalar (VString name)) => set_Name name m
               | _ => m
               end in
      let m := match updates !! "description"%string with
               | Some (UScalar (VString desc)) => set_Description desc m
               | _ => m
               end in
      let m := match updates !! "parameters"%string with
               | Some (UParameters params) => set_Parameters params m
               | _ => m
               end in
      let m := match updates !! "cooldown_period"%string with
               | Some (UScalar (VDuration cooldown)) => set_CooldownPeriod cooldown m
               | _ => m
               end in
      let m := match updates !! "priority"%string with
               | Some (UScalar (VInt priority)) => set_Priority priority m
               | _ => m
               end in
      let m := set_UpdatedAt now m in
      (set_motivations (<[id := m]> (motivations r)) r, None)
  end.

(** The block of [RecordTrigger] that updates the motivation found under
    the trigger's [MotivationID]; [now] is what [time.Now()] returns. *)
Definition markTriggered (trigger : MotivationTrigger) (now : Time)
    (m : Motivation) : Motivation :=
  let m := set_LastTriggeredAt (Some (TriggeredAt trigger)) m in
  let m := set_TriggerCount (wrap64 (TriggerCount m + 1)) m in
  let m := set_UpdatedAt now m in
  if bool_decide (Result trigger = TriggerResultSuccess)
  then set_Status MotivationStatusCooldown m
  else m.

(** [RecordTrigger]. *)
Definition RecordTrigger (r : Registry) (trigger : MotivationTrigger) (now : Time)
    : Registry :=
  let r :=
    match motivations r !! MotivationID trigger with
    | Some m =>
        set_motivations
          (<[MotivationID trigger := markTriggered trigger now m]> (motivations r)) r
    | None => r
    end in
  let ts := triggers r ++ [trigger] in
  let ts := if (1000 <? length ts)%nat then drop (length ts - 1000)%nat ts else ts in
  set_triggers ts r.

(** [GetTriggerHistory]. *)
Definition GetTriggerHistory (r : Registry) (limit : Z) : list MotivationTrigger :=
  let len := Z.of_nat (length (triggers r)) in
  let limit := if (limit <=? 0) || (len <? limit) then len else limit in
  let start := len - limit in
  let start := if start <? 0 then 0 else start in
  take (Z.to_nat limit) (drop (Z.to_nat start) (triggers r)).

(** One iteration of the loop of [CheckCooldowns]. *)
Definition checkCooldown (now : Time) (m : Motivation) : Motivation :=
  match Status m, LastTriggeredAt m with
  | MotivationStatusCooldown, Some last =>
      if CooldownPeriod m <=? Sub now last
      then set_Status MotivationStatusActive m
      else m
  | _, _ => m
  end.

(** [CheckCooldowns]; [now] is what [time.Now()] returns.  The loop treats
    every entry on its own, so the order of the iteration does not show. *)
Definition CheckCooldowns (r : Registry) (now : Time) : Registry :=
  set_motivations (checkCooldown now <$> motivations r) r.

Definition Count (r : Registry) : nat := size (motivations r).


(** ** Engine ([engine.go]) *)

(** The [ActionHandler] interface: what each call returns.  A handler is
    taken not to write through the [*Motivation] it is handed and not to
    call back into the registry.  ([StartWorkflow] is not called by the
    engine and is left out.) *)
Module ActionHandler.
Record t := mk {
  CreateStimulusBead : Motivation -> gmap string Value -> string * error;
  WakeAgent : string -> Motivation -> error;
  WakeAgentsByRole : string -> Motivation -> error;
  PublishMotivationFired : MotivationTrigger -> error
}.
End ActionHandler.

(** The [Evaluator] interface: [Evaluate(ctx, m, state)] for the state
    provider of the engine, as a function of the motivation. *)
Definition Evaluator := Motivation -> bool * gmap string Value * error.

(** The fields of [Engine] other than the registry (which is part of the
    [World] below), the lock and the run flag.  [actionHandler] is [None]
    for a nil interface value. *)
Record Engine := mkEngine {
  engine_config : MotivationConfig;
  evaluators : gmap string Evaluator;
  actionHandler : option ActionHandler.t
}.

(** What the engine does to the outside: the calls made on the action
    handler and the lines written with [log.Printf]. *)
Inductive Event :=
| CallCreateStimulusBead (m : Motivation) (triggerData : gmap string Value)
| CallWakeAgent (agentID : string) (m : Motivation)
| CallWakeAgentsByRole (role : string) (m : Motivation)
| CallPublishMotivationFired (trigger : MotivationTrigger)
| LogWakeAgentFailed (agentID err : string)
| LogWakeAgentsByRoleFailed (role err : string)
| LogPublishFailed (err : string)
| LogMotivationFired (name id agentRole : string).

(** The mutable world of the engine: the registry it points to, the number
    of [time.Now()] calls made so far, and the events so far (oldest
    first). *)
Record World := mkWorld {
  registry : Registry;
  reads : nat;
  trace : list Event
}.

(** A computation returns a value and a new world, or panics (a method
    call on a nil interface value). *)
Inductive outcome (A : Type) :=
| Returns (a : A) (w : World)
| Panics.
Arguments Returns {A} a w.
Arguments Panics {A}.

Definition M (A : Type) : Type := World -> outcome A.

Definition ret {A} (a : A) : M A := fun w => Returns a w.

Definition bind {A B} (c : M A) (k : A -> M B) : M B :=
  fun w => match c w with
           | Returns a w' => k a w'
           | Panics => Panics
           end.

Notation "'do' x <- c ; k" := (bind c (fun x => k))
  (at level 100, x name, c at level 99, k at level 200).
Notation "'run' c ; k" := (bind c (fun _ => k))
  (at level 100, c at level 99, k at level 200).

Definition panic {A} : M A := fun _ => Panics.

Definition getRegistry : M Registry := fun w => Returns (registry w) w.

Definition modifyRegistry (f : Registry -> Registry) : M unit :=
  fun w => Returns tt {| registry := f (registry w); reads := reads w;
                         trace := trace w |}.

Definition emit (ev : Event) : M unit :=
  fun w => Returns tt {| registry := registry w; reads := reads w;
                         trace := trace w ++ [ev] |}.

Section WithClock.

(** [clock n] is what the call of [time.Now()] returns that comes after
    [n] earlier ones. *)
Variable clock : nat -> Time.

Definition time_Now : M Time :=
  fun w => Returns (clock (reads w))
             {| registry := registry w; reads := S (reads w);
                trace := trace w |}.

(** [now.UnixNano()]: times are already counted in Unix nanoseconds. *)
Definition UnixNano (t : Time) : Z := t.

(** The receiver of a call [e.actionHandler.F(...)]. *)
Definition theHandler (e : Engine) : M ActionHandler.t :=
  match actionHandler e with
  | Some h => ret h
  | None => panic
  end.

(** [evaluate]. *)
Definition evaluate (e : Engine) (m : Motivation)
    : bool * gmap string Value * error :=
  match evaluators e !! Type_ m with
  | None => (false, ∅, Some ("no evaluator for motivation type: " ++ Type_ m)%string)
  | Some evaluator => evaluator m
  end.

(** The trigger [fire] starts from. *)
Definition newTrigger (p : string) (m : Motivation)
    (triggerData : gmap string Value) (now : Time) : MotivationTrigger :=
  {| TrigID := "trig-" ++ fmt_d (UnixNano now);
     MotivationID := ID m;
     MotivationRef := p;
     TriggeredAt := now;
     TriggerData := triggerData;
     Result := TriggerResultSuccess;
     Error := "";
     BeadCreated := "";
     AgentWoken := "" |}.

(** The block [if m.CreateBeadOnTrigger { ... }] of [fire]. *)
Definition fireCreateBead (e : Engine) (m : Motivation)
    (triggerData : gmap string Value) (trigger : MotivationTrigger)
    : M MotivationTrigger :=
  if CreateBeadOnTrigger m then
    do h <- theHandler e;
    run emit (CallCreateStimulusBead m triggerData);
    match ActionHandler.CreateStimulusBead h m triggerData with
    | (_, Some err) =>
        ret (set_Error err (set_Result TriggerResultError trigger))
    | (beadID, None) => ret (set_BeadCreated beadID trigger)
    end
  else ret trigger.

(** The block [if m.WakeAgent && trigger.Result == TriggerResultSuccess
    { ... }] of [fire]. *)
Definition fireWake (e : Engine) (m : Motivation) (trigger : MotivationTrigger)
    : M MotivationTrigger :=
  if WakeAgent m && bool_decide (Result trigger = TriggerResultSuccess) then
    if negb (String.eqb (AgentID m) "") then
      do h <- theHandler e;
      run emit (CallWakeAgent (AgentID m) m);
      match ActionHandler.WakeAgent h (AgentID m) m with
      | Some err =>
          run emit (LogWakeAgentFailed (AgentID m) err); ret trigger
      | None => ret (set_AgentWoken (AgentID m) trigger)
      end
    else if negb (String.eqb (AgentRole m) "") then
      do h <- theHandler e;
      run emit (CallWakeAgentsByRole (AgentRole m) m);
      match ActionHandler.WakeAgentsByRole h (AgentRole m) m with
      | Some err =>
          run emit (LogWakeAgentsByRoleFailed (AgentRole m) err);
          ret trigger
      | None => ret trigger
      end
    else ret trigger
  else ret trigger.

(** The block [if e.actionHandler != nil { ... }] of [fire]. *)
Definition firePublish (e : Engine) (trigger : MotivationTrigger) : M unit :=
  match actionHandler e with
  | Some h =>
      run emit (CallPublishMotivationFired trigger);
      match ActionHandler.PublishMotivationFired h trigger with
      | Some err => emit (LogPublishFailed err)
      | None => ret tt
      end
  | None => ret tt
  end.

(** [fire].  [p] is the pointer [m] and [m] the motivation it points to
    when [fire] is entered.  [RecordTrigger] reads the clock only when it
    finds the motivation; the reading is taken here in either case. *)
Definition fire (e : Engine) (p : string) (m : Motivation)
    (triggerData : gmap string Value) : M error :=
  do now <- time_Now;
  do trigger <- fireCreateBead e m triggerData (newTrigger p m triggerData now);
  do trigger <- fireWake e m trigger;
  run firePublish e trigger;
  do nowRecord <- time_Now;
  run modifyRegistry (fun r => RecordTrigger r trigger nowRecord);
  run emit (LogMotivationFired (Name m) (ID m) (AgentRole m));
  ret None.

(** The loop of [Tick] over the pointers [GetActive] returned, entered
    with the current [triggered] and [lastErr].  A pointer is read when
    its turn comes; nothing removes a motivation during a tick, so the
    read finds it. *)
Fixpoint tickLoop (e : Engine) (ms : list string) (triggered : Z)
    (lastErr : error) : M (Z * error) :=
  match ms with
  | [] => ret (triggered, lastErr)
  | p :: rest =>
      if MaxTriggersPerTick (engine_config e) <=? triggered
      then ret (triggered, lastErr)
      else
        do r <- getRegistry;
        match motivations r !! p with
        | None => tickLoop e rest triggered lastErr
        | Some m =>
            match evaluate e m with
            | (_, _, Some err) => tickLoop e rest triggered (Some err)
            | (shouldFire, triggerData, None) =>
                if shouldFire then
                  do ferr <- fire e p m triggerData;
                  match ferr with
                  | Some err => tickLoop e rest triggered (Some err)
                  | None => tickLoop e rest (triggered + 1) lastErr
                  end
                else tickLoop e rest triggered lastErr
            end
        end
  end.

(** [Tick]; [order] is the order in which [GetActive] visits the map. *)
Definition Tick (e : Engine) (order : list string) : M (Z * error) :=
  do now <- time_Now;
  run modifyRegistry (fun r => CheckCooldowns r now);
  do r <- getRegistry;
  let ms := GetActive r order in
  if (length ms =? 0)%nat then ret (0, None)
  else tickLoop e ms 0 None.

(** [ManualTrigger]. *)
Definition ManualTrigger (e : Engine) (motivationID : string)
    : M (option MotivationTrigger * error) :=
  do r <- getRegistry;
  match Get r motivationID with
  | (Some m, None) =>
      do now <- time_Now;
      let trigger :=
        {| TrigID := "trig-manual-" ++ fmt_d (UnixNano now);
           MotivationID := ID m;
           MotivationRef := motivationID;
           TriggeredAt := now;
           TriggerData := {[ "manual"%string := VBool true ]};
           Result := TriggerResultSuccess;
           Error := "";
           BeadCreated := "";
           AgentWoken := "" |} in
      do ferr <- fire e motivationID m (TriggerData trigger);
      match ferr with
      | Some err =>
          ret (Some (set_Error err (set_Result TriggerResultError trigger)),
               Some err)
      | None => ret (Some trigger, None)
      end
  | (_, err) => ret (None, err)
  end.

End WithClock.

(** [NewEngine] for a registry (whose configuration is never nil) and an
    action handler; [evs] is the evaluator table it fills in. *)
Definition NewEngine (r : Registry) (evs : gmap string Evaluator)
    (h : option ActionHandler.t) : Engine :=
  {| engine_config := config r; evaluators := evs; actionHandler := h |}.

(** ** Notions used by the statements *)

(** The last [n] elements of a list. *)
Definition lastN {A} (n : nat) (l : list A) : list A := drop (length l - n) l.

(** Every stored motivation carries the ID it is stored under. *)
Definition registry_wf (r : Registry) : Prop :=
  ∀ k m, motivations r !! k = Some m -> ID m = k.

(** The registries that the operations of the package build from
    [NewRegistry]. *)
Inductive reachable : Registry -> Prop :=
| reach_NewRegistry cfg :
    reachable (NewRegistry cfg)
| reach_Register r mp t1 t2 :
    reachable r -> reachable (Register r mp t1 t2).1.1
| reach_Unregister r id :
    reachable r -> reachable (Unregister r id).1
| reach_Enable r id now :
    reachable r -> reachable (Enable r id now).1
| reach_Disable r id now :
    reachable r -> reachable (Disable r id now).1
| reach_Update r id updates now :
    reachable r -> reachable (Update r id updates now).1
| reach_RecordTrigger r trigger now :
    reachable r -> reachable (RecordTrigger r trigger now)
| reach_CheckCooldowns r now :
    reachable r -> reachable (CheckCooldowns r now).

(** A run of [RecordTrigger] calls, each with the time it reads. *)
Definition recordAll (r : Registry) (calls : list (MotivationTrigger * Time))
    : Registry :=
  foldl (fun r c => RecordTrigger r c.1 c.2) r calls.

(** The IDs in the "Motivation fired" lines among some events, in order. *)
Definition firedIDs (evs : list Event) : list string :=
  omap (fun ev => match ev with
                  | LogMotivationFired _ id _ => Some id
                  | _ => None
                  end) evs.

(** The handler calls that wake agents, among some events. *)
Definition isWakeCall (ev : Event) : bool :=
  match ev with
  | CallWakeAgent _ _ | CallWakeAgentsByRole _ _ => true
  | _ => false
  end.

(** The events of [w'] that came after those of [w]. *)
Definition eventsSince (w w' : World) : list Event :=
  drop (length (trace w)) (trace w').

(** The world after [r.RecordTrigger(trigger)] with the clock at
    [nowRecord]. *)
Definition afterRecordTrigger (w : World) (trigger : MotivationTrigger)
    (nowRecord : Time) : World :=
  {| registry := RecordTrigger (registry w) trigger nowRecord;
     reads := reads w; trace := trace w |}.

(** Two triggers that describe the same firing: they differ at most in
    result, error, bead and woken agent. *)
Definition sameFiring (t t' : MotivationTrigger) : Prop :=
  TrigID t' = TrigID t ∧ MotivationID t' = MotivationID t ∧
  MotivationRef t' = MotivationRef t ∧ TriggeredAt t' = TriggeredAt t ∧
  TriggerData t' = TriggerData t.

(** A block of [fire] that leaves the registry and the clock alone and adds
    events, none of them a "Motivation fired" line, and that can panic only
    on a nil action handler. *)
Definition quietBlock {A} (e : Engine) (c : M A)
    (post : A -> list Event -> Prop) : Prop :=
  ∀ w, match c w with
       | Returns a w' =>
           registry w' = registry w ∧ reads w' = reads w ∧
           ∃ evs, trace w' = trace w ++ evs ∧ firedIDs evs = [] ∧ post a evs
       | Panics => actionHandler e = None
       end.

(** The estimate in the words of the specification, Σ ⌈len(content)/4⌉,
    to compare with [totalTokens]. *)
Definition ceilTokens (messages : list ChatMessage) : Z :=
  fold_right (fun m acc => (Z.of_nat (String.length (Content m)) + 3) / 4 + acc)
    0 messages.

(** ** Concrete inputs *)

(** A content of [n] bytes, for concrete inputs. *)
Fixpoint filler (n : nat) : string :=
  match n with
  | O => EmptyString
  | S k => String "x"%char (filler k)
  end.

Definition userMsg (n : Z) : ChatMessage :=
  {| Role := "user"; Content := filler (Z.to_nat n) |}.

Definition systemMsg_ (n : Z) : ChatMessage :=
  {| Role := "system"; Content := filler (Z.to_nat n) |}.

Definition gpt35 : Worker := {| provider_Config_Model := "gpt-3.5-turbo" |}.

Definition millisecond : Duration := 1000000.

(** The configuration of [TestEngineMaxTriggersPerTick]. *)
Definition cfg0 : MotivationConfig :=
  {| EvaluationInterval := 100 * millisecond;
     DefaultCooldown := 50 * millisecond;
     MaxTriggersPerTick := 2;
     IdleThreshold := 0;
     EnabledByDefault := true |}.

(** [&Motivation{ID: id, Name: name}]: every other field at its zero
    value. *)
Definition zeroMotivation (id name : string) : Motivation :=
  {| ID := id; Name := name; Description := ""; Type_ := ""; Condition := "";
     AgentID := ""; AgentRole := ""; ProjectID := ""; Parameters := ∅;
     CooldownPeriod := 0; Priority := 0; Status := StatusUnset;
     CreateBeadOnTrigger := false; WakeAgent := false; IsBuiltIn := false;
     CreatedAt := zeroTime; UpdatedAt := zeroTime; LastTriggeredAt := None;
     NextTriggerAt := None; DisabledAt := None; TriggerCount := 0 |}.

(** [&MotivationTrigger{ID: tid, MotivationID: id, TriggeredAt: at,
    Result: res}]. *)
Definition plainTrigger (tid id : string) (at_ : Time) (res : TriggerResult)
    : MotivationTrigger :=
  {| TrigID := tid; MotivationID := id; MotivationRef := ""; TriggeredAt := at_;
     TriggerData := ∅; Result := res; Error := ""; BeadCreated := "";
     AgentWoken := "" |}.

(** A registry holding one motivation ["m1"], registered at time 1000. *)
Definition registry1 : Registry :=
  (Register (NewRegistry cfg0) (Some (zeroMotivation "m1" "Test")) 1000 1000).1.1.

(** A motivation with a priority of 500 and a cooldown of -5 ns. *)
Definition outOfRangeMotivation : Motivation :=
  set_CooldownPeriod (-5) (set_Priority 500 (zeroMotivation "bad" "Bad")).

(** A clock that reads 3000, 3001, ... *)
Definition clock0 (n : nat) : Time := 3000 + Z.of_nat n.

(** A motivation as the engine tests build them. *)
Definition testMotivation (id name type role : string) (createBead wake : bool)
    : Motivation :=
  {| ID := id; Name := name; Description := ""; Type_ := type; Condition := "";
     AgentID := ""; AgentRole := role; ProjectID := ""; Parameters := ∅;
     CooldownPeriod := 0; Priority := 0; Status := StatusUnset;
     CreateBeadOnTrigger := createBead; WakeAgent := wake; IsBuiltIn := false;
     CreatedAt := zeroTime; UpdatedAt := zeroTime; LastTriggeredAt := None;
     NextTriggerAt := None; DisabledAt := None; TriggerCount := 0 |}.

(** The [MockActionHandler] of the engine tests: every call succeeds. *)
Definition mockHandler : ActionHandler.t :=
  {| ActionHandler.CreateStimulusBead :=
       fun m _ => (("bead-stimulus-" ++ ID m)%string, None);
     ActionHandler.WakeAgent := fun _ _ => None;
     ActionHandler.WakeAgentsByRole := fun _ _ => None;
     ActionHandler.PublishMotivationFired := fun _ => None |}.

(** A handler whose [CreateStimulusBead] fails. *)
Definition failingHandler : ActionHandler.t :=
  {| ActionHandler.CreateStimulusBead :=
       fun _ _ => (""%string, Some "bead store unavailable"%string);
     ActionHandler.WakeAgent := fun _ _ => None;
     ActionHandler.WakeAgentsByRole := fun _ _ => None;
     ActionHandler.PublishMotivationFired := fun _ => None |}.

(** An evaluator that always says fire, registered for the type "idle". *)
Definition alwaysFires : Evaluator := fun _ => (true, ∅, None).

Definition evaluators0 : gmap string Evaluator :=
  {[ "idle"%string := alwaysFires ]}.

(** The registry of [TestEngineMaxTriggersPerTick]: three motivations
    without ID, registered in turn (they get "mot-1", "mot-2", "mot-3"). *)
Definition registry3 : Registry :=
  let r0 := NewRegistry cfg0 in
  let r1 := (Register r0 (Some (testMotivation "" "M1" "idle" "ceo" false true)) 1000 1000).1.1 in
  let r2 := (Register r1 (Some (testMotivation "" "M2" "idle" "ceo" false true)) 1001 1001).1.1 in
  (Register r2 (Some (testMotivation "" "M3" "idle" "pm" false true)) 1002 1002).1.1.

Definition engine0 : Engine := NewEngine registry3 evaluators0 (Some mockHandler).

Definition engineFailing : Engine :=
  NewEngine registry3 evaluators0 (Some failingHandler).

Definition world3 : World := {| registry := registry3; reads := 0; trace := [] |}.

Definition order3 : list string := ["mot-1"; "mot-2"; "mot-3"]%string.

(** A motivation that creates a bead and wakes its role when it fires. *)
Definition beadMotivation : Motivation :=
  set_Status MotivationStatusActive
    (testMotivation "cost" "Cost Exceeded" "idle" "cfo" true true).

(** A registry with the one motivation "m1" (type "idle", cooldown
    50 ms). *)
Definition registryIdle : Registry :=
  (Register (NewRegistry cfg0)
     (Some (testMotivation "m1" "System Idle" "idle" "ceo" false true)) 1000 1000).1.1.

Definition worldIdle : World :=
  {| registry := registryIdle; reads := 0; trace := [] |}.

(** Scenario 6 of the specification: a system message and 50 user and
    assistant messages of 2,000 bytes each, for a model the table does not
    know. *)
Definition history50 : list ChatMessage :=
  systemMsg_ 400 :: concat (replicate 25 [userMsg 2000;
                                          {| Role := "assistant";
                                             Content := filler 2000 |}]).

Definition unknownModel : Worker := {| provider_Config_Model := "my-model" |}.

(** Five triggers for "m1", as in [TestTriggerHistory]. *)
Definition fiveTriggers : list (MotivationTrigger * Time) :=
  [(plainTrigger "trigger-a" "m1" 2000 TriggerResultSuccess, 2000);
   (plainTrigger "trigger-b" "m1" 2001 TriggerResultSuccess, 2001);
   (plainTrigger "trigger-c" "m1" 2002 TriggerResultSuccess, 2002);
   (plainTrigger "trigger-d" "m1" 2003 TriggerResultSuccess, 2003);
   (plainTrigger "trigger-e" "m1" 2004 TriggerResultSuccess, 2004)].

(** A clock for [TestEngineCooldownPreventsRetrigger]: the first four
    readings come at once, the later ones 250 ms after. *)
Definition clockJump (n : nat) : Time :=
  if (n <? 4)%nat then 3000 + Z.of_nat n
  else 3000 + 250 * millisecond + Z.of_nat n.

(* ===================================================================== *)
(** * Part I, continued: the rest of the registry and of the engine, the
      Temporal activity and the idle detector *)
(* ===================================================================== *)

(** ** Registry: the queries *)

(** [MotivationFilters]; [IsBuiltIn] is a [*bool]. *)
Module MotivationFilters.
Record t := mk {
  Type_ : string;
  Status : MotivationStatus;
  AgentRole : string;
  ProjectID : string;
  IsBuiltIn : option bool
}.
End MotivationFilters.

(** [Matches]. *)
Definition Matches (f : MotivationFilters.t) (m : Motivation) : bool :=
  if negb (String.eqb (MotivationFilters.Type_ f) "")
     && negb (String.eqb (Type_ m) (MotivationFilters.Type_ f))
  then false
  else if negb (bool_decide (MotivationFilters.Status f = StatusUnset))
          && negb (bool_decide (Status m = MotivationFilters.Status f))
  then false
  else if negb (String.eqb (MotivationFilters.AgentRole f) "")
          && negb (String.eqb (AgentRole m) (MotivationFilters.AgentRole f))
  then false
  else if negb (String.eqb (MotivationFilters.ProjectID f) "")
          && negb (String.eqb (ProjectID m) (MotivationFilters.ProjectID f))
  then false
  else match MotivationFilters.IsBuiltIn f with
       | Some b => if negb (Bool.eqb (IsBuiltIn m) b) then false else true
       | None => true
       end.

(** The test of the loop of [List] on the entry under [k]; [filters] is
    [None] for a nil pointer. *)
Definition listedAt (r : Registry) (filters : option MotivationFilters.t)
    (k : string) : bool :=
  match motivations r !! k with
  | Some m => match filters with
              | None => true
              | Some f => Matches f m
              end
  | None => false
  end.

(** [List]; as for [GetActive], [order] is the order in which the call
    visits the map, and the result lists pointers. *)
Definition List (r : Registry) (filters : option MotivationFilters.t)
    (order : list string) : list string :=
  filter (fun k => listedAt r filters k = true) order.

Definition roleListedAt (r : Registry) (role : string) (k : string) : bool :=
  match motivations r !! k with
  | Some m => String.eqb (AgentRole m) "" || String.eqb (AgentRole m) role
  | None => false
  end.

(** [ListByRole]. *)
Definition ListByRole (r : Registry) (role : string) (order : list string)
    : list string :=
  filter (fun k => roleListedAt r role k = true) order.

(** [ListByProject]. *)
Definition ListByProject (r : Registry) (projectID : string) : list string :=
  index_get (byProject r) "" ++
  (if String.eqb projectID "" then [] else index_get (byProject r) projectID).

(** [Config]. *)
Definition Config (r : Registry) : MotivationConfig := config r.

(** [order] visits every key of the map once. *)
Definition enumerates (r : Registry) (order : list string) : Prop :=
  NoDup order ∧ ∀ k, k ∈ order <-> is_Some (motivations r !! k).

(** The two indexes agree with the map: the slice under a role (a project)
    holds, each once, the pointers of the motivations with that role (that
    project); motivations without role are in no role slice, those without
    project in the slice under the empty key. *)
Definition index_ok (r : Registry) : Prop :=
  (∀ role p, p ∈ index_get (byRole r) role <->
             role ≠ ""%string ∧
             ∃ m, motivations r !! p = Some m ∧ AgentRole m = role) ∧
  (∀ role, NoDup (index_get (byRole r) role)) ∧
  (∀ proj p, p ∈ index_get (byProject r) proj <->
             ∃ m, motivations r !! p = Some m ∧ ProjectID m = proj) ∧
  (∀ proj, NoDup (index_get (byProject r) proj)).


(** [&Motivation{ID: id, Name: id, ProjectID: proj}]. *)
Definition projectMotivation (id proj : string) : Motivation :=
  {| ID := id; Name := id; Description := ""; Type_ := ""; Condition := "";
     AgentID := ""; AgentRole := ""; ProjectID := proj; Parameters := ∅;
     CooldownPeriod := 0; Priority := 0; Status := StatusUnset;
     CreateBeadOnTrigger := false; WakeAgent := false; IsBuiltIn := false;
     CreatedAt := zeroTime; UpdatedAt := zeroTime; LastTriggeredAt := None;
     NextTriggerAt := None; DisabledAt := None; TriggerCount := 0 |}.

(** A registry with "a" and "b" of project "p1", "c" without project and
    "d" of project "p2". *)
Definition registryProjects : Registry :=
  let reg (id proj : string) (r : Registry) :=
    (Register r (Some (projectMotivation id proj)) 1000 1000).1.1 in
  reg "d" "p2" (reg "c" "" (reg "b" "p1" (reg "a" "p1" (NewRegistry cfg0)))).

(** ** Engine: what [fire] records and what a tick does *)

(** The trigger after the block [if m.CreateBeadOnTrigger { ... }] of
    [fire].  (Where [fire] would call a nil handler it panics and there is
    no such trigger; the trigger is then left as it is here.) *)
Definition afterCreateBead (e : Engine) (m : Motivation)
    (triggerData : gmap string Value) (trigger : MotivationTrigger)
    : MotivationTrigger :=
  if CreateBeadOnTrigger m then
    match actionHandler e with
    | Some h =>
        match ActionHandler.CreateStimulusBead h m triggerData with
        | (_, Some err) => set_Error err (set_Result TriggerResultError trigger)
        | (beadID, None) => set_BeadCreated beadID trigger
        end
    | None => trigger
    end
  else trigger.

(** The trigger after the block [if m.WakeAgent && ... { ... }]. *)
Definition afterWake (e : Engine) (m : Motivation) (trigger : MotivationTrigger)
    : MotivationTrigger :=
  if WakeAgent m && bool_decide (Result trigger = TriggerResultSuccess) then
    if negb (String.eqb (AgentID m) "") then
      match actionHandler e with
      | Some h =>
          match ActionHandler.WakeAgent h (AgentID m) m with
          | Some _ => trigger
          | None => set_AgentWoken (AgentID m) trigger
          end
      | None => trigger
      end
    else trigger
  else trigger.

(** The trigger [fire] hands to [PublishMotivationFired] and
    [RecordTrigger]. *)
Definition firedTrigger (e : Engine) (p : string) (m : Motivation)
    (triggerData : gmap string Value) (now : Time) : MotivationTrigger :=
  afterWake e m (afterCreateBead e m triggerData (newTrigger p m triggerData now)).

(** The loop of [Tick] run on the registry [r] as it is when the loop is
    entered, without the registry being written in between: the
    [RecordTrigger] calls the loop makes, each with the time it reads, and
    the error it returns.  [reads] counts the clock readings made so far;
    each firing makes two. *)
Fixpoint tickPlan (clock : nat -> Time) (e : Engine) (r : Registry)
    (ms : list string) (triggered : Z) (lastErr : error) (reads : nat)
    : list (MotivationTrigger * Time) * error :=
  match ms with
  | [] => ([], lastErr)
  | p :: rest =>
      if MaxTriggersPerTick (engine_config e) <=? triggered
      then ([], lastErr)
      else
        match motivations r !! p with
        | None => tickPlan clock e r rest triggered lastErr reads
        | Some m =>
            match evaluate e m with
            | (_, _, Some err) => tickPlan clock e r rest triggered (Some err) reads
            | (shouldFire, triggerData, None) =>
                if shouldFire then
                  let plan := tickPlan clock e r rest (triggered + 1) lastErr
                                (S (S reads)) in
                  ((firedTrigger e p m triggerData (clock reads), clock (S reads))
                     :: plan.1, plan.2)
                else tickPlan clock e r rest triggered lastErr reads
            end
        end
  end.

(** A registry with the one motivation "cost", which creates a bead when
    it fires. *)
Definition registryBead : Registry :=
  (Register (NewRegistry cfg0) (Some beadMotivation) 1000 1000).1.1.

Definition worldBead : World :=
  {| registry := registryBead; reads := 0; trace := [] |}.

(** ** Engine: [tick], the cycle of the background loop *)

(** The lines [tick] itself writes with [log.Printf]; those of [fire] are
    events of the world. *)
Inductive TickLog :=
| LogMaxTriggersReached (cap : Z)
| LogErrorEvaluating (id err : string)
| LogErrorFiring (id err : string).

(** The loop of [tick].  The lines it writes are collected in [logs] and
    returned, in order (their place among the events of [fire] is not
    kept). *)
Fixpoint tickLogLoop (clock : nat -> Time) (e : Engine) (ms : list string)
    (triggered : Z) (logs : list TickLog) : M (list TickLog) :=
  match ms with
  | [] => ret logs
  | p :: rest =>
      if MaxTriggersPerTick (engine_config e) <=? triggered
      then ret (logs ++ [LogMaxTriggersReached (MaxTriggersPerTick (engine_config e))])
      else
        do r <- getRegistry;
        match motivations r !! p with
        | None => tickLogLoop clock e rest triggered logs
        | Some m =>
            match evaluate e m with
            | (_, _, Some err) =>
                tickLogLoop clock e rest triggered
                  (logs ++ [LogErrorEvaluating (ID m) err])
            | (shouldFire, triggerData, None) =>
                if shouldFire then
                  do ferr <- fire clock e p m triggerData;
                  match ferr with
                  | Some err =>
                      tickLogLoop clock e rest triggered
                        (logs ++ [LogErrorFiring (ID m) err])
                  | None => tickLogLoop clock e rest (triggered + 1) logs
                  end
                else tickLogLoop clock e rest triggered logs
            end
        end
  end.

(** [tick]; it returns nothing, the result here is what it logged. *)
Definition tick (clock : nat -> Time) (e : Engine) (order : list string)
    : M (list TickLog) :=
  do now <- time_Now clock;
  run modifyRegistry (fun r => CheckCooldowns r now);
  do r <- getRegistry;
  let ms := GetActive r order in
  if (length ms =? 0)%nat then ret []
  else tickLogLoop clock e ms 0 [].

(** The messages of the "Error evaluating motivation" lines, in order. *)
Definition evaluationErrors (logs : list TickLog) : list string :=
  omap (fun l => match l with
                 | LogErrorEvaluating _ err => Some err
                 | _ => None
                 end) logs.

(** [RegisterEvaluator]. *)
Definition RegisterEvaluator (e : Engine) (motivationType : string)
    (evaluator : Evaluator) : Engine :=
  {| engine_config := engine_config e;
     evaluators := <[motivationType := evaluator]> (evaluators e);
     actionHandler := actionHandler e |}.

(** ** The Temporal activity ([MotivationActivity]) *)

Record MotivationActivityResult := mkMotivationActivityResult {
  MotivationsEvaluated : Z;
  MotivationsFired : Z;
  FiredMotivationIDs : list string;
  Errors : list string
}.

(** The lines [EvaluateMotivations] writes with [log.Printf]. *)
Inductive ActivityLog :=
| LogEvaluationError (beat : Z) (err : string)
| LogActivity (beat evaluated fired : Z).

(** [EvaluateMotivations] for the activity's engine ([None] for a nil
    pointer) and [input.BeatCount].  [order1] is the order in which its
    own [GetActive] visits the map and [order2] the order of the one in
    [Tick].  The result holds what the call returns and the lines it
    logged. *)
Definition EvaluateMotivations (clock : nat -> Time) (engine : option Engine)
    (BeatCount : Z) (order1 order2 : list string)
    : M (MotivationActivityResult * error * list ActivityLog) :=
  let result := {| MotivationsEvaluated := 0; MotivationsFired := 0;
                   FiredMotivationIDs := []; Errors := [] |} in
  match engine with
  | None => ret (result, None, [])
  | Some e =>
      do r <- getRegistry;
      let activeMotivations := GetActive r order1 in
      let evaluated := Z.of_nat (length activeMotivations) in
      do res <- Tick clock e order2;
      let triggered := res.1 in
      let errors := match res.2 with Some msg => [msg] | None => [] end in
      let logs := match res.2 with
                  | Some msg => [LogEvaluationError BeatCount msg]
                  | None => []
                  end in
      do r <- getRegistry;
      let history := GetTriggerHistory r triggered in
      let ids := MotivationID <$> history in
      let logs := if 0 <? triggered
                  then logs ++ [LogActivity BeatCount evaluated triggered]
                  else logs in
      ret ({| MotivationsEvaluated := evaluated; MotivationsFired := triggered;
              FiredMotivationIDs := ids; Errors := errors |}, None, logs)
  end.

(** ** Idle detector ([IdleDetector]) *)

Module Idle.

Record IdleConfig := mkIdleConfig {
  SystemIdleThreshold : Duration;
  ProjectIdleThreshold : Duration;
  AgentIdleThreshold : Duration;
  CheckInterval : Duration
}.

(** The detector; a listener is known by a number. *)
Record IdleDetector := mkIdleDetector {
  config : IdleConfig;
  lastAgentWork : Time;
  lastBeadActivity : Time;
  lastSystemEvent : Time;
  listeners : list nat
}.

Record AgentActivityState := mkAgentActivityState {
  AgentID : string;
  Status : string;
  LastActive : Time;
  AgentProjectID : string
}.

Record ProjectActivityState := mkProjectActivityState {
  ProjectID : string;
  LastActivity : Time;
  ActiveAgentCount : Z;
  OpenBeadCount : Z
}.

(** What the three methods of an [IdleDataProvider] return. *)
Record IdleDataProvider := mkIdleDataProvider {
  GetAgentStates : gmap string AgentActivityState;
  GetBeadStates : gmap string Z;
  GetProjectStates : gmap string ProjectActivityState
}.

Record ProjectIdleState := mkProjectIdleState {
  PProjectID : string;
  IsIdle : bool;
  IdleSince : option Time;
  IdlePeriod : Duration;
  AgentCount : Z;
  OpenBeads : Z
}.

Record IdleState := mkIdleState {
  IsSystemIdle_ : bool;
  SystemIdleSince : option Time;
  SystemIdlePeriod : Duration;
  TotalAgents : Z;
  WorkingAgents : Z;
  IdleAgents : Z;
  PausedAgents : Z;
  TotalBeads : Z;
  SOpenBeads : Z;
  InProgressBeads : Z;
  IdleProjects : list ProjectIdleState;
  LastAgentActivity : Time;
  LastBeadActivity : Time;
  CheckedAt : Time
}.

(** The orders in which one call visits the three maps of the provider. *)
Record Orders := mkOrders {
  agentOrder : list string;
  beadOrder : list string;
  projectOrder : list string
}.

(** [NewIdleDetector] with a non-nil configuration; the three times are
    what its three [time.Now()] calls return. *)
Definition NewIdleDetector (cfg : IdleConfig) (t1 t2 t3 : Time) : IdleDetector :=
  {| config := cfg; lastAgentWork := t1; lastBeadActivity := t2;
     lastSystemEvent := t3; listeners := [] |}.

Definition AddListener (d : IdleDetector) (listener : nat) : IdleDetector :=
  {| config := config d; lastAgentWork := lastAgentWork d;
     lastBeadActivity := lastBeadActivity d;
     lastSystemEvent := lastSystemEvent d;
     listeners := listeners d ++ [listener] |}.

(** [RecordAgentActivity]; it reads the clock twice. *)
Definition RecordAgentActivity (d : IdleDetector) (agentID : string)
    (t1 t2 : Time) : IdleDetector :=
  {| config := config d; lastAgentWork := t1;
     lastBeadActivity := lastBeadActivity d;
     lastSystemEvent := t2; listeners := listeners d |}.

Definition RecordBeadActivity (d : IdleDetector) (beadID : string)
    (t1 t2 : Time) : IdleDetector :=
  {| config := config d; lastAgentWork := lastAgentWork d;
     lastBeadActivity := t1;
     lastSystemEvent := t2; listeners := listeners d |}.

Definition RecordSystemEvent (d : IdleDetector) (t : Time) : IdleDetector :=
  {| config := config d; lastAgentWork := lastAgentWork d;
     lastBeadActivity := lastBeadActivity d;
     lastSystemEvent := t; listeners := listeners d |}.

Definition UpdateConfig (d : IdleDetector) (cfg : IdleConfig) : IdleDetector :=
  {| config := cfg; lastAgentWork := lastAgentWork d;
     lastBeadActivity := lastBeadActivity d;
     lastSystemEvent := lastSystemEvent d; listeners := listeners d |}.

(** The counters of the loop over the agent states: total, working,
    paused, idle.  They count entries of a map held in memory and are
    taken in [Z]. *)
Definition countAgent (acc : Z * Z * Z * Z) (a : AgentActivityState)
    : Z * Z * Z * Z :=
  let '(total, working, paused, idle) := acc in
  if String.eqb (Status a) "working" then (total + 1, working + 1, paused, idle)
  else if String.eqb (Status a) "paused" then (total + 1, working, paused + 1, idle)
  else (total + 1, working, paused, idle + 1).

Definition countAgents (states : gmap string AgentActivityState)
    (order : list string) : Z * Z * Z * Z :=
  foldl (fun acc k => match states !! k with
                      | Some a => countAgent acc a
                      | None => acc
                      end) (0, 0, 0, 0) order.

(** The counters of the loop over the bead states: total, open, in
    progress.  The counts come from the provider and are added as
    [int]s. *)
Definition countBead (acc : Z * Z * Z) (status : string) (count : Z)
    : Z * Z * Z :=
  let '(total, open, inProgress) := acc in
  let total := wrap64 (total + count) in
  if String.eqb status "open" then (total, wrap64 (open + count), inProgress)
  else if String.eqb status "in_progress"
       then (total, open, wrap64 (inProgress + count))
       else (total, open, inProgress).

Definition countBeads (states : gmap string Z) (order : list string)
    : Z * Z * Z :=
  foldl (fun acc k => match states !! k with
                      | Some count => countBead acc k count
                      | None => acc
                      end) (0, 0, 0) order.

(** One iteration of the loop over the project states. *)
Definition projectIdleState (cfg : IdleConfig) (now : Time) (projectID : string)
    (ps : ProjectActivityState) : ProjectIdleState :=
  let idleDuration := Sub now (LastActivity ps) in
  if ProjectIdleThreshold cfg <=? idleDuration
  then {| PProjectID := projectID; IsIdle := true;
          IdleSince := Some (LastActivity ps); IdlePeriod := idleDuration;
          AgentCount := ActiveAgentCount ps; OpenBeads := OpenBeadCount ps |}
  else {| PProjectID := projectID; IsIdle := false; IdleSince := None;
          IdlePeriod := 0;
          AgentCount := ActiveAgentCount ps; OpenBeads := OpenBeadCount ps |}.

Definition projectIdleStates (cfg : IdleConfig) (now : Time)
    (states : gmap string ProjectActivityState) (order : list string)
    : list ProjectIdleState :=
  omap (fun k => projectIdleState cfg now k <$> states !! k) order.

(** [CheckIdleState]; [provider] is [None] for a nil interface value and
    [now] is what [time.Now()] returns. *)
Definition CheckIdleState (d : IdleDetector) (provider : option IdleDataProvider)
    (now : Time) (o : Orders) : IdleState :=
  let cfg := config d in
  let '(total, working, paused, idle) :=
    match provider with
    | Some p => countAgents (GetAgentStates p) (agentOrder o)
    | None => (0, 0, 0, 0)
    end in
  let '(totalBeads, openBeads, inProgress) :=
    match provider with
    | Some p => countBeads (GetBeadStates p) (beadOrder o)
    | None => (0, 0, 0)
    end in
  let projects :=
    match provider with
    | Some p => projectIdleStates cfg now (GetProjectStates p) (projectOrder o)
    | None => []
    end in
  let systemIdleDuration := Sub now (lastAgentWork d) in
  let systemIdle :=
    (working =? 0) && (SystemIdleThreshold cfg <=? systemIdleDuration) in
  {| IsSystemIdle_ := systemIdle;
     SystemIdleSince := if systemIdle then Some (lastAgentWork d) else None;
     SystemIdlePeriod := if systemIdle then systemIdleDuration else 0;
     TotalAgents := total; WorkingAgents := working; IdleAgents := idle;
     PausedAgents := paused;
     TotalBeads := totalBeads; SOpenBeads := openBeads;
     InProgressBeads := inProgress;
     IdleProjects := projects;
     LastAgentActivity := lastAgentWork d;
     LastBeadActivity := lastBeadActivity d;
     CheckedAt := now |}.

(** [IsSystemIdle]. *)
Definition IsSystemIdle (d : IdleDetector) (provider : option IdleDataProvider)
    (now : Time) (o : Orders) : bool * Duration :=
  let state := CheckIdleState d provider now o in
  (IsSystemIdle_ state, SystemIdlePeriod state).

(** The loop of [IsProjectIdle] over [state.IdleProjects]. *)
Fixpoint findProject (projectID : string) (ps : list ProjectIdleState)
    : bool * Duration :=
  match ps with
  | [] => (false, 0)
  | p :: rest =>
      if String.eqb (PProjectID p) projectID then (IsIdle p, IdlePeriod p)
      else findProject projectID rest
  end.

(** [IsProjectIdle]. *)
Definition IsProjectIdle (d : IdleDetector) (projectID : string)
    (provider : option IdleDataProvider) (now : Time) (o : Orders)
    : bool * Duration :=
  findProject projectID (IdleProjects (CheckIdleState d provider now o)).

(** [GetIdleAgentIDs]; the result is [None] for the nil slice. *)
Definition GetIdleAgentIDs (d : IdleDetector) (provider : option IdleDataProvider)
    (now : Time) (order : list string) : option (list string) :=
  let threshold := AgentIdleThreshold (config d) in
  match provider with
  | None => None
  | Some p =>
      Some (filter (fun agentID =>
                      match GetAgentStates p !! agentID with
                      | Some state =>
                          String.eqb (Status state) "idle"
                          && (threshold <=? Sub now (LastActive state))
                      | None => false
                      end = true) order)
  end.

(** The calls [NotifyListeners] makes. *)
Inductive ListenerCall :=
| OnSystemIdle (listener : nat) (duration : Duration)
| OnProjectIdle (listener : nat) (projectID : string) (duration : Duration)
| OnAgentIdle (listener : nat) (agentID : string) (duration : Duration).

(** [NotifyListeners]: the calls it makes, in order. *)
Definition NotifyListeners (d : IdleDetector) (state : IdleState)
    : list ListenerCall :=
  concat
    (map (fun listener =>
            (if IsSystemIdle_ state
             then [OnSystemIdle listener (SystemIdlePeriod state)] else [])
            ++ omap (fun project =>
                       if IsIdle project
                       then Some (OnProjectIdle listener (PProjectID project)
                                    (IdlePeriod project))
                       else None) (IdleProjects state))
         (listeners d)).

(** [order] visits every key of [m] once. *)
Definition visits {A} (m : gmap string A) (order : list string) : Prop :=
  NoDup order ∧ ∀ k, k ∈ order <-> is_Some (m !! k).

End Idle.

(** A detector with the default thresholds (30, 15 and 5 minutes), last
    agent work at time 0, and one listener. *)
Definition minute : Duration := 60 * 1000 * millisecond.

Definition detector0 : Idle.IdleDetector :=
  Idle.AddListener
    (Idle.NewIdleDetector
       {| Idle.SystemIdleThreshold := 30 * minute;
          Idle.ProjectIdleThreshold := 15 * minute;
          Idle.AgentIdleThreshold := 5 * minute;
          Idle.CheckInterval := 30 * 1000 * millisecond |} 0 0 0) 1.

(** A provider with an idle agent "a1", an agent "a2" of status
    "unknown", a paused agent "a3", and the projects "p1" (last active at
    0) and "p2" (last active after 20 minutes). *)
Definition provider0 : Idle.IdleDataProvider :=
  {| Idle.GetAgentStates :=
       {[ "a1"%string := Idle.mkAgentActivityState "a1" "idle" 0 "p1";
          "a2"%string := Idle.mkAgentActivityState "a2" "unknown" 0 "p1";
          "a3"%string := Idle.mkAgentActivityState "a3" "paused" 0 "p2" ]};
     Idle.GetBeadStates := {[ "open"%string := 3; "closed"%string := 4 ]};
     Idle.GetProjectStates :=
       {[ "p1"%string := Idle.mkProjectActivityState "p1" 0 2 3;
          "p2"%string := Idle.mkProjectActivityState "p2" (20 * minute) 1 0 ]} |}.

Definition orders0 : Idle.Orders :=
  {| Idle.agentOrder := ["a1"; "a2"; "a3"]%string;
     Idle.beadOrder := ["open"; "closed"]%string;
     Idle.projectOrder := ["p2"; "p1"]%string |}.
(* ===================================================================== *)
(** * Part II: properties *)
(* ===================================================================== *)

Example maxTokens_default : maxTokensOf 100000 = 80000.
Proof. vm_compute. reflexivity. Qed.

Example maxTokens_gpt4 : maxTokensOf 8192 = 6553.
Proof. vm_compute. reflexivity. Qed.

Example notice_3 :
  noticeContent 3 = "[Note: 3 older messages truncated to stay within token limit]"%string.
Proof. vm_compute. reflexivity. Qed.

(** ** Worker: the token estimate *)

Section TokenEstimate.

Lemma msgTokens_nonneg (m : ChatMessage) : 0 <= msgTokens m.
Proof. unfold msgTokens. apply Z.quot_pos; lia. Qed.

Lemma totalTokens_from (acc : Z) (l : list ChatMessage) :
  fold_left (fun a m => a + msgTokens m) l acc = acc + totalTokens l.
Proof.
  unfold totalTokens. revert acc.
  induction l as [|m l IH]; intros acc; simpl; [lia|].
  rewrite (IH (acc + msgTokens m)), (IH (0 + msgTokens m)). lia.
Qed.

Lemma totalTokens_nil : totalTokens [] = 0.
Proof. reflexivity. Qed.

Lemma totalTokens_cons (m : ChatMessage) (l : list ChatMessage) :
  totalTokens (m :: l) = msgTokens m + totalTokens l.
Proof. unfold totalTokens at 1. simpl. rewrite totalTokens_from. lia. Qed.

Lemma totalTokens_nonneg (l : list ChatMessage) : 0 <= totalTokens l.
Proof.
  induction l as [|m l IH]; [rewrite totalTokens_nil; lia|].
  rewrite totalTokens_cons. pose proof (msgTokens_nonneg m). lia.
Qed.

Lemma totalTokens_drop (l : list ChatMessage) (i : nat) (m : ChatMessage) :
  l !! i = Some m ->
  totalTokens (drop i l) = msgTokens m + totalTokens (drop (S i) l).
Proof. intros H. rewrite (drop_S _ _ _ H). apply totalTokens_cons. Qed.

End TokenEstimate.

(** ** Worker: the model table and the cap *)

Section ModelLimit.

Lemma getModelTokenLimit_known (w : Worker) :
  getModelTokenLimit w ∈ knownLimits.
Proof.
  unfold getModelTokenLimit.
  destruct (modelLimits !! provider_Config_Model w) as [limit|] eqn:E.
  - unfold modelLimits in E. apply elem_of_list_to_map_2 in E.
    unfold knownLimits.
    repeat (apply elem_of_cons in E as [E|E];
            [inversion E; subst; set_solver|]).
    by apply elem_of_nil in E.
  - set_solver.
Qed.

Lemma getModelTokenLimit_unknown (w : Worker) :
  modelLimits !! provider_Config_Model w = None ->
  getModelTokenLimit w = 100000.
Proof. intros H. unfold getModelTokenLimit. by rewrite H. Qed.

(** On every limit the table can give, the float product truncates to the
    integer part of four fifths of the limit. *)
Lemma maxTokensOf_limit (w : Worker) :
  maxTokensOf (getModelTokenLimit w) = getModelTokenLimit w * 4 / 5.
Proof.
  pose proof (getModelTokenLimit_known w) as H. unfold knownLimits in H.
  repeat (apply elem_of_cons in H as [H|H];
          [rewrite H; vm_compute; reflexivity|]).
  by apply elem_of_nil in H.
Qed.

Lemma maxTokensOf_limit_nonneg (w : Worker) :
  0 <= maxTokensOf (getModelTokenLimit w).
Proof.
  pose proof (getModelTokenLimit_known w) as H. unfold knownLimits in H.
  repeat (apply elem_of_cons in H as [H|H];
          [rewrite H; vm_compute; discriminate|]).
  by apply elem_of_nil in H.
Qed.

End ModelLimit.

(** ** Worker: the backwards loop *)

Section TruncateLoop.

Variables (messages : list ChatMessage) (maxTokens systemTokens : Z).

(** What the loop returns when entered at index [i] with the estimate of
    the messages after [i] in [recentTokens]: either no message made it
    stop, and then everything from index 1 on fits beside the system
    message; or it stopped at some index [k], the messages from [k] on do
    not fit, and those after [k] do (as soon as the entry state does). *)
Lemma truncateLoop_spec (i : nat) (recentTokens : Z) (startIndex : nat) :
  (i < length messages)%nat ->
  recentTokens = totalTokens (drop (S i) messages) ->
  let s := truncateLoop messages maxTokens systemTokens i recentTokens startIndex in
  (s = startIndex ∧
   (i = 0%nat ∨ systemTokens + totalTokens (drop 1 messages) <= maxTokens))
  ∨ (∃ k : nat, (1 <= k <= i)%nat ∧ s = S k ∧
       maxTokens < systemTokens + totalTokens (drop k messages) ∧
       (systemTokens + recentTokens <= maxTokens ->
        systemTokens + totalTokens (drop (S k) messages) <= maxTokens)).
Proof.
  revert recentTokens.
  induction i as [|j IH]; intros recentTokens Hlt Hrecent; simpl.
  - left. split; [reflexivity | by left].
  - destruct (lookup_lt_is_Some_2 messages (S j) Hlt) as [msg Hmsg].
    rewrite Hmsg.
    pose proof (totalTokens_drop _ _ _ Hmsg) as Hdrop.
    destruct (Z.gtb_spec (systemTokens + recentTokens + msgTokens msg) maxTokens)
      as [Hgt|Hle].
    + right. exists (S j). repeat split; try lia.
    + specialize (IH (recentTokens + msgTokens msg) ltac:(lia) ltac:(lia)).
      simpl in IH. destruct IH as [[Hs Hfit]|(k & Hk & Hs & Hover & Hfit)].
      * left. split; [exact Hs|]. right.
        destruct Hfit as [->|Hfit]; [|exact Hfit]. lia.
      * right. exists k. repeat split; try lia.
Qed.

End TruncateLoop.

(** The start index when truncation applies to a list of at least two
    messages: at least 2, with everything after it fitting beside the
    system message when that one fits on its own. *)
Lemma startIndexOf_spec (maxTokens : Z) (first second : ChatMessage)
    (rest : list ChatMessage) :
  let messages := first :: second :: rest in
  maxTokens < totalTokens messages ->
  ∃ k : nat, (1 <= k < length messages)%nat ∧
    startIndexOf maxTokens messages = S k ∧
    maxTokens < msgTokens first + totalTokens (drop k messages) ∧
    (msgTokens first <= maxTokens ->
     msgTokens first + totalTokens (drop (S k) messages) <= maxTokens).
Proof.
  intros messages Hover.
  pose proof (truncateLoop_spec messages maxTokens (msgTokens first)
                (length messages - 1) 0 (length messages)) as H.
  assert (Hlen : length messages = S (S (length rest))) by reflexivity.
  specialize (H ltac:(lia)).
  rewrite Hlen in H.
  replace (S (S (length rest)) - 1)%nat with (S (length rest)) in H by lia.
  specialize (H ltac:(by rewrite <- Hlen, drop_all)).
  simpl in H. unfold startIndexOf. simpl.
  replace (length rest - 0)%nat with (length rest) by lia.
  destruct H as [[_ [Hz|Hfit]]|(k & Hk & Hs & Hgt & Hfit)].
  - discriminate.
  - exfalso. unfold messages in Hover. rewrite totalTokens_cons in Hover.
    lia.
  - exists k. repeat split; lia.
Qed.

(** ** Worker: [handleTokenLimits] *)

(** The three ways through [handleTokenLimits]: the estimate is within the
    cap; or it is not and the list has one message only; or it is not and
    the loop cuts the list at some index [S k], [k] messages being
    dropped. *)
Lemma handleTokenLimits_cases (w : Worker) (messages : list ChatMessage) :
  let maxTokens := maxTokensOf (getModelTokenLimit w) in
  (totalTokens messages <= maxTokens ∧ handleTokenLimits w messages = messages)
  ∨ (∃ first, messages = [first] ∧ maxTokens < msgTokens first ∧
              handleTokenLimits w messages = messages)
  ∨ (∃ first rest (k : nat),
       messages = first :: rest ∧ (1 <= k <= length rest)%nat ∧
       handleTokenLimits w messages
       = first :: noticeMsg (Z.of_nat k) :: drop k rest ∧
       maxTokens < msgTokens first + totalTokens (drop (k - 1) rest) ∧
       (msgTokens first <= maxTokens ->
        msgTokens first + totalTokens (drop k rest) <= maxTokens)).
Proof.
  intros maxTokens. unfold handleTokenLimits. fold maxTokens.
  destruct (Z.leb_spec (totalTokens messages) maxTokens) as [Hle|Hover];
    [by left|]. right.
  destruct messages as [|first [|second rest]].
  - rewrite totalTokens_nil in Hover.
    pose proof (maxTokensOf_limit_nonneg w). unfold maxTokens in Hover. lia.
  - left. exists first. split; [reflexivity|]. split; [|reflexivity].
    rewrite totalTokens_cons, totalTokens_nil in Hover. lia.
  - right.
    destruct (startIndexOf_spec maxTokens first second rest Hover)
      as (k & Hk & Hs & Hgt & Hfit).
    rewrite Hs. exists first, (second :: rest), k.
    destruct (Nat.ltb_spec 1 (S k)) as [_|?]; [|lia].
    simpl in Hk, Hgt, Hfit.
    split; [reflexivity|]. split; [simpl; lia|]. split; [|split].
    + replace (Z.of_nat (S k) - 1) with (Z.of_nat k) by lia. reflexivity.
    + destruct k as [|k']; [lia|].
      replace (S k' - 1)%nat with k' by lia. exact Hgt.
    + exact Hfit.
Qed.

(** C4.  For a non-empty message list whose estimate exceeds the cap, the
    output is the original first message, then the notice
    "[Note: N older messages truncated to stay within token limit]" with
    role system, N being the number of dropped messages, then the
    untouched tail of the most recent messages.  The first message is
    never dropped; the notice is there exactly when a message was dropped,
    which is the case exactly when the list has more than one message.
    The tail is the longest one that fits: with one more message the cap
    is exceeded, and the tail fits beside the first message whenever that
    one fits on its own. *)
Theorem handleTokenLimits_truncation (w : Worker) (first : ChatMessage)
    (rest : list ChatMessage) :
  let maxTokens := maxTokensOf (getModelTokenLimit w) in
  maxTokens < totalTokens (first :: rest) ->
  ∃ dropped : nat,
    (dropped <= length rest)%nat ∧
    (dropped = 0%nat <-> rest = []) ∧
    handleTokenLimits w (first :: rest) =
      first ::
      (if (dropped =? 0)%nat then []
       else [ {| Role := "system";
                 Content := "[Note: " ++ fmt_d (Z.of_nat dropped)
                   ++ " older messages truncated to stay within token limit]" |} ])
      ++ drop dropped rest ∧
    (dropped ≠ 0%nat ->
     maxTokens < msgTokens first + totalTokens (drop (dropped - 1) rest)) ∧
    (msgTokens first <= maxTokens ->
     msgTokens first + totalTokens (drop dropped rest) <= maxTokens).
Proof.
  intros maxTokens Hover.
  pose proof (handleTokenLimits_cases w (first :: rest)) as H.
  cbv zeta in H. fold maxTokens in H.
  destruct H
    as [[Hle _]|[(f & Heq & Hbig & Hout)|(f & r & k & Heq & Hk & Hout & Hgt & Hfit)]].
  - lia.
  - injection Heq as <- ->. exists 0%nat. simpl.
    split; [lia|]. split; [done|]. split; [exact Hout|]. split; [done|].
    rewrite totalTokens_nil. lia.
  - injection Heq as <- <-. exists k.
    destruct (Nat.eqb_spec k 0) as [?|_]; [lia|].
    split; [lia|]. split; [split; [lia|]; intros ->; simpl in Hk; lia|].
    split; [exact Hout|]. split; [by intros _ | exact Hfit].
Qed.

(** Four messages under the 4,096-token model: the two oldest user
    messages are dropped. *)
Lemma handleTokenLimits_truncation_witness :
  let first := systemMsg_ 40 in
  let rest := [userMsg 8000; userMsg 8000; userMsg 8000] in
  maxTokensOf (getModelTokenLimit gpt35) < totalTokens (first :: rest) ∧
  ∃ dropped : nat,
    handleTokenLimits gpt35 (first :: rest) =
      first :: (if (dropped =? 0)%nat then [] else [noticeMsg (Z.of_nat dropped)])
      ++ drop dropped rest.
Proof.
  intros first rest.
  assert (H : maxTokensOf (getModelTokenLimit gpt35) < totalTokens (first :: rest))
    by (vm_compute; reflexivity).
  split; [exact H|].
  destruct (handleTokenLimits_truncation gpt35 first rest H)
    as (dropped & _ & _ & Hout & _).
  exists dropped. exact Hout.
Defined.

(** C3, as stated, fails on the code in three ways, each by the design of
    [handleTokenLimits]; the cap of "gpt-3.5-turbo" is 3,276.
    (1) The first message is never dropped: alone and over the cap, it is
        sent as it is.
    (2) The notice is added after the tail was fitted and is not counted.
    (3) The code rounds [len/4] down: a list it takes to be within the cap
        can exceed it when each message is rounded up. *)
Lemma token_budget_counterexample :
  ¬ (5 * ceilTokens (handleTokenLimits gpt35 [systemMsg_ 13200])
     <= 4 * getModelTokenLimit gpt35) ∧
  ¬ (5 * ceilTokens (handleTokenLimits gpt35 [systemMsg_ 0; userMsg 8; userMsg 13100])
     <= 4 * getModelTokenLimit gpt35) ∧
  ¬ (5 * ceilTokens (handleTokenLimits gpt35 [systemMsg_ 13104; userMsg 1])
     <= 4 * getModelTokenLimit gpt35).
Proof. split; [|split]; vm_compute; intros H; apply H; reflexivity. Qed.

(** C3, amended.  The cap is the integer part of 0.8 × the model limit,
    the limit being 100,000 for a model the table does not know.  When the
    first message on its own is within the cap, then either the list is
    returned as it is and its estimate Σ ⌊len(content)/4⌋ is within the cap,
    or the list returned is the first message, the notice and a tail of the
    input, and the estimate of the first message and the tail, the notice
    left aside, is within the cap. *)
Theorem handleTokenLimits_budget (w : Worker) (messages : list ChatMessage) :
  let maxTokens := maxTokensOf (getModelTokenLimit w) in
  (∀ first, head messages = Some first -> msgTokens first <= maxTokens) ->
  maxTokens = getModelTokenLimit w * 4 / 5 ∧
  (modelLimits !! provider_Config_Model w = None -> getModelTokenLimit w = 100000) ∧
  ((handleTokenLimits w messages = messages ∧ totalTokens messages <= maxTokens)
   ∨ ∃ (first : ChatMessage) (dropped : nat),
       head messages = Some first ∧ (1 <= dropped)%nat ∧
       handleTokenLimits w messages =
         first :: noticeMsg (Z.of_nat dropped) :: drop (S dropped) messages ∧
       totalTokens (first :: drop (S dropped) messages) <= maxTokens).
Proof.
  intros maxTokens Hsys.
  split; [apply maxTokensOf_limit|]. split; [apply getModelTokenLimit_unknown|].
  pose proof (handleTokenLimits_cases w messages) as H.
  cbv zeta in H. fold maxTokens in H.
  destruct H
    as [[Hle Hout]|[(f & -> & Hbig & Hout)|(f & r & k & -> & Hk & Hout & _ & Hfit)]].
  - by left.
  - specialize (Hsys f eq_refl). lia.
  - right. exists f, k. split; [reflexivity|]. split; [lia|].
    split; [exact Hout|]. simpl. rewrite totalTokens_cons.
    apply Hfit. by apply Hsys.
Qed.

(** The three-message list of (2): the first message and the tail are
    within the cap. *)
Lemma handleTokenLimits_budget_witness :
  let messages := [systemMsg_ 0; userMsg 8; userMsg 13100] in
  let maxTokens := maxTokensOf (getModelTokenLimit gpt35) in
  (∀ first, head messages = Some first -> msgTokens first <= maxTokens) ∧
  maxTokens = getModelTokenLimit gpt35 * 4 / 5.
Proof.
  intros messages maxTokens.
  assert (H : ∀ first, head messages = Some first -> msgTokens first <= maxTokens).
  { intros first [= <-]. vm_compute. discriminate. }
  split; [exact H|].
  exact (proj1 (handleTokenLimits_budget gpt35 messages H)).
Defined.

(** ** Registry: [Register] *)

Section Register.

#[local] Arguments withDefaults : simpl never.
#[local] Arguments indexByRole : simpl never.
#[local] Arguments indexByProject : simpl never.

Lemma withDefaults_fields (cfg : MotivationConfig) (m : Motivation) (t1 t2 : Time) :
  ID (withDefaults cfg m t1 t2) = ID m ∧
  Priority (withDefaults cfg m t1 t2) = Priority m ∧
  AgentRole (withDefaults cfg m t1 t2) = AgentRole m ∧
  ProjectID (withDefaults cfg m t1 t2) = ProjectID m ∧
  CooldownPeriod (withDefaults cfg m t1 t2)
  = (if CooldownPeriod m =? 0 then DefaultCooldown cfg else CooldownPeriod m).
Proof.
  unfold withDefaults.
  destruct (Status m), (EnabledByDefault cfg); simpl;
    destruct (CooldownPeriod m =? 0); simpl;
    destruct (IsZero _); simpl; by repeat split.
Qed.

Lemma indexByRole_frame (r : Registry) (m : Motivation) :
  motivations (indexByRole r m) = motivations r ∧
  byProject (indexByRole r m) = byProject r ∧
  triggers (indexByRole r m) = triggers r ∧
  nextID (indexByRole r m) = nextID r ∧
  config (indexByRole r m) = config r.
Proof. unfold indexByRole. by destruct (String.eqb (AgentRole m) ""). Qed.

Lemma indexByProject_frame (r : Registry) (m : Motivation) :
  motivations (indexByProject r m) = motivations r ∧
  byRole (indexByProject r m) = byRole r ∧
  triggers (indexByProject r m) = triggers r ∧
  nextID (indexByProject r m) = nextID r ∧
  config (indexByProject r m) = config r.
Proof. unfold indexByProject. by destruct (String.eqb (ProjectID m) ""). Qed.

Lemma withID_frame (r : Registry) (m : Motivation) :
  ID (withID r m).1
  = (if String.eqb (ID m) "" then ("mot-" ++ fmt_d (nextID r))%string else ID m) ∧
  Priority (withID r m).1 = Priority m ∧
  CooldownPeriod (withID r m).1 = CooldownPeriod m ∧
  motivations (withID r m).2 = motivations r ∧
  byRole (withID r m).2 = byRole r ∧
  byProject (withID r m).2 = byProject r ∧
  triggers (withID r m).2 = triggers r ∧
  config (withID r m).2 = config r.
Proof. unfold withID. by destruct (String.eqb (ID m) ""). Qed.

(** The two ways out of [Register] for a non-nil motivation, by whether
    the ID it is to be stored under is taken. *)
Lemma Register_cases (r : Registry) (m : Motivation) (t1 t2 : Time) :
  let id := if String.eqb (ID m) "" then ("mot-" ++ fmt_d (nextID r))%string
            else ID m in
  match motivations r !! id with
  | Some _ =>
      ∃ r' m', Register r (Some m) t1 t2
               = (r', Some m',
                  Some ("motivation with ID " ++ id ++ " already exists")%string) ∧
        motivations r' = motivations r ∧ byRole r' = byRole r ∧
        byProject r' = byProject r ∧ triggers r' = triggers r
  | None =>
      ∃ r' m', Register r (Some m) t1 t2 = (r', Some m', None) ∧
        ID m' = id ∧
        motivations r' = <[id := m']> (motivations r) ∧
        Priority m' = Priority m ∧
        CooldownPeriod m' = (if CooldownPeriod m =? 0
                             then DefaultCooldown (config r)
                             else CooldownPeriod m) ∧
        triggers r' = triggers r
  end.
Proof.
  intros id. unfold Register.
  destruct (withID_frame r m) as (Hid & Hpr & Hcd & Hms & Hbr & Hbp & Htr & Hcfg).
  fold id in Hid.
  destruct (withID r m) as [m0 r0]. cbn [fst snd] in *.
  rewrite Hid, Hms.
  destruct (motivations r !! id) eqn:Elook.
  - eexists _, _. split; [reflexivity|]. by repeat split.
  - eexists _, _. split; [reflexivity|].
    destruct (withDefaults_fields (config r0) m0 t1 t2)
      as (Wid & Wpr & Wrole & Wproj & Wcd).
    match goal with |- context [indexByProject ?ra ?mm] =>
      destruct (indexByProject_frame ra mm) as (Pm & _ & Pt & _) end.
    match goal with |- context [indexByRole ?ra ?mm] =>
      destruct (indexByRole_frame ra mm) as (Rm & _ & Rt & _) end.
    rewrite Pm, Pt, Rm, Rt. cbn [motivations triggers set_motivations].
    rewrite ?Wid, ?Hid, ?Hms, ?Wpr, ?Hpr, ?Wcd, ?Hcd, ?Hcfg, ?Htr. by repeat split.
Qed.

Lemma Register_triggers (r : Registry) (mp : option Motivation) (t1 t2 : Time) :
  triggers (Register r mp t1 t2).1.1 = triggers r.
Proof.
  destruct mp as [m|]; [|reflexivity].
  pose proof (Register_cases r m t1 t2) as H. cbv zeta in H.
  destruct (motivations r !! _);
    destruct H as (r' & m' & Heq & H); rewrite Heq; cbn [fst]; tauto.
Qed.

End Register.

(** C8, as stated, fails on the code: [Register] has no check of the
    priority or of the cooldown.  A motivation with priority 500 and a
    cooldown of -5 ns is accepted and stored as it is. *)
Lemma Register_validation_counterexample :
  100 < Priority outOfRangeMotivation ∧
  CooldownPeriod outOfRangeMotivation <= 0 ∧
  ∃ r' m',
    Register (NewRegistry cfg0) (Some outOfRangeMotivation) 1000 1000
    = (r', Some m', None) ∧
    motivations r' !! "bad"%string = Some m' ∧
    Priority m' = 500 ∧ CooldownPeriod m' = -5 ∧
    motivations r' ≠ motivations (NewRegistry cfg0).
Proof.
  split; [reflexivity|]. split; [discriminate|].
  pose proof (Register_cases (NewRegistry cfg0) outOfRangeMotivation 1000 1000) as H.
  cbv zeta in H.
  change (motivations (NewRegistry cfg0) !! _) with (@None Motivation) in H.
  cbv iota in H.
  destruct H as (r' & m' & Heq & Hid & Hms & Hpr & Hcd & _).
  exists r', m'. split; [exact Heq|].
  assert (Hlook : motivations r' !! "bad"%string = Some m')
    by (rewrite Hms; apply lookup_insert_eq).
  split; [exact Hlook|]. split; [exact Hpr|]. split; [exact Hcd|].
  intros Heq'. rewrite Heq' in Hlook. discriminate.
Qed.

(** C8, amended.  [Register] rejects a motivation in two cases only: the
    pointer is nil, or the ID it goes on with (the motivation's own, or the
    generated one) is already in the map.  On a rejection the motivation
    map, the two indexes and the trigger history are unchanged.  In every
    other case, whatever the priority and the cooldown, the motivation is
    stored under that ID with its priority as given and its cooldown as
    given, a zero cooldown being replaced by the default. *)
Theorem Register_rejects_only_nil_or_duplicate (r : Registry)
    (mp : option Motivation) (t1 t2 : Time) :
  let res := Register r mp t1 t2 in
  let r' := res.1.1 in
  let err := res.2 in
  (err ≠ None <->
   mp = None ∨ ∃ m, mp = Some m ∧ is_Some (motivations r !! storedID r m)) ∧
  (err ≠ None ->
   motivations r' = motivations r ∧ byRole r' = byRole r ∧
   byProject r' = byProject r ∧ triggers r' = triggers r) ∧
  (err = None ->
   ∃ m m', mp = Some m ∧ res.1.2 = Some m' ∧
     motivations r' !! storedID r m = Some m' ∧
     ID m' = storedID r m ∧
     Priority m' = Priority m ∧
     CooldownPeriod m' = (if CooldownPeriod m =? 0
                          then DefaultCooldown (config r)
                          else CooldownPeriod m)).
Proof.
  intros res r' err. subst r' err res.
  destruct mp as [m|].
  - pose proof (Register_cases r m t1 t2) as H. cbv zeta in H.
    assert (Hsid : storedID r m
                   = if String.eqb (ID m) ""
                     then ("mot-" ++ fmt_d (nextID r))%string else ID m)
      by apply withID_frame.
    rewrite <- Hsid in H.
    destruct (motivations r !! storedID r m) as [old|] eqn:Elook.
    + destruct H as (r' & m' & Heq & Hms & Hbr & Hbp & Htr).
      rewrite Heq. cbn [fst snd]. split; [|split].
      * split; [|done]. intros _. right. exists m. split; [done|].
        rewrite Elook. by eexists.
      * by intros _.
      * discriminate.
    + destruct H as (r' & m' & Heq & Hid & Hms & Hpr & Hcd & Htr).
      rewrite Heq. cbn [fst snd]. split; [|split].
      * split; [done|]. intros [?|(m0 & [= <-] & Hsome)]; [done|].
        rewrite Elook in Hsome. by destruct Hsome.
      * done.
      * intros _. exists m, m'. split; [done|]. split; [done|].
        split; [rewrite Hms; apply lookup_insert_eq|]. by repeat split.
  - cbn. split; [|split].
    + split; [by left | done].
    + done.
    + discriminate.
Qed.

(** The out-of-range motivation registered twice: accepted, then rejected
    as a duplicate with the map unchanged. *)
Lemma Register_rejects_only_nil_or_duplicate_witness :
  let r1 := (Register (NewRegistry cfg0) (Some outOfRangeMotivation) 1000 1000).1.1 in
  let res := Register r1 (Some outOfRangeMotivation) 2000 2000 in
  res.2 ≠ None ∧ motivations res.1.1 = motivations r1.
Proof.
  intros r1 res.
  pose proof (Register_rejects_only_nil_or_duplicate r1
                (Some outOfRangeMotivation) 2000 2000) as (Hiff & Hframe & _).
  assert (Herr : res.2 ≠ None).
  { apply Hiff. right. exists outOfRangeMotivation. split; [reflexivity|].
    vm_compute. by eexists. }
  split; [exact Herr|]. exact (proj1 (Hframe Herr)).
Defined.

(** ** Registry: the trigger history *)

Section History.

Lemma lastN_short {A} (n : nat) (l : list A) :
  (length l <= n)%nat -> lastN n l = l.
Proof. intros H. unfold lastN. by replace (length l - n)%nat with 0%nat by lia. Qed.

Lemma lastN_length {A} (n : nat) (l : list A) :
  length (lastN n l) = Nat.min n (length l).
Proof. unfold lastN. rewrite length_drop. lia. Qed.

Lemma lastN_app_lastN {A} (n : nat) (l k : list A) :
  lastN n (lastN n l ++ k) = lastN n (l ++ k).
Proof.
  unfold lastN.
  rewrite !drop_app, drop_drop, !length_app, !length_drop.
  f_equal; f_equal; lia.
Qed.

Lemma RecordTrigger_triggers (r : Registry) (t : MotivationTrigger) (now : Time) :
  triggers (RecordTrigger r t now) = lastN 1000 (triggers r ++ [t]).
Proof.
  unfold RecordTrigger.
  destruct (motivations r !! MotivationID t); simpl;
    (destruct (Nat.ltb_spec 1000 (length (triggers r ++ [t])));
     [reflexivity | by rewrite lastN_short]).
Qed.

Lemma RecordTrigger_last (r : Registry) (t : MotivationTrigger) (now : Time) :
  last (triggers (RecordTrigger r t now)) = Some t.
Proof.
  rewrite RecordTrigger_triggers. unfold lastN.
  rewrite length_app, drop_app. simpl.
  destruct (Nat.le_gt_cases (length (triggers r) + 1) 1000) as [H|H].
  - replace (length (triggers r) + 1 - 1000)%nat with 0%nat by lia.
    simpl. apply last_snoc.
  - replace (length (triggers r) + 1 - 1000 - length (triggers r))%nat
      with 0%nat by lia.
    simpl. apply last_snoc.
Qed.

Lemma recordAll_triggers (calls : list (MotivationTrigger * Time)) (r : Registry) :
  (length (triggers r) <= 1000)%nat ->
  triggers (recordAll r calls) = lastN 1000 (triggers r ++ calls.*1).
Proof.
  revert r. induction calls as [|[t now] calls IH]; intros r Hlen.
  - simpl. rewrite app_nil_r. by rewrite lastN_short.
  - simpl. unfold recordAll in IH. rewrite IH.
    + rewrite RecordTrigger_triggers, lastN_app_lastN.
      by rewrite <- app_assoc.
    + rewrite RecordTrigger_triggers, lastN_length. lia.
Qed.

Lemma reachable_triggers_bound (r : Registry) :
  reachable r -> (length (triggers r) <= 1000)%nat.
Proof.
  induction 1 as [cfg|r mp t1 t2 _ IH|r id _ IH|r id now _ IH|r id now _ IH
                 |r id updates now _ IH|r trigger now _ IH|r now _ IH].
  - simpl. lia.
  - by rewrite Register_triggers.
  - unfold Unregister. destruct (motivations r !! id) as [m|]; [|exact IH].
    simpl. repeat match goal with |- context [if ?c then _ else _] => destruct c end;
      exact IH.
  - unfold Enable. destruct (motivations r !! id); exact IH.
  - unfold Disable. destruct (motivations r !! id); exact IH.
  - unfold Update. destruct (motivations r !! id); exact IH.
  - rewrite RecordTrigger_triggers, lastN_length. lia.
  - exact IH.
Qed.

Lemma GetTriggerHistory_suffix (r : Registry) (limit : Z) :
  GetTriggerHistory r limit `suffix_of` triggers r.
Proof.
  unfold GetTriggerHistory.
  set (len := Z.of_nat (length (triggers r))).
  set (lim := if (limit <=? 0) || (len <? limit) then len else limit).
  assert (Hlim : 0 <= lim <= len).
  { unfold lim.
    destruct (Z.leb_spec limit 0), (Z.ltb_spec len limit); simpl; lia. }
  destruct (Z.ltb_spec (len - lim) 0) as [?|_]; [lia|].
  rewrite take_ge; [apply suffix_drop|].
  rewrite length_drop. lia.
Qed.

End History.

(** C9.  In every registry that the operations build from [NewRegistry],
    the trigger history holds at most 1,000 entries; after any further run
    of [RecordTrigger] calls it is the last 1,000 of the earlier history
    followed by the recorded triggers, in order: on overflow the oldest
    go.  [GetTriggerHistory] returns a tail of that history. *)
Theorem trigger_history_bounded (r : Registry) :
  reachable r ->
  (length (triggers r) <= 1000)%nat ∧
  (∀ calls : list (MotivationTrigger * Time),
     triggers (recordAll r calls) = lastN 1000 (triggers r ++ calls.*1) ∧
     (length (triggers (recordAll r calls)) <= 1000)%nat) ∧
  (∀ limit : Z,
     GetTriggerHistory r limit `suffix_of` triggers r ∧
     (length (GetTriggerHistory r limit) <= 1000)%nat).
Proof.
  intros Hr. pose proof (reachable_triggers_bound r Hr) as Hlen.
  split; [exact Hlen|]. split.
  - intros calls. rewrite recordAll_triggers by exact Hlen.
    split; [reflexivity|]. rewrite lastN_length. lia.
  - intros limit. pose proof (GetTriggerHistory_suffix r limit) as Hs.
    split; [exact Hs|]. apply suffix_length in Hs. lia.
Qed.

(** Three triggers recorded in a fresh registry. *)
Lemma trigger_history_bounded_witness :
  reachable (NewRegistry cfg0) ∧
  triggers (recordAll (NewRegistry cfg0)
              [(plainTrigger "a" "m1" 1 TriggerResultSuccess, 1);
               (plainTrigger "b" "m1" 2 TriggerResultError, 2);
               (plainTrigger "c" "m2" 3 TriggerResultSuccess, 3)])
  = lastN 1000 [plainTrigger "a" "m1" 1 TriggerResultSuccess;
                plainTrigger "b" "m1" 2 TriggerResultError;
                plainTrigger "c" "m2" 3 TriggerResultSuccess].
Proof.
  split; [constructor|].
  exact (proj1 (proj1 (proj2 (trigger_history_bounded (NewRegistry cfg0)
                                (reach_NewRegistry cfg0))) _)).
Defined.

(** ** Registry: [RecordTrigger] and [CheckCooldowns] on one motivation *)

Section Cooldown.

Lemma RecordTrigger_lookup (r : Registry) (t : MotivationTrigger) (now : Time)
    (m : Motivation) :
  motivations r !! MotivationID t = Some m ->
  motivations (RecordTrigger r t now) !! MotivationID t
  = Some (markTriggered t now m).
Proof.
  intros H. unfold RecordTrigger. rewrite H. simpl. apply lookup_insert_eq.
Qed.

Lemma RecordTrigger_lookup_ne (r : Registry) (t : MotivationTrigger) (now : Time)
    (k : string) :
  k ≠ MotivationID t ->
  motivations (RecordTrigger r t now) !! k = motivations r !! k.
Proof.
  intros H. unfold RecordTrigger.
  destruct (motivations r !! MotivationID t); simpl; [|reflexivity].
  by apply lookup_insert_ne.
Qed.

Lemma CheckCooldowns_lookup (r : Registry) (now : Time) (k : string) :
  motivations (CheckCooldowns r now) !! k
  = checkCooldown now <$> motivations r !! k.
Proof. unfold CheckCooldowns. simpl. apply lookup_fmap. Qed.

Lemma wrap64_in_range (z : Z) :
  min_int64 <= z <= max_int64 -> wrap64 z = z.
Proof.
  unfold wrap64, min_int64, max_int64. intros H.
  rewrite Z.mod_small; lia.
Qed.

End Cooldown.

(** C10.  For a motivation found under the trigger's [MotivationID],
    [RecordTrigger] with a result other than Success leaves [Status] as it
    was, sets [LastTriggeredAt] to the trigger's [TriggeredAt], increments
    [TriggerCount] (as a 64-bit integer), sets [UpdatedAt] to the current
    time and appends the trigger to the history (which keeps its last
    1,000 entries). *)
Theorem RecordTrigger_failure_frame (r : Registry) (t : MotivationTrigger)
    (now : Time) (m : Motivation) :
  motivations r !! MotivationID t = Some m ->
  Result t ≠ TriggerResultSuccess ->
  ∃ m', motivations (RecordTrigger r t now) !! MotivationID t = Some m' ∧
    Status m' = Status m ∧
    LastTriggeredAt m' = Some (TriggeredAt t) ∧
    TriggerCount m' = wrap64 (TriggerCount m + 1) ∧
    (min_int64 <= TriggerCount m < max_int64 ->
     TriggerCount m' = TriggerCount m + 1) ∧
    UpdatedAt m' = now ∧
    triggers (RecordTrigger r t now) = lastN 1000 (triggers r ++ [t]) ∧
    last (triggers (RecordTrigger r t now)) = Some t.
Proof.
  intros Hm Hres. exists (markTriggered t now m).
  split; [by apply RecordTrigger_lookup|].
  unfold markTriggered. rewrite bool_decide_eq_false_2 by exact Hres.
  do 3 (split; [reflexivity|]).
  split; [|split; [reflexivity|split]].
  - intros Hrange. apply wrap64_in_range. simpl. lia.
  - apply RecordTrigger_triggers.
  - apply RecordTrigger_last.
Qed.

(** An Error trigger recorded for ["m1"], which stays Active. *)
Lemma RecordTrigger_failure_frame_witness :
  ∃ m', motivations (RecordTrigger registry1
                       (plainTrigger "t1" "m1" 2000 TriggerResultError) 2001)
          !! "m1"%string = Some m' ∧
        Status m' = MotivationStatusActive ∧
        LastTriggeredAt m' = Some 2000 ∧ TriggerCount m' = 1.
Proof.
  destruct (RecordTrigger_failure_frame registry1
              (plainTrigger "t1" "m1" 2000 TriggerResultError) 2001
              (set_UpdatedAt 1000 (set_CreatedAt 1000
                 (set_CooldownPeriod (50 * millisecond)
                    (set_Status MotivationStatusActive (zeroMotivation "m1" "Test"))))))
    as (m' & Hm' & Hst & Hlast & Hcnt & _).
  - vm_compute. reflexivity.
  - discriminate.
  - exists m'. split; [exact Hm'|]. split; [exact Hst|]. split; [exact Hlast|].
    rewrite Hcnt. vm_compute. reflexivity.
Defined.

(** C6.  For a registered motivation, [RecordTrigger] with a Success
    result followed by [CheckCooldowns] at a time at least [CooldownPeriod]
    after the trigger's [TriggeredAt] leaves the motivation Active.  (The
    cooldown, an [int64], is at most [max_int64].) *)
Theorem cooldown_expiry_restores_active (r : Registry) (t : MotivationTrigger)
    (nowRecord now : Time) (m : Motivation) :
  motivations r !! MotivationID t = Some m ->
  Result t = TriggerResultSuccess ->
  CooldownPeriod m <= max_int64 ->
  TriggeredAt t + CooldownPeriod m <= now ->
  (∃ m1, motivations (RecordTrigger r t nowRecord) !! MotivationID t = Some m1 ∧
         Status m1 = MotivationStatusCooldown) ∧
  (∃ m2, motivations (CheckCooldowns (RecordTrigger r t nowRecord) now)
           !! MotivationID t = Some m2 ∧
         Status m2 = MotivationStatusActive).
Proof.
  intros Hm Hres Hmax Hlate.
  pose proof (RecordTrigger_lookup r t nowRecord m Hm) as H1.
  assert (Hmark : markTriggered t nowRecord m
    = set_Status MotivationStatusCooldown
        (set_UpdatedAt nowRecord
           (set_TriggerCount (wrap64 (TriggerCount m + 1))
              (set_LastTriggeredAt (Some (TriggeredAt t)) m)))).
  { unfold markTriggered. by rewrite bool_decide_eq_true_2. }
  split.
  - eexists. split; [exact H1|]. by rewrite Hmark.
  - rewrite CheckCooldowns_lookup, H1. simpl. eexists. split; [reflexivity|].
    rewrite Hmark. unfold checkCooldown. simpl.
    destruct (Z.leb_spec (CooldownPeriod m) (Sub now (TriggeredAt t))) as [_|Hlt].
    + reflexivity.
    + exfalso. unfold Sub, min_int64, max_int64 in *. lia.
Qed.

(** ["m1"] (cooldown 50 ms) triggered at 2000 and checked 50 ms later. *)
Lemma cooldown_expiry_restores_active_witness :
  ∃ m2, motivations (CheckCooldowns
                       (RecordTrigger registry1
                          (plainTrigger "t1" "m1" 2000 TriggerResultSuccess) 2001)
                       (2000 + 50 * millisecond)) !! "m1"%string = Some m2 ∧
        Status m2 = MotivationStatusActive.
Proof.
  refine (proj2 (cooldown_expiry_restores_active registry1
            (plainTrigger "t1" "m1" 2000 TriggerResultSuccess) 2001
            (2000 + 50 * millisecond)
            (set_UpdatedAt 1000 (set_CreatedAt 1000
               (set_CooldownPeriod (50 * millisecond)
                  (set_Status MotivationStatusActive (zeroMotivation "m1" "Test")))))
            _ _ _ _)).
  - vm_compute. reflexivity.
  - reflexivity.
  - vm_compute. discriminate.
  - vm_compute. discriminate.
Defined.

(** ** Registry: well-formedness *)

Section Wf.

Lemma markTriggered_ID (t : MotivationTrigger) (now : Time) (m : Motivation) :
  ID (markTriggered t now m) = ID m.
Proof. unfold markTriggered. by destruct (bool_decide _). Qed.

Lemma checkCooldown_ID (now : Time) (m : Motivation) :
  ID (checkCooldown now m) = ID m.
Proof.
  unfold checkCooldown.
  destruct (Status m), (LastTriggeredAt m); try reflexivity.
  by destruct (_ <=? _).
Qed.

Lemma RecordTrigger_lookup_any (r : Registry) (t : MotivationTrigger)
    (now : Time) (k : string) :
  motivations (RecordTrigger r t now) !! k
  = if decide (k = MotivationID t)
    then markTriggered t now <$> motivations r !! k
    else motivations r !! k.
Proof.
  destruct (decide (k = MotivationID t)) as [->|Hne].
  - destruct (motivations r !! MotivationID t) as [m|] eqn:E.
    + by rewrite (RecordTrigger_lookup _ _ _ _ E).
    + unfold RecordTrigger. by rewrite E.
  - by apply RecordTrigger_lookup_ne.
Qed.

Lemma RecordTrigger_wf (r : Registry) (t : MotivationTrigger) (now : Time) :
  registry_wf r -> registry_wf (RecordTrigger r t now).
Proof.
  intros Hwf k m. rewrite RecordTrigger_lookup_any.
  destruct (decide (k = MotivationID t)); [|apply Hwf].
  destruct (motivations r !! k) as [m0|] eqn:E; [|discriminate].
  intros [= <-]. rewrite markTriggered_ID. by apply Hwf.
Qed.

Lemma CheckCooldowns_wf (r : Registry) (now : Time) :
  registry_wf r -> registry_wf (CheckCooldowns r now).
Proof.
  intros Hwf k m. rewrite CheckCooldowns_lookup.
  destruct (motivations r !! k) as [m0|] eqn:E; [|discriminate].
  intros [= <-]. rewrite checkCooldown_ID. by apply Hwf.
Qed.

Lemma Register_wf (r : Registry) (mp : option Motivation) (t1 t2 : Time) :
  registry_wf r -> registry_wf (Register r mp t1 t2).1.1.
Proof.
  intros Hwf. destruct mp as [m|]; [|exact Hwf].
  pose proof (Register_cases r m t1 t2) as H. cbv zeta in H.
  destruct (motivations r !! _) as [old|] eqn:E.
  - destruct H as (r' & m' & -> & Hms & _). cbn [fst].
    intros k mk. rewrite Hms. apply Hwf.
  - destruct H as (r' & m' & -> & Hid & Hms & _). cbn [fst].
    intros k mk. rewrite Hms, lookup_insert.
    case_decide as Hk; [|apply Hwf]. intros [= <-]. by rewrite Hid.
Qed.

Lemma Unregister_wf (r : Registry) (id : string) :
  registry_wf r -> registry_wf (Unregister r id).1.
Proof.
  intros Hwf. unfold Unregister.
  destruct (motivations r !! id) as [m|]; [|exact Hwf].
  cbn [fst]. intros k m0.
  assert (Hms : ∀ r2, motivations r2 = motivations r ->
            motivations (set_motivations (delete id (motivations r2)) r2) !! k
            = Some m0 -> ID m0 = k).
  { intros r2 Hr2. cbn [motivations set_motivations]. rewrite Hr2, lookup_delete.
    case_decide; [discriminate | apply Hwf]. }
  apply Hms.
  by destruct (String.eqb (AgentRole m) ""), (String.eqb (ProjectID m) "").
Qed.

Lemma insert_wf (r : Registry) (id : string) (m m' : Motivation) :
  registry_wf r -> motivations r !! id = Some m -> ID m' = ID m ->
  registry_wf (set_motivations (<[id := m']> (motivations r)) r).
Proof.
  intros Hwf Hm Hid k m0. cbn [motivations set_motivations].
  rewrite lookup_insert. case_decide as Hk; [|apply Hwf].
  intros [= <-]. rewrite Hid. subst k. by apply Hwf.
Qed.

Lemma Enable_wf (r : Registry) (id : string) (now : Time) :
  registry_wf r -> registry_wf (Enable r id now).1.
Proof.
  intros Hwf. unfold Enable.
  destruct (motivations r !! id) as [m|] eqn:E; [|exact Hwf].
  cbn [fst]. by eapply insert_wf.
Qed.

Lemma Disable_wf (r : Registry) (id : string) (now : Time) :
  registry_wf r -> registry_wf (Disable r id now).1.
Proof.
  intros Hwf. unfold Disable.
  destruct (motivations r !! id) as [m|] eqn:E; [|exact Hwf].
  cbn [fst]. by eapply insert_wf.
Qed.

Lemma Update_wf (r : Registry) (id : string) (updates : gmap string UpdateValue)
    (now : Time) :
  registry_wf r -> registry_wf (Update r id updates now).1.
Proof.
  intros Hwf. unfold Update.
  destruct (motivations r !! id) as [m|] eqn:E; [|exact Hwf].
  cbn [fst]. eapply insert_wf; [exact Hwf | exact E |].
  repeat match goal with
         | |- context [match ?x with _ => _ end] => destruct x
         end; reflexivity.
Qed.

(** Every registry built by the operations is well-formed. *)
Lemma reachable_wf (r : Registry) : reachable r -> registry_wf r.
Proof.
  induction 1.
  - intros k m. simpl. by rewrite lookup_empty.
  - by apply Register_wf.
  - by apply Unregister_wf.
  - by apply Enable_wf.
  - by apply Disable_wf.
  - by apply Update_wf.
  - by apply RecordTrigger_wf.
  - by apply CheckCooldowns_wf.
Qed.

End Wf.

(** ** Engine: [fire] *)

Section Fire.

Variable clock : nat -> Time.
Variable e : Engine.

Lemma sameFiring_refl (t : MotivationTrigger) : sameFiring t t.
Proof. by repeat split. Qed.

Lemma sameFiring_trans (t1 t2 t3 : MotivationTrigger) :
  sameFiring t1 t2 -> sameFiring t2 t3 -> sameFiring t1 t3.
Proof.
  unfold sameFiring. intros (?&?&?&?&?) (?&?&?&?&?).
  repeat split; congruence.
Qed.

Lemma fireCreateBead_quiet (m : Motivation) (data : gmap string Value)
    (t : MotivationTrigger) :
  quietBlock e (fireCreateBead e m data t)
    (fun t' evs =>
       sameFiring t t' ∧ Forall (fun ev => isWakeCall ev = false) evs).
Proof.
  intros w. unfold fireCreateBead, theHandler.
  destruct (CreateBeadOnTrigger m).
  - destruct (actionHandler e) as [h|]; [|reflexivity].
    unfold bind, ret, emit. simpl.
    destruct (ActionHandler.CreateStimulusBead h m data) as [beadID [err|]];
      simpl; (split; [reflexivity|]; split; [reflexivity|]);
      eexists; (split; [reflexivity|]); (split; [reflexivity|]);
      (split; [by repeat split|]); by repeat constructor.
  - simpl. split; [reflexivity|]. split; [reflexivity|].
    exists []. rewrite app_nil_r. split; [reflexivity|]. split; [reflexivity|].
    split; [apply sameFiring_refl | constructor].
Qed.

Lemma fireWake_quiet (m : Motivation) (t : MotivationTrigger) :
  quietBlock e (fireWake e m t)
    (fun t' evs =>
       sameFiring t t' ∧ Result t' = Result t ∧ Error t' = Error t ∧
       BeadCreated t' = BeadCreated t ∧
       (Result t ≠ TriggerResultSuccess -> t' = t ∧ evs = [])).
Proof.
  intros w. unfold fireWake, theHandler.
  destruct (WakeAgent m); simpl;
    [destruct (decide (Result t = TriggerResultSuccess)) as [Hs|Hs];
     [rewrite (bool_decide_eq_true_2 _ Hs) | rewrite (bool_decide_eq_false_2 _ Hs)]|];
    simpl.
  - destruct (String.eqb (AgentID m) ""); simpl.
    + destruct (String.eqb (AgentRole m) ""); simpl.
      * split; [reflexivity|]. split; [reflexivity|]. exists [].
        rewrite app_nil_r. repeat split; done.
      * destruct (actionHandler e) as [h|]; [|reflexivity].
        unfold bind, ret, emit. simpl.
        destruct (ActionHandler.WakeAgentsByRole h (AgentRole m) m); simpl;
          (split; [reflexivity|]; split; [reflexivity|]).
        -- eexists. rewrite <- app_assoc. repeat split; done.
        -- eexists. repeat split; done.
    + destruct (actionHandler e) as [h|]; [|reflexivity].
      unfold bind, ret, emit. simpl.
      destruct (ActionHandler.WakeAgent h (AgentID m) m); simpl;
        (split; [reflexivity|]; split; [reflexivity|]).
      * eexists. rewrite <- app_assoc. repeat split; done.
      * eexists. repeat split; done.
  - split; [reflexivity|]. split; [reflexivity|]. exists [].
    rewrite app_nil_r. repeat split; done.
  - split; [reflexivity|]. split; [reflexivity|]. exists [].
    rewrite app_nil_r. repeat split; done.
Qed.

Lemma firePublish_quiet (t : MotivationTrigger) :
  quietBlock e (firePublish e t)
    (fun _ evs =>
       match actionHandler e with
       | Some h =>
           ∃ rest, evs = CallPublishMotivationFired t :: rest ∧
                   Forall (fun ev => isWakeCall ev = false) rest
       | None => evs = []
       end).
Proof.
  intros w. unfold firePublish.
  destruct (actionHandler e) as [h|]; simpl.
  - unfold bind, ret, emit. simpl.
    destruct (ActionHandler.PublishMotivationFired h t); simpl;
      (split; [reflexivity|]; split; [reflexivity|]).
    + eexists. rewrite <- app_assoc. split; [reflexivity|]. split; [reflexivity|].
      eexists. split; [reflexivity|]. by repeat constructor.
    + eexists. split; [reflexivity|]. split; [reflexivity|].
      eexists. split; [reflexivity|]. constructor.
  - split; [reflexivity|]. split; [reflexivity|]. exists [].
    by rewrite app_nil_r.
Qed.

Lemma eventsSince_app (w w' : World) (evs : list Event) :
  trace w' = trace w ++ evs -> eventsSince w w' = evs.
Proof. intros H. unfold eventsSince. rewrite H. apply drop_app_length. Qed.

Lemma firedIDs_app (evs1 evs2 : list Event) :
  firedIDs (evs1 ++ evs2) = firedIDs evs1 ++ firedIDs evs2.
Proof. apply omap_app. Qed.

#[local] Arguments fireCreateBead : simpl never.
#[local] Arguments fireWake : simpl never.
#[local] Arguments firePublish : simpl never.
#[local] Arguments RecordTrigger : simpl never.
#[local] Arguments newTrigger : simpl never.

(** [fire] returns nil (or panics on a nil handler it has to call).  It
    reads the clock twice, records one trigger for [ID m], which
    describes the firing started at the first reading, and writes one
    "Motivation fired" line, the last of its events. *)
Lemma fire_spec (p : string) (m : Motivation) (data : gmap string Value)
    (w : World) :
  match fire clock e p m data w with
  | Returns err w' =>
      err = None ∧ reads w' = S (S (reads w)) ∧
      ∃ trig evs,
        sameFiring (newTrigger p m data (clock (reads w))) trig ∧
        registry w' = RecordTrigger (registry w) trig (clock (S (reads w))) ∧
        trace w' = trace w ++ evs
                     ++ [LogMotivationFired (Name m) (ID m) (AgentRole m)] ∧
        firedIDs evs = []
  | Panics => actionHandler e = None
  end.
Proof.
  unfold fire, bind, time_Now. simpl.
  match goal with |- context [fireCreateBead e m data ?t ?w1] =>
    pose proof (fireCreateBead_quiet m data t w1) as H1;
    destruct (fireCreateBead e m data t w1) as [t1 w2|]; [|exact H1] end.
  simpl in H1. destruct H1 as (Hr1 & Hc1 & evs1 & Ht1 & Hf1 & Hs1 & _).
  pose proof (fireWake_quiet m t1 w2) as H2.
  destruct (fireWake e m t1 w2) as [t2 w3|]; [|exact H2].
  destruct H2 as (Hr2 & Hc2 & evs2 & Ht2 & Hf2 & Hs2 & _).
  pose proof (firePublish_quiet t2 w3) as H3.
  destruct (firePublish e t2 w3) as [[] w4|]; [|exact H3].
  destruct H3 as (Hr3 & Hc3 & evs3 & Ht3 & Hf3 & _).
  unfold modifyRegistry, emit, ret. simpl.
  split; [reflexivity|]. split; [congruence|].
  exists t2, (evs1 ++ evs2 ++ evs3).
  split; [by eapply sameFiring_trans|].
  split; [by rewrite Hr3, Hr2, Hr1, Hc3, Hc2, Hc1|].
  split.
  - rewrite Ht3, Ht2, Ht1. by rewrite <- !app_assoc.
  - by rewrite !firedIDs_app, Hf1, Hf2, Hf3.
Qed.

End Fire.

(** C5.  [fire] on a motivation with [CreateBeadOnTrigger] set, the engine
    having an action handler.  When [CreateStimulusBead] fails, [fire]
    still returns nil; the trigger has result Error and carries the error
    string; the calls made on the handler are [CreateStimulusBead] and
    then [PublishMotivationFired] with that trigger, and no call that
    wakes an agent; the trigger is recorded in the registry and is the
    newest entry of the history.  When [CreateStimulusBead] succeeds, the
    trigger that is published and recorded has result Success and carries
    the bead id. *)
Theorem fire_bead_creation (clock : nat -> Time) (e : Engine)
    (h : ActionHandler.t) (p : string) (m : Motivation)
    (data : gmap string Value) (w : World) :
  actionHandler e = Some h ->
  CreateBeadOnTrigger m = true ->
  let t0 := newTrigger p m data (clock (reads w)) in
  match ActionHandler.CreateStimulusBead h m data with
  | (_, Some err) =>
      let trig := set_Error err (set_Result TriggerResultError t0) in
      Result trig = TriggerResultError ∧ Error trig = err ∧
      ∃ w' logs,
        fire clock e p m data w = Returns None w' ∧
        registry w' = RecordTrigger (registry w) trig (clock (S (reads w))) ∧
        last (triggers (registry w')) = Some trig ∧
        eventsSince w w'
        = [CallCreateStimulusBead m data; CallPublishMotivationFired trig]
            ++ logs ++ [LogMotivationFired (Name m) (ID m) (AgentRole m)] ∧
        (logs = [] ∨ ∃ perr, logs = [LogPublishFailed perr]) ∧
        Forall (fun ev => isWakeCall ev = false) (eventsSince w w')
  | (beadID, None) =>
      ∃ w' trig,
        fire clock e p m data w = Returns None w' ∧
        sameFiring t0 trig ∧
        Result trig = TriggerResultSuccess ∧ BeadCreated trig = beadID ∧
        registry w' = RecordTrigger (registry w) trig (clock (S (reads w))) ∧
        last (triggers (registry w')) = Some trig ∧
        CallPublishMotivationFired trig ∈ eventsSince w w'
  end.
Proof.
  intros Hh Hbead t0.
  destruct (ActionHandler.CreateStimulusBead h m data) as [beadID [err|]] eqn:Hcreate.
  - split; [reflexivity|]. split; [reflexivity|].
    cbv beta iota zeta delta [fire bind time_Now fireCreateBead fireWake
      firePublish theHandler emit ret modifyRegistry].
    rewrite Hh, Hbead. cbv beta iota. cbn [registry reads trace].
    rewrite Hcreate. cbv beta iota. cbn [Result set_Error set_Result].
    rewrite bool_decide_eq_false_2 by discriminate.
    rewrite andb_false_r. cbn [registry reads trace].
    destruct (ActionHandler.PublishMotivationFired h _) as [perr|] eqn:Hpub;
      cbn [registry reads trace].
    + eexists _, [LogPublishFailed perr]. split; [reflexivity|].
      cbn [registry reads trace].
      split; [reflexivity|]. split; [apply RecordTrigger_last|].
      assert (Hev : ∀ w', trace w' = trace w ++
                [CallCreateStimulusBead m data;
                 CallPublishMotivationFired
                   (set_Error err (set_Result TriggerResultError t0));
                 LogPublishFailed perr;
                 LogMotivationFired (Name m) (ID m) (AgentRole m)] ->
              eventsSince w w' = _) by (intros w'; apply eventsSince_app).
      rewrite Hev by (cbn [trace]; by rewrite <- !app_assoc).
      split; [reflexivity|]. split; [right; by eexists|]. by repeat constructor.
    + eexists _, []. split; [reflexivity|].
      cbn [registry reads trace].
      split; [reflexivity|]. split; [apply RecordTrigger_last|].
      assert (Hev : ∀ w', trace w' = trace w ++
                [CallCreateStimulusBead m data;
                 CallPublishMotivationFired
                   (set_Error err (set_Result TriggerResultError t0));
                 LogMotivationFired (Name m) (ID m) (AgentRole m)] ->
              eventsSince w w' = _) by (intros w'; apply eventsSince_app).
      rewrite Hev by (cbn [trace]; by rewrite <- !app_assoc).
      split; [reflexivity|]. split; [by left|]. by repeat constructor.
  - cbv beta iota zeta delta [fire bind time_Now fireCreateBead theHandler
      emit ret].
    rewrite Hh, Hbead. cbv beta iota. cbn [registry reads trace].
    rewrite Hcreate. cbv beta iota. fold t0.
    match goal with |- context [fireWake e m ?t ?w1] =>
      pose proof (fireWake_quiet e m t w1) as H2;
      destruct (fireWake e m t w1) as [t2 w3|]; [|congruence] end.
    destruct H2 as (Hr2 & Hc2 & evs2 & Ht2 & Hf2 & Hs2 & Hres & _ & Hbc & _).
    unfold firePublish. rewrite Hh.
    unfold bind, emit, ret, modifyRegistry. cbn [registry reads trace].
    destruct (ActionHandler.PublishMotivationFired h t2) as [perr|];
      cbn [registry reads trace];
      (eexists _, t2; split; [reflexivity|];
       split; [eapply sameFiring_trans; [|exact Hs2]; by repeat split|];
       split; [by rewrite Hres|]; split; [by rewrite Hbc|];
       cbn [registry reads trace];
       split; [by rewrite Hr2, Hc2|]; split; [apply RecordTrigger_last|];
       unfold eventsSince; cbn [trace]; rewrite Ht2; cbn [trace];
       rewrite <- !app_assoc, drop_app_length, !elem_of_app, !elem_of_cons;
       naive_solver).
Qed.

(** A firing under a handler whose bead creation fails. *)
Lemma fire_bead_creation_witness :
  ∃ w' logs,
    fire clock0 engineFailing "cost" beadMotivation ∅ world3 = Returns None w' ∧
    eventsSince world3 w'
    = [CallCreateStimulusBead beadMotivation ∅;
       CallPublishMotivationFired
         (set_Error "bead store unavailable"
            (set_Result TriggerResultError
               (newTrigger "cost" beadMotivation ∅ (clock0 0))))]
        ++ logs ++ [LogMotivationFired "Cost Exceeded" "cost" "cfo"].
Proof.
  pose proof (fire_bead_creation clock0 engineFailing failingHandler "cost"
                beadMotivation ∅ world3 eq_refl eq_refl) as H.
  cbn [ActionHandler.CreateStimulusBead failingHandler] in H.
  destruct H as (_ & _ & w' & logs & Hfire & _ & _ & Hev & _).
  exists w', logs. split; [exact Hfire | exact Hev].
Defined.

(** ** Engine: the loop of [Tick] *)

Section TickLoop.

Variable clock : nat -> Time.
Variable e : Engine.

(** What one run of the loop does, entered with [triggered] firings
    counted: the count it returns is [triggered] plus the number of
    "Motivation fired" lines it wrote and is at most the cap (or
    [triggered], if that was already above it); a motivation whose ID is
    not on one of these lines is left as it was; in a well-formed
    registry the IDs on these lines are pointers of [ms]. *)
Lemma tickLoop_spec (ms : list string) :
  ∀ (triggered : Z) (lastErr : error) (w : World),
    match tickLoop clock e ms triggered lastErr w with
    | Returns (n, err) w' =>
        ∃ evs, trace w' = trace w ++ evs ∧
          n = triggered + Z.of_nat (length (firedIDs evs)) ∧
          n <= Z.max triggered (MaxTriggersPerTick (engine_config e)) ∧
          (∀ k, k ∉ firedIDs evs ->
                motivations (registry w') !! k = motivations (registry w) !! k) ∧
          (registry_wf (registry w) ->
           registry_wf (registry w') ∧ firedIDs evs ⊆ ms)
    | Panics => actionHandler e = None
    end.
Proof.
  induction ms as [|p rest IH]; intros triggered lastErr w.
  - simpl. exists []. rewrite app_nil_r. simpl.
    split; [done|]. split; [lia|]. split; [lia|]. split; [done|].
    intros Hw. split; [exact Hw|]. intros k Hk. by apply elem_of_nil in Hk.
  - assert (Hskip : ∀ lastErr',
      match tickLoop clock e rest triggered lastErr' w with
      | Returns (n, err) w' =>
          ∃ evs, trace w' = trace w ++ evs ∧
            n = triggered + Z.of_nat (length (firedIDs evs)) ∧
            n <= Z.max triggered (MaxTriggersPerTick (engine_config e)) ∧
            (∀ k, k ∉ firedIDs evs ->
                  motivations (registry w') !! k = motivations (registry w) !! k) ∧
            (registry_wf (registry w) ->
             registry_wf (registry w') ∧ firedIDs evs ⊆ p :: rest)
      | Panics => actionHandler e = None
      end).
    { intros lastErr'. specialize (IH triggered lastErr' w).
      destruct (tickLoop clock e rest triggered lastErr' w) as [[n err] w'|];
        [|exact IH].
      destruct IH as (evs & Ht & Hn & Hcap & Hframe & Hwf).
      exists evs. do 4 (split; [done|]).
      intros Hw. destruct (Hwf Hw) as [Hw' Hsub]. split; [exact Hw'|].
      intros k Hk. apply elem_of_cons. right. by apply Hsub. }
    cbn [tickLoop].
    destruct (Z.leb_spec (MaxTriggersPerTick (engine_config e)) triggered)
      as [Hcap|Hcap].
    { simpl. exists []. rewrite app_nil_r. simpl.
      split; [done|]. split; [lia|]. split; [lia|]. split; [done|].
      intros Hw. split; [exact Hw|]. intros k Hk. by apply elem_of_nil in Hk. }
    unfold bind at 1, getRegistry.
    destruct (motivations (registry w) !! p) as [m|] eqn:Hm; [|apply Hskip].
    destruct (evaluate e m) as [[shouldFire data] [err|]]; [apply Hskip|].
    destruct shouldFire; [|apply Hskip].
    unfold bind. pose proof (fire_spec clock e p m data w) as Hfire.
    destruct (fire clock e p m data w) as [ferr w1|]; [|exact Hfire].
    destruct Hfire as (-> & Hreads & trig & evs1 & Hsame & Hreg & Htrace & Hquiet).
    specialize (IH (triggered + 1) lastErr w1).
    destruct (tickLoop clock e rest (triggered + 1) lastErr w1)
      as [[n err] w'|]; [|exact IH].
    destruct IH as (evs2 & Ht2 & Hn & Hle & Hframe & Hwf).
    assert (Hid : MotivationID trig = ID m) by apply Hsame.
    exists ((evs1 ++ [LogMotivationFired (Name m) (ID m) (AgentRole m)]) ++ evs2).
    assert (Hfired : firedIDs ((evs1 ++ [LogMotivationFired (Name m) (ID m)
                                           (AgentRole m)]) ++ evs2)
                     = ID m :: firedIDs evs2).
    { by rewrite !firedIDs_app, Hquiet. }
    rewrite Hfired. split; [|split; [|split; [|split]]].
    + rewrite Ht2, Htrace. by rewrite <- !app_assoc.
    + rewrite Hn. simpl length. lia.
    + lia.
    + intros k Hk. apply not_elem_of_cons in Hk as [Hne Hk].
      rewrite (Hframe k Hk), Hreg.
      apply RecordTrigger_lookup_ne. by rewrite Hid.
    + intros Hw.
      assert (Hw1 : registry_wf (registry w1))
        by (rewrite Hreg; by apply RecordTrigger_wf).
      destruct (Hwf Hw1) as [Hw' Hsub]. split; [exact Hw'|].
      intros k Hk. apply elem_of_cons in Hk as [->|Hk].
      * rewrite (Hw p m Hm). apply elem_of_cons. by left.
      * apply elem_of_cons. right. by apply Hsub.
Qed.

End TickLoop.

(** ** Engine: [Tick] *)

Section Tick.

Variable clock : nat -> Time.
Variable e : Engine.

(** The world in which the loop of [Tick] starts. *)
Lemma Tick_unfold (order : list string) (w : World) :
  Tick clock e order w
  = let w1 := {| registry := CheckCooldowns (registry w) (clock (reads w));
                 reads := S (reads w); trace := trace w |} in
    let ms := GetActive (registry w1) order in
    if (length ms =? 0)%nat then Returns (0, None) w1
    else tickLoop clock e ms 0 None w1.
Proof.
  unfold Tick, bind, time_Now, modifyRegistry, getRegistry. cbn [registry reads trace].
  by destruct (length _ =? 0)%nat.
Qed.

Lemma Tick_spec (order : list string) (w : World) :
  let r1 := CheckCooldowns (registry w) (clock (reads w)) in
  match Tick clock e order w with
  | Returns (n, err) w' =>
      ∃ evs, trace w' = trace w ++ evs ∧
        n = Z.of_nat (length (firedIDs evs)) ∧
        n <= Z.max 0 (MaxTriggersPerTick (engine_config e)) ∧
        (∀ k, k ∉ firedIDs evs ->
              motivations (registry w') !! k = motivations r1 !! k) ∧
        (registry_wf (registry w) ->
         registry_wf (registry w') ∧ firedIDs evs ⊆ GetActive r1 order)
  | Panics => actionHandler e = None
  end.
Proof.
  intros r1. rewrite Tick_unfold. cbv zeta. cbn [registry]. fold r1.
  destruct (length (GetActive r1 order) =? 0)%nat.
  - exists []. cbn [trace registry]. rewrite app_nil_r. simpl.
    split; [done|]. split; [lia|]. split; [lia|]. split; [done|].
    intros Hw. split; [by apply CheckCooldowns_wf|].
    intros k Hk. by apply elem_of_nil in Hk.
  - match goal with |- context [tickLoop clock e ?ms 0 None ?w1] =>
      pose proof (tickLoop_spec clock e ms 0 None w1) as H;
      destruct (tickLoop clock e ms 0 None w1) as [[n err] w'|]; [|exact H] end.
    cbn [trace registry] in H.
    destruct H as (evs & Ht & Hn & Hcap & Hframe & Hwf).
    exists evs. split; [done|]. split; [lia|]. split; [done|]. split; [done|].
    intros Hw. apply Hwf. by apply CheckCooldowns_wf.
Qed.

(** A motivation in cooldown whose period has not elapsed at the time a
    tick reads is left as it is by the tick and is not fired. *)
Lemma Tick_keeps_cooling (order : list string) (w : World) (id : string)
    (m : Motivation) (t0 : Time) :
  registry_wf (registry w) ->
  motivations (registry w) !! id = Some m ->
  Status m = MotivationStatusCooldown ->
  LastTriggeredAt m = Some t0 ->
  t0 <= clock (reads w) ->
  clock (reads w) - t0 < CooldownPeriod m ->
  match Tick clock e order w with
  | Returns _ w' =>
      registry_wf (registry w') ∧
      motivations (registry w') !! id = Some m ∧
      id ∉ firedIDs (eventsSince w w')
  | Panics => actionHandler e = None
  end.
Proof.
  intros Hw Hm Hst Hlast Hafter Hbefore.
  pose proof (Tick_spec order w) as H. cbv zeta in H.
  destruct (Tick clock e order w) as [[n err] w'|]; [|exact H].
  destruct H as (evs & Ht & Hn & Hcap & Hframe & Hwf).
  destruct (Hwf Hw) as [Hw' Hsub].
  rewrite (eventsSince_app _ _ _ Ht).
  assert (Hkeep : motivations (CheckCooldowns (registry w) (clock (reads w))) !! id
                  = Some m).
  { rewrite CheckCooldowns_lookup, Hm. simpl. f_equal.
    unfold checkCooldown. rewrite Hst, Hlast.
    destruct (Z.leb_spec (CooldownPeriod m) (Sub (clock (reads w)) t0)) as [Hle|_];
      [|reflexivity].
    exfalso. unfold Sub, min_int64, max_int64 in Hle. lia. }
  assert (Hnot : id ∉ firedIDs evs).
  { intros Hin. apply Hsub in Hin. unfold GetActive in Hin.
    apply list_elem_of_filter in Hin as [Hact _].
    unfold activeAt in Hact. rewrite Hkeep in Hact.
    unfold isActive in Hact. rewrite Hst in Hact. discriminate. }
  split; [exact Hw'|]. split; [|exact Hnot].
  by rewrite (Hframe id Hnot).
Qed.

End Tick.

(** C2.  In a tick, with a cap that is not negative, the number of
    motivations fired (the count [Tick] returns, which is the number of
    "Motivation fired" lines of the tick) is at most [MaxTriggersPerTick];
    and every motivation of the active set that the tick did not fire, as
    are those the loop did not come to because the cap was reached, is as
    it was when the active set was taken, in status Active.  In a
    well-formed registry the motivations fired are among the active set.
    [Tick] always returns, unless it has to call a nil action handler. *)
Theorem Tick_respects_cap (clock : nat -> Time) (e : Engine)
    (order : list string) (w : World) :
  0 <= MaxTriggersPerTick (engine_config e) ->
  match Tick clock e order w with
  | Returns (n, err) w' =>
      let r1 := CheckCooldowns (registry w) (clock (reads w)) in
      let active := GetActive r1 order in
      let fired := firedIDs (eventsSince w w') in
      n = Z.of_nat (length fired) ∧
      n <= MaxTriggersPerTick (engine_config e) ∧
      (registry_wf (registry w) -> fired ⊆ active) ∧
      (∀ p, p ∈ active -> p ∉ fired ->
         ∃ m, motivations r1 !! p = Some m ∧
              motivations (registry w') !! p = Some m ∧
              Status m = MotivationStatusActive)
  | Panics => actionHandler e = None
  end.
Proof.
  intros Hcap0. pose proof (Tick_spec clock e order w) as H. cbv zeta in H.
  destruct (Tick clock e order w) as [[n err] w'|]; [|exact H].
  destruct H as (evs & Ht & Hn & Hcap & Hframe & Hwf).
  cbv zeta. rewrite (eventsSince_app _ _ _ Ht).
  split; [exact Hn|]. split; [lia|]. split; [intros Hw; by apply Hwf|].
  intros p Hp Hnot. unfold GetActive in Hp.
  apply list_elem_of_filter in Hp as [Hact _]. unfold activeAt in Hact.
  destruct (motivations (CheckCooldowns (registry w) (clock (reads w))) !! p)
    as [m|] eqn:Hm; [|discriminate].
  exists m. split; [reflexivity|]. split; [by rewrite (Hframe p Hnot)|].
  unfold isActive in Hact. by apply bool_decide_eq_true_1 in Hact.
Qed.

(** [TestEngineMaxTriggersPerTick]: a cap of 2 and three motivations that
    all fire.  The tick fires "mot-1" and "mot-2"; "mot-3" is still
    Active. *)
Lemma Tick_respects_cap_witness :
  0 <= MaxTriggersPerTick (engine_config engine0) ∧
  ∃ w' m3,
    Tick clock0 engine0 order3 world3 = Returns (2, None) w' ∧
    firedIDs (eventsSince world3 w') = ["mot-1"; "mot-2"]%string ∧
    motivations (registry w') !! "mot-3"%string = Some m3 ∧
    Status m3 = MotivationStatusActive.
Proof.
  assert (Hcap : 0 <= MaxTriggersPerTick (engine_config engine0))
    by (vm_compute; discriminate).
  split; [exact Hcap|].
  pose proof (Tick_respects_cap clock0 engine0 order3 world3 Hcap) as H.
  destruct (Tick clock0 engine0 order3 world3) as [[n err] w'|] eqn:E;
    [|discriminate].
  assert (Hfired : firedIDs (eventsSince world3 w') = ["mot-1"; "mot-2"]%string).
  { vm_compute in E. injection E as _ _ <-. vm_compute. reflexivity. }
  destruct H as (Hn & _ & _ & Hskipped).
  destruct (Hskipped "mot-3"%string) as (m3 & _ & Hm3 & Hst3).
  - vm_compute. apply list_elem_of_In. simpl. tauto.
  - rewrite Hfired. intros Hin.
    apply list_elem_of_In in Hin. simpl in Hin.
    destruct Hin as [Hin|[Hin|[]]]; discriminate.
  - exists w', m3. split; [|split; [exact Hfired|split; [exact Hm3|exact Hst3]]].
    vm_compute in E. injection E as <- <- <-. vm_compute. reflexivity.
Defined.

(** C1.  A motivation records a successful trigger; then two ticks run,
    reading the times t1 < t2, both after the trigger and with t2 less
    than [CooldownPeriod] after it.  The trigger takes the motivation out
    of the active set; [CheckCooldowns] at any time of that window leaves
    it there; neither tick fires it; and after the second tick it is still
    in Cooldown with the same [LastTriggeredAt]. *)
Theorem cooldown_monotonicity (clock : nat -> Time) (e1 e2 : Engine)
    (order1 order2 : list string) (w0 : World) (trig : MotivationTrigger)
    (nowRecord : Time) (m0 : Motivation)
    (res1 res2 : Z * error) (w2 w3 : World) :
  let id := MotivationID trig in
  let w1 := afterRecordTrigger w0 trig nowRecord in
  let t1 := clock (reads w1) in
  let t2 := clock (reads w2) in
  registry_wf (registry w0) ->
  motivations (registry w0) !! id = Some m0 ->
  Result trig = TriggerResultSuccess ->
  Tick clock e1 order1 w1 = Returns res1 w2 ->
  Tick clock e2 order2 w2 = Returns res2 w3 ->
  TriggeredAt trig <= t1 -> t1 < t2 ->
  t2 - TriggeredAt trig < CooldownPeriod m0 ->
  activeAt (registry w1) id = false ∧
  (∀ now, TriggeredAt trig <= now -> now - TriggeredAt trig < CooldownPeriod m0 ->
          activeAt (CheckCooldowns (registry w1) now) id = false) ∧
  (id ∉ firedIDs (eventsSince w1 w2)) ∧
  (id ∉ firedIDs (eventsSince w2 w3)) ∧
  ∃ m, motivations (registry w3) !! id = Some m ∧
       Status m = MotivationStatusCooldown ∧
       LastTriggeredAt m = Some (TriggeredAt trig).
Proof.
  intros id w1 t1 t2 Hwf Hm0 Hres Htick1 Htick2 Hafter Hlt Hwindow.
  set (m1 := markTriggered trig nowRecord m0).
  assert (Hm1 : motivations (registry w1) !! id = Some m1)
    by (by apply RecordTrigger_lookup).
  assert (Hst : Status m1 = MotivationStatusCooldown).
  { unfold m1, markTriggered. by rewrite bool_decide_eq_true_2. }
  assert (Hlast : LastTriggeredAt m1 = Some (TriggeredAt trig)).
  { unfold m1, markTriggered. by rewrite bool_decide_eq_true_2. }
  assert (Hcd : CooldownPeriod m1 = CooldownPeriod m0).
  { unfold m1, markTriggered. by rewrite bool_decide_eq_true_2. }
  assert (Hwf1 : registry_wf (registry w1)) by (by apply RecordTrigger_wf).
  split; [unfold activeAt, isActive; by rewrite Hm1, Hst|].
  split.
  { intros now Hnow Hbefore. unfold activeAt.
    rewrite CheckCooldowns_lookup, Hm1. simpl.
    unfold checkCooldown. rewrite Hst, Hlast, Hcd.
    destruct (Z.leb_spec (CooldownPeriod m0) (Sub now (TriggeredAt trig)))
      as [Hle|_].
    - exfalso. unfold Sub, min_int64, max_int64 in Hle. lia.
    - unfold isActive. by rewrite Hst. }
  pose proof (Tick_keeps_cooling clock e1 order1 w1 id m1 (TriggeredAt trig)
                Hwf1 Hm1 Hst Hlast) as H1.
  rewrite Hcd, Htick1 in H1.
  destruct H1 as (Hwf2 & Hm2 & Hnot1); [exact Hafter | fold t1; lia |].
  pose proof (Tick_keeps_cooling clock e2 order2 w2 id m1 (TriggeredAt trig)
                Hwf2 Hm2 Hst Hlast) as H2.
  rewrite Hcd, Htick2 in H2.
  destruct H2 as (Hwf3 & Hm3 & Hnot2); [fold t2; lia | exact Hwindow |].
  split; [exact Hnot1|]. split; [exact Hnot2|].
  exists m1. by repeat split.
Qed.

(** Scenario 2: "m1" (cooldown 50 ms) triggered at 2000; two ticks read
    3000 and 3001 and do not fire it. *)
Lemma cooldown_monotonicity_witness :
  let trig := plainTrigger "t1" "m1" 2000 TriggerResultSuccess in
  let w1 := afterRecordTrigger worldIdle trig 2001 in
  ∃ w2 w3,
    Tick clock0 engine0 ["m1"%string] w1 = Returns (0, None) w2 ∧
    Tick clock0 engine0 ["m1"%string] w2 = Returns (0, None) w3 ∧
    ("m1"%string ∉ firedIDs (eventsSince w2 w3)) ∧
    ∃ m, motivations (registry w3) !! "m1"%string = Some m ∧
         Status m = MotivationStatusCooldown.
Proof.
  intros trig w1.
  destruct (Tick clock0 engine0 ["m1"%string] w1) as [res1 w2|] eqn:E1;
    [|vm_compute in E1; discriminate].
  destruct (Tick clock0 engine0 ["m1"%string] w2) as [res2 w3|] eqn:E2;
    [|vm_compute in E1; injection E1 as _ <-; vm_compute in E2; discriminate].
  assert (Hr1 : res1 = (0, None) ∧ reads w2 = 1%nat).
  { vm_compute in E1. injection E1 as <- <-. by split. }
  destruct Hr1 as [-> Hreads2].
  assert (Hr2 : res2 = (0, None)).
  { vm_compute in E1. injection E1 as <-. vm_compute in E2. by injection E2 as <- _. }
  subst res2.
  destruct (cooldown_monotonicity clock0 engine0 engine0 ["m1"%string]
              ["m1"%string] worldIdle trig 2001
              (set_UpdatedAt 1000 (set_CreatedAt 1000
                 (set_CooldownPeriod (50 * millisecond)
                    (set_Status MotivationStatusActive
                       (testMotivation "m1" "System Idle" "idle" "ceo" false true)))))
              (0, None) (0, None) w2 w3)
    as (_ & _ & _ & Hnot & m & Hm & Hst & _).
  - apply reachable_wf. unfold worldIdle, registryIdle. cbn [registry].
    apply reach_Register, reach_NewRegistry.
  - vm_compute. reflexivity.
  - reflexivity.
  - exact E1.
  - exact E2.
  - vm_compute. discriminate.
  - rewrite Hreads2. vm_compute. reflexivity.
  - rewrite Hreads2. vm_compute. reflexivity.
  - exists w2, w3. split; [reflexivity|]. split; [exact E2|].
    split; [exact Hnot|]. exists m. by split.
Defined.

(** ** Engine: [ManualTrigger] *)

(** C7.  [ManualTrigger] on an id of the registry does not look at the
    status of the motivation: it fires it with trigger data
    [{manual: true}], returns a trigger with result Success and a nil
    error, and the registry records a trigger for the motivation, with that
    trigger data, as the newest entry of its history.  (It panics only
    when [fire] has to call a nil action handler.)  On an unknown id it
    returns the not-found error and changes nothing: no trigger is
    recorded and nothing is called. *)
Theorem ManualTrigger_spec (clock : nat -> Time) (e : Engine) (id : string)
    (w : World) :
  match motivations (registry w) !! id with
  | Some m =>
      match ManualTrigger clock e id w with
      | Returns (ot, err) w' =>
          err = None ∧
          ∃ trigger recorded,
            ot = Some trigger ∧
            Result trigger = TriggerResultSuccess ∧
            TriggerData trigger = {[ "manual"%string := VBool true ]} ∧
            MotivationID trigger = ID m ∧
            MotivationID recorded = ID m ∧
            TriggerData recorded = {[ "manual"%string := VBool true ]} ∧
            registry w'
            = RecordTrigger (registry w) recorded (clock (S (S (reads w)))) ∧
            triggers (registry w')
            = lastN 1000 (triggers (registry w) ++ [recorded]) ∧
            last (triggers (registry w')) = Some recorded ∧
            firedIDs (eventsSince w w') = [ID m]
      | Panics => actionHandler e = None
      end
  | None =>
      ManualTrigger clock e id w
      = Returns (None, Some ("motivation not found: " ++ id)%string) w
  end.
Proof.
  cbv beta iota zeta delta [ManualTrigger bind getRegistry Get].
  destruct (motivations (registry w) !! id) as [m|]; [|reflexivity].
  cbv beta iota zeta delta [time_Now]. cbn [TriggerData].
  set (w1 := {| registry := registry w; reads := S (reads w); trace := trace w |}).
  pose proof (fire_spec clock e id m {[ "manual"%string := VBool true ]} w1) as Hfire.
  destruct (fire clock e id m _ w1) as [ferr w'|]; [|exact Hfire].
  destruct Hfire as (-> & Hreads & recorded & evs & Hsame & Hreg & Htrace & Hquiet).
  unfold ret. split; [reflexivity|].
  eexists _, recorded. split; [reflexivity|].
  destruct Hsame as (_ & Hid & _ & _ & Hdata).
  cbn [registry reads trace w1] in *.
  split; [reflexivity|]. split; [reflexivity|]. split; [reflexivity|].
  split; [exact Hid|]. split; [exact Hdata|]. split; [exact Hreg|].
  split; [rewrite Hreg; apply RecordTrigger_triggers|].
  split; [rewrite Hreg; apply RecordTrigger_last|].
  unfold eventsSince. rewrite Htrace, drop_app_length.
  by rewrite firedIDs_app, Hquiet.
Qed.

(** Scenario 5: "m1" is in Cooldown after a first successful trigger;
    [ManualTrigger] fires it all the same and the history then holds two
    records.  An unknown id gives the not-found error. *)
Lemma ManualTrigger_spec_witness :
  let w1 := afterRecordTrigger worldIdle
              (plainTrigger "t1" "m1" 2000 TriggerResultSuccess) 2001 in
  (∃ m, motivations (registry w1) !! "m1"%string = Some m ∧
        Status m = MotivationStatusCooldown) ∧
  (∃ trigger w',
     ManualTrigger clock0 engine0 "m1" w1 = Returns (Some trigger, None) w' ∧
     Result trigger = TriggerResultSuccess ∧
     TriggerData trigger !! "manual"%string = Some (VBool true) ∧
     length (triggers (registry w')) = 2%nat) ∧
  ManualTrigger clock0 engine0 "nope" w1
  = Returns (None, Some "motivation not found: nope"%string) w1.
Proof.
  intros w1. split; [|split].
  - eexists. split; [vm_compute; reflexivity | reflexivity].
  - pose proof (ManualTrigger_spec clock0 engine0 "m1" w1) as H.
    destruct (motivations (registry w1) !! "m1"%string) as [m|] eqn:Hm;
      [|vm_compute in Hm; discriminate].
    destruct (ManualTrigger clock0 engine0 "m1" w1) as [[ot err] w'|];
      [|discriminate].
    destruct H as (-> & trigger & recorded & -> & Hres & Hdata & _ & _ & _ & _
                   & Hhist & _).
    exists trigger, w'. split; [reflexivity|]. split; [exact Hres|].
    split; [by rewrite Hdata|]. rewrite Hhist. reflexivity.
  - exact (ManualTrigger_spec clock0 engine0 "nope" w1).
Defined.

(** ** The tests of the package, run on the model *)

(** Scenario 6: the estimate of that history, 25,100, is below the cap of
    80,000, and the list is sent as it is. *)
Example history50_within_cap :
  totalTokens history50 = 25100 ∧
  handleTokenLimits unknownModel history50 = history50.
Proof. split; vm_compute; reflexivity. Qed.

(** [TestTriggerHistory]: five triggers recorded, the last three asked
    for. *)
Example TestTriggerHistory :
  GetTriggerHistory (recordAll registry1 fiveTriggers) 3
  = (drop 2 fiveTriggers).*1.
Proof. vm_compute. reflexivity. Qed.

(** [TestEngineCooldownPreventsRetrigger]: the first tick fires "m1", the
    second, at once, does not, the third, after the cooldown, does. *)
Example TestEngineCooldownPreventsRetrigger :
  ∃ w1 w2 w3,
    Tick clockJump engine0 ["m1"%string] worldIdle = Returns (1, None) w1 ∧
    Tick clockJump engine0 ["m1"%string] w1 = Returns (0, None) w2 ∧
    Tick clockJump engine0 ["m1"%string] w2 = Returns (1, None) w3 ∧
    length (triggers (registry w3)) = 2%nat.
Proof.
  destruct (Tick clockJump engine0 ["m1"%string] worldIdle) as [r1 w1|] eqn:E1;
    vm_compute in E1; [|discriminate].
  injection E1 as <- <-.
  eexists. eexists. eexists. split; [reflexivity|].
  split; [vm_compute; reflexivity|].
  split; vm_compute; reflexivity.
Qed.

(* ===================================================================== *)
(** * Part II, continued: further properties of the code *)
(* ===================================================================== *)

(** ** Registry: the indexes *)

Section Indexes.

Lemma index_get_insert (ix : gmap string (list string)) (k k' : string)
    (l : list string) :
  index_get (<[k := l]> ix) k' = if decide (k = k') then l else index_get ix k'.
Proof.
  unfold index_get. rewrite lookup_insert. by case_decide.
Qed.

(** [removeFromSlice] on a slice without repetition whose pointers read
    their own key as ID: the slice without [id]. *)
Lemma removeFromSlice_spec (r : Registry) (l : list string) (id : string) :
  (∀ x, x ∈ l -> deref_ID r x = x) -> NoDup l ->
  NoDup (removeFromSlice r l id) ∧
  ∀ p, p ∈ removeFromSlice r l id <-> p ∈ l ∧ p ≠ id.
Proof.
  induction l as [|x l IH]; intros Hderef Hnd.
  - simpl. split; [constructor|]. intros p. split; [by intros ?%elem_of_nil|].
    by intros [?%elem_of_nil _].
  - apply NoDup_cons in Hnd as [Hx Hnd]. simpl.
    rewrite (Hderef x) by (apply elem_of_cons; by left).
    destruct (String.eqb_spec x id) as [->|Hne].
    + split; [exact Hnd|]. intros p. rewrite elem_of_cons. split.
      * intros Hp. split; [by right|]. by intros ->.
      * intros [[->|Hp] Hneq]; done.
    + destruct IH as [IHnd IHin].
      { intros y Hy. apply Hderef. apply elem_of_cons. by right. }
      { exact Hnd. }
      split.
      * apply NoDup_cons. split; [|exact IHnd].
        intros Hin. apply IHin in Hin as [Hin _]. done.
      * intros p. rewrite !elem_of_cons, IHin. split.
        -- intros [->|[Hp Hneq]]; [split; [by left|done] | split; [by right|done]].
        -- intros [[->|Hp] Hneq]; [by left | right; by split].
Qed.

Lemma index_ok_NewRegistry (cfg : MotivationConfig) : index_ok (NewRegistry cfg).
Proof.
  unfold index_ok, index_get. simpl.
  split; [|split; [|split]].
  - intros role p. rewrite lookup_empty. simpl. split; [by intros ?%elem_of_nil|].
    intros [_ (m & Hm & _)]. by rewrite lookup_empty in Hm.
  - intros role. rewrite lookup_empty. constructor.
  - intros proj p. rewrite lookup_empty. simpl. split; [by intros ?%elem_of_nil|].
    intros (m & Hm & _). by rewrite lookup_empty in Hm.
  - intros proj. rewrite lookup_empty. constructor.
Qed.

(** Operations that keep the indexes and, under every key, the role and the
    project of the motivation keep [index_ok]. *)
Lemma index_ok_same_shape (r r' : Registry) :
  byRole r' = byRole r -> byProject r' = byProject r ->
  (∀ k, (fun m => (AgentRole m, ProjectID m)) <$> motivations r' !! k
        = (fun m => (AgentRole m, ProjectID m)) <$> motivations r !! k) ->
  index_ok r -> index_ok r'.
Proof.
  intros Hbr Hbp Hshape (Hrole & Hrnd & Hproj & Hpnd).
  assert (Hex : ∀ p (P : Motivation -> Prop),
            (∀ m1 m2, AgentRole m1 = AgentRole m2 -> ProjectID m1 = ProjectID m2 ->
                      P m1 -> P m2) ->
            (∃ m, motivations r' !! p = Some m ∧ P m) <->
            (∃ m, motivations r !! p = Some m ∧ P m)).
  { intros p P HP. specialize (Hshape p).
    destruct (motivations r' !! p) as [m1|], (motivations r !! p) as [m2|];
      simpl in Hshape; try discriminate.
    - injection Hshape as Ha Hb. split; intros (m & [= <-] & Hm); eexists;
        (split; [reflexivity|]); eapply HP; eauto.
    - split; intros (m & Hm & _); discriminate. }
  unfold index_ok. rewrite Hbr, Hbp.
  split; [|split; [exact Hrnd|split; [|exact Hpnd]]].
  - intros role p. rewrite Hrole.
    rewrite (Hex p (fun m => AgentRole m = role)); [done|]. congruence.
  - intros proj p. rewrite Hproj.
    rewrite (Hex p (fun m => ProjectID m = proj)); [done|]. congruence.
Qed.

Lemma index_ok_insert (r : Registry) (id : string) (m m' : Motivation) :
  motivations r !! id = Some m ->
  AgentRole m' = AgentRole m -> ProjectID m' = ProjectID m ->
  index_ok r -> index_ok (set_motivations (<[id := m']> (motivations r)) r).
Proof.
  intros Hm Ha Hp. apply index_ok_same_shape; [reflexivity..|].
  intros k. cbn [motivations set_motivations]. rewrite lookup_insert.
  case_decide as Hk; [|reflexivity]. subst k. rewrite Hm. simpl. congruence.
Qed.

Lemma markTriggered_shape (t : MotivationTrigger) (now : Time) (m : Motivation) :
  AgentRole (markTriggered t now m) = AgentRole m ∧
  ProjectID (markTriggered t now m) = ProjectID m.
Proof. unfold markTriggered. by destruct (bool_decide _). Qed.

Lemma checkCooldown_shape (now : Time) (m : Motivation) :
  AgentRole (checkCooldown now m) = AgentRole m ∧
  ProjectID (checkCooldown now m) = ProjectID m.
Proof.
  unfold checkCooldown.
  destruct (Status m), (LastTriggeredAt m); try done. by destruct (_ <=? _).
Qed.

Lemma Enable_index_ok (r : Registry) (id : string) (now : Time) :
  index_ok r -> index_ok (Enable r id now).1.
Proof.
  intros H. unfold Enable.
  destruct (motivations r !! id) as [m|] eqn:E; [|exact H].
  cbn [fst]. by eapply index_ok_insert.
Qed.

Lemma Disable_index_ok (r : Registry) (id : string) (now : Time) :
  index_ok r -> index_ok (Disable r id now).1.
Proof.
  intros H. unfold Disable.
  destruct (motivations r !! id) as [m|] eqn:E; [|exact H].
  cbn [fst]. by eapply index_ok_insert.
Qed.

Lemma Update_index_ok (r : Registry) (id : string)
    (updates : gmap string UpdateValue) (now : Time) :
  index_ok r -> index_ok (Update r id updates now).1.
Proof.
  intros H. unfold Update.
  destruct (motivations r !! id) as [m|] eqn:E; [|exact H].
  cbn [fst]. eapply index_ok_insert; [exact E| | |exact H];
    repeat match goal with
           | |- context [match ?x with _ => _ end] => destruct x
           end; reflexivity.
Qed.

Lemma RecordTrigger_index_ok (r : Registry) (t : MotivationTrigger) (now : Time) :
  index_ok r -> index_ok (RecordTrigger r t now).
Proof.
  apply index_ok_same_shape.
  - unfold RecordTrigger. by destruct (motivations r !! MotivationID t).
  - unfold RecordTrigger. by destruct (motivations r !! MotivationID t).
  - intros k. rewrite RecordTrigger_lookup_any. case_decide; [|reflexivity].
    destruct (motivations r !! k) as [m|]; [|reflexivity]. simpl.
    by destruct (markTriggered_shape t now m) as [-> ->].
Qed.

Lemma CheckCooldowns_index_ok (r : Registry) (now : Time) :
  index_ok r -> index_ok (CheckCooldowns r now).
Proof.
  apply index_ok_same_shape; [reflexivity..|].
  intros k. rewrite CheckCooldowns_lookup.
  destruct (motivations r !! k) as [m|]; [|reflexivity]. simpl.
  by destruct (checkCooldown_shape now m) as [-> ->].
Qed.

#[local] Arguments withDefaults : simpl never.

Lemma storedID_eq (r : Registry) (m : Motivation) :
  storedID r m
  = if String.eqb (ID m) "" then ("mot-" ++ fmt_d (nextID r))%string else ID m.
Proof. unfold storedID, withID. by destruct (String.eqb (ID m) ""). Qed.

Lemma storedID_nonempty (r : Registry) (m : Motivation) :
  storedID r m ≠ ""%string.
Proof.
  rewrite storedID_eq. destruct (String.eqb_spec (ID m) "") as [_|Hne];
    [discriminate | exact Hne].
Qed.

Lemma withID_shape (r : Registry) (m : Motivation) :
  (withID r m).1 = set_ID (storedID r m) m ∧
  motivations (withID r m).2 = motivations r ∧
  byRole (withID r m).2 = byRole r ∧
  byProject (withID r m).2 = byProject r ∧
  triggers (withID r m).2 = triggers r ∧
  config (withID r m).2 = config r.
Proof.
  unfold storedID, withID.
  destruct (String.eqb (ID m) ""); cbn; by destruct m.
Qed.

(** What a successful [Register] stores, and where it indexes it. *)
Lemma Register_success (r : Registry) (m : Motivation) (t1 t2 : Time) :
  motivations r !! storedID r m = None ->
  ∃ r' m',
    Register r (Some m) t1 t2 = (r', Some m', None) ∧
    m' = withDefaults (config r) (set_ID (storedID r m) m) t1 t2 ∧
    motivations r' = <[storedID r m := m']> (motivations r) ∧
    byRole r' = (if String.eqb (AgentRole m) "" then byRole r
                 else <[AgentRole m :=
                          index_get (byRole r) (AgentRole m) ++ [storedID r m]]>
                        (byRole r)) ∧
    byProject r' = <[ProjectID m :=
                       index_get (byProject r) (ProjectID m) ++ [storedID r m]]>
                     (byProject r) ∧
    triggers r' = triggers r ∧ config r' = config r.
Proof.
  intros Hfresh.
  destruct (withID_shape r m) as (Hm0 & Hms & Hbr & Hbp & Htr & Hcfg).
  unfold Register. destruct (withID r m) as [m0 r0]. cbn [fst snd] in *.
  subst m0. set (id := storedID r m) in *.
  change (ID (set_ID id m)) with id. rewrite Hms, Hfresh, Hcfg.
  set (m' := withDefaults (config r) (set_ID id m) t1 t2).
  destruct (withDefaults_fields (config r) (set_ID id m) t1 t2)
    as (Wid & _ & Wrole & Wproj & _).
  fold m' in Wid, Wrole, Wproj. cbn [ID AgentRole ProjectID set_ID] in Wid, Wrole, Wproj.
  eexists _, m'. split; [reflexivity|]. split; [reflexivity|].
  set (ra := set_motivations (<[ID m' := m']> (motivations r)) r0).
  destruct (indexByProject_frame (indexByRole ra m') m') as (Pm & Pbr & Pt & _ & Pc).
  destruct (indexByRole_frame ra m') as (Rm & Rbp & Rt & _ & Rc).
  rewrite Pm, Pt, Pc, Rm, Rt, Rc, Pbr. subst ra.
  cbn [motivations triggers config set_motivations].
  split; [by rewrite Wid|]. split; [|split; [|by split]].
  - unfold indexByRole. rewrite Wrole.
    destruct (String.eqb (AgentRole m) ""); cbn; by rewrite ?Hbr, ?Wid.
  - unfold indexByProject. rewrite Wproj.
    destruct (String.eqb_spec (ProjectID m) "") as [Hp|Hp];
      cbn [byProject set_byProject]; rewrite Rbp;
      cbn [byProject set_motivations]; by rewrite ?Hp, Hbp, Wid.
Qed.

Lemma Register_index_ok (r : Registry) (mp : option Motivation) (t1 t2 : Time) :
  index_ok r -> index_ok (Register r mp t1 t2).1.1.
Proof.
  intros Hok. destruct mp as [m|]; [|exact Hok].
  destruct (motivations r !! storedID r m) as [old|] eqn:Elook.
  - pose proof (Register_cases r m t1 t2) as H. cbv zeta in H.
    rewrite <- storedID_eq, Elook in H.
    destruct H as (r' & m' & -> & Hms & Hbr & Hbp & _). cbn [fst].
    apply (index_ok_same_shape r); [done..| |exact Hok].
    intros k. by rewrite Hms.
  - destruct (Register_success r m t1 t2 Elook)
      as (r' & m' & -> & Hm' & Hms & Hbr & Hbp & _). cbn [fst].
    destruct (withDefaults_fields (config r) (set_ID (storedID r m) m) t1 t2)
      as (_ & _ & Wrole & Wproj & _).
    rewrite <- Hm' in Wrole, Wproj. cbn [AgentRole ProjectID set_ID] in Wrole, Wproj.
    set (id := storedID r m) in *.
    destruct Hok as (Hrole & Hrnd & Hproj & Hpnd).
    assert (Hnotin_role : ∀ role, id ∉ index_get (byRole r) role).
    { intros role Hin. apply Hrole in Hin as (_ & m0 & Hm0 & _). congruence. }
    assert (Hnotin_proj : ∀ proj, id ∉ index_get (byProject r) proj).
    { intros proj Hin. apply Hproj in Hin as (m0 & Hm0 & _). congruence. }
    assert (Hlook : ∀ p (P : Motivation -> Prop),
              (∃ m0, motivations r' !! p = Some m0 ∧ P m0) <->
              (p = id ∧ P m') ∨ (∃ m0, motivations r !! p = Some m0 ∧ P m0)).
    { intros p P. rewrite Hms, lookup_insert. case_decide as Hid.
      - subst p. split.
        + intros (m0 & [= <-] & HP). by left.
        + intros [[_ HP]|(m0 & Hm0 & _)]; [by eexists | congruence].
      - split; [by right|]. intros [[? _]|H]; [congruence | exact H]. }
    unfold index_ok. split; [|split; [|split]].
    + intros role p. rewrite Hbr, (Hlook p (fun m0 => AgentRole m0 = role)), Wrole.
      destruct (String.eqb_spec (AgentRole m) "") as [Hr|Hr].
      * rewrite Hrole. split; [tauto|]. intros [Hne [[_ He]|H]]; [congruence|tauto].
      * rewrite index_get_insert. case_decide as Hk.
        -- subst role. rewrite elem_of_app, list_elem_of_singleton, Hrole. tauto.
        -- rewrite Hrole. split; [tauto|]. intros [Hne [[_ He]|H]]; [congruence|tauto].
    + intros role. rewrite Hbr.
      destruct (String.eqb (AgentRole m) ""); [apply Hrnd|].
      rewrite index_get_insert. case_decide; [|apply Hrnd].
      apply NoDup_app. split; [apply Hrnd|]. split; [|apply NoDup_singleton].
      intros x Hx ->%list_elem_of_singleton. by apply (Hnotin_role (AgentRole m)).
    + intros proj p. rewrite Hbp, (Hlook p (fun m0 => ProjectID m0 = proj)), Wproj.
      rewrite index_get_insert. case_decide as Hk.
      * subst proj. rewrite elem_of_app, list_elem_of_singleton, Hproj. tauto.
      * rewrite Hproj. split; [tauto|]. intros [[_ He]|H]; [congruence|tauto].
    + intros proj. rewrite Hbp, index_get_insert. case_decide; [|apply Hpnd].
      apply NoDup_app. split; [apply Hpnd|]. split; [|apply NoDup_singleton].
      intros x Hx ->%list_elem_of_singleton. by apply (Hnotin_proj (ProjectID m)).
Qed.

(** What a successful [Unregister] leaves. *)
Lemma Unregister_success (r : Registry) (id : string) (m : Motivation) :
  motivations r !! id = Some m ->
  ∃ r',
    Unregister r id = (r', None) ∧
    motivations r' = delete id (motivations r) ∧
    byRole r' = (if String.eqb (AgentRole m) "" then byRole r
                 else <[AgentRole m :=
                          removeFromSlice r (index_get (byRole r) (AgentRole m)) (ID m)]>
                        (byRole r)) ∧
    byProject r' = <[ProjectID m :=
                       removeFromSlice r (index_get (byProject r) (ProjectID m)) (ID m)]>
                     (byProject r) ∧
    triggers r' = triggers r ∧ config r' = config r ∧ nextID r' = nextID r.
Proof.
  intros Hm. unfold Unregister. rewrite Hm.
  eexists. split; [reflexivity|].
  destruct (String.eqb (AgentRole m) ""),
    (String.eqb_spec (ProjectID m) "") as [Hp|Hp]; cbn; rewrite ?Hp; by repeat split.
Qed.

Lemma Unregister_index_ok (r : Registry) (id : string) :
  registry_wf r -> index_ok r -> index_ok (Unregister r id).1.
Proof.
  intros Hwf Hok. destruct (motivations r !! id) as [m|] eqn:Hm.
  2: { unfold Unregister. by rewrite Hm. }
  destruct (Unregister_success r id m Hm) as (r' & -> & Hms & Hbr & Hbp & _).
  cbn [fst]. rewrite (Hwf id m Hm) in Hbr, Hbp.
  destruct Hok as (Hrole & Hrnd & Hproj & Hpnd).
  assert (Hderef_role : ∀ role x, x ∈ index_get (byRole r) role -> deref_ID r x = x).
  { intros role x (_ & mx & Hmx & _)%Hrole. unfold deref_ID. rewrite Hmx.
    by apply Hwf. }
  assert (Hderef_proj : ∀ proj x, x ∈ index_get (byProject r) proj -> deref_ID r x = x).
  { intros proj x (mx & Hmx & _)%Hproj. unfold deref_ID. rewrite Hmx.
    by apply Hwf. }
  assert (Hlook : ∀ p (P : Motivation -> Prop),
            (∃ m0, motivations r' !! p = Some m0 ∧ P m0) <->
            p ≠ id ∧ (∃ m0, motivations r !! p = Some m0 ∧ P m0)).
  { intros p P. rewrite Hms, lookup_delete. case_decide as Hid.
    - subst p. split; [by intros (? & ? & _) | by intros [? _]].
    - split; [by intros H | by intros [_ H]]. }
  unfold index_ok. split; [|split; [|split]].
  - intros role p. rewrite Hbr, (Hlook p (fun m0 => AgentRole m0 = role)).
    destruct (String.eqb_spec (AgentRole m) "") as [Hr|Hr].
    + rewrite Hrole. split.
      * intros (Hne & m0 & Hm0 & Ha). split; [done|]. split; [|by eauto].
        intros ->. rewrite Hm in Hm0. congruence.
      * by intros (Hne & _ & H).
    + rewrite index_get_insert. case_decide as Hk.
      * subst role.
        destruct (removeFromSlice_spec r (index_get (byRole r) (AgentRole m)) id
                    (Hderef_role _) (Hrnd _)) as [_ Hin].
        rewrite Hin, Hrole. tauto.
      * rewrite Hrole. split.
        -- intros (Hne & m0 & Hm0 & Ha). split; [done|]. split; [|by eauto].
           intros ->. rewrite Hm in Hm0. congruence.
        -- by intros (Hne & _ & H).
  - intros role. rewrite Hbr.
    destruct (String.eqb (AgentRole m) ""); [apply Hrnd|].
    rewrite index_get_insert. case_decide; [|apply Hrnd].
    by apply removeFromSlice_spec; [apply Hderef_role|].
  - intros proj p. rewrite Hbp, (Hlook p (fun m0 => ProjectID m0 = proj)).
    rewrite index_get_insert. case_decide as Hk.
    + subst proj.
      destruct (removeFromSlice_spec r (index_get (byProject r) (ProjectID m)) id
                  (Hderef_proj _) (Hpnd _)) as [_ Hin].
      rewrite Hin, Hproj. tauto.
    + rewrite Hproj. split; [|tauto]. intros (m0 & Hm0 & Ha).
      split; [|by eauto]. intros ->. rewrite Hm in Hm0. congruence.
  - intros proj. rewrite Hbp, index_get_insert. case_decide; [|apply Hpnd].
    by apply removeFromSlice_spec; [apply Hderef_proj|].
Qed.

Lemma reachable_no_empty_key (r : Registry) :
  reachable r -> motivations r !! ""%string = None.
Proof.
  induction 1 as [cfg|r mp t1 t2 _ IH|r id _ IH|r id now _ IH|r id now _ IH
                 |r id updates now _ IH|r trigger now _ IH|r now _ IH].
  - apply lookup_empty.
  - destruct mp as [m|]; [|exact IH].
    pose proof (Register_cases r m t1 t2) as H. cbv zeta in H.
    rewrite <- storedID_eq in H.
    destruct (motivations r !! storedID r m).
    + destruct H as (r' & m' & Heq & Hms & _). rewrite Heq. cbn [fst].
      by rewrite Hms.
    + destruct H as (r' & m' & Heq & _ & Hms & _). rewrite Heq. cbn [fst].
      rewrite Hms, lookup_insert_ne; [exact IH | apply storedID_nonempty].
  - destruct (motivations r !! id) as [m|] eqn:Hm.
    + destruct (Unregister_success r id m Hm) as (r' & Heq & Hms & _).
      rewrite Heq. cbn [fst]. rewrite Hms, lookup_delete. by case_decide.
    + unfold Unregister. by rewrite Hm.
  - unfold Enable. destruct (motivations r !! id) as [m|] eqn:Hm; [|exact IH].
    cbn. rewrite lookup_insert_ne; [exact IH | congruence].
  - unfold Disable. destruct (motivations r !! id) as [m|] eqn:Hm; [|exact IH].
    cbn. rewrite lookup_insert_ne; [exact IH | congruence].
  - unfold Update. destruct (motivations r !! id) as [m|] eqn:Hm; [|exact IH].
    cbn. rewrite lookup_insert_ne; [exact IH | congruence].
  - rewrite RecordTrigger_lookup_any. case_decide; by rewrite IH.
  - by rewrite CheckCooldowns_lookup, IH.
Qed.

Lemma reachable_index_ok (r : Registry) : reachable r -> index_ok r.
Proof.
  induction 1 as [cfg|r mp t1 t2 Hr IH|r id Hr IH|r id now _ IH|r id now _ IH
                 |r id updates now _ IH|r trigger now _ IH|r now _ IH].
  - apply index_ok_NewRegistry.
  - by apply Register_index_ok.
  - apply Unregister_index_ok; [by apply reachable_wf | exact IH].
  - by apply Enable_index_ok.
  - by apply Disable_index_ok.
  - by apply Update_index_ok.
  - by apply RecordTrigger_index_ok.
  - by apply CheckCooldowns_index_ok.
Qed.

End Indexes.

(** X1.  In every registry that the operations build from [NewRegistry]:
    each motivation is stored under its own ID; no motivation is stored
    under the empty ID; and the two indexes agree with the map, the slice
    under a role (a project) holding exactly the pointers of the
    motivations with that role (that project), each once. *)
Theorem reachable_registry_invariant (r : Registry) :
  reachable r ->
  registry_wf r ∧ motivations r !! ""%string = None ∧ index_ok r.
Proof.
  intros Hr. split; [by apply reachable_wf|].
  split; [by apply reachable_no_empty_key | by apply reachable_index_ok].
Qed.

(** The registry of [TestEngineMaxTriggersPerTick] with "mot-2"
    unregistered. *)
Lemma reachable_registry_invariant_witness :
  reachable (Unregister registry3 "mot-2").1 ∧
  index_get (byRole (Unregister registry3 "mot-2").1) "ceo" = ["mot-1"%string] ∧
  index_ok (Unregister registry3 "mot-2").1.
Proof.
  assert (H : reachable (Unregister registry3 "mot-2").1).
  { apply reach_Unregister. unfold registry3. cbv zeta.
    do 3 apply reach_Register. apply reach_NewRegistry. }
  split; [exact H|]. split; [vm_compute; reflexivity|].
  exact (proj2 (proj2 (reachable_registry_invariant _ H))).
Defined.

(** ** Registry: registering, unregistering and the queries *)

Section RegistryQueries.

#[local] Arguments withDefaults : simpl never.

Lemma removeFromSlice_snoc (r : Registry) (l : list string) (id : string) :
  (∀ x, x ∈ l -> deref_ID r x ≠ id) -> deref_ID r id = id ->
  removeFromSlice r (l ++ [id]) id = l.
Proof.
  intros Hl Hid. induction l as [|x l IH]; simpl.
  - by rewrite Hid, String.eqb_refl.
  - destruct (String.eqb_spec (deref_ID r x) id) as [He|_].
    + exfalso. apply (Hl x); [by left | exact He].
    + f_equal. apply IH. intros y Hy. apply Hl. by right.
Qed.

Lemma enumerates_length (r : Registry) (order : list string) :
  enumerates r order -> length order = Count r.
Proof.
  intros [Hnd Hin]. unfold Count. rewrite <- length_map_to_list.
  rewrite <- (length_fmap fst (map_to_list (motivations r))).
  apply Permutation_length, NoDup_Permutation;
    [done | apply NoDup_fst_map_to_list |].
  intros k. rewrite Hin, list_elem_of_fmap. split.
  - intros [m Hm]. exists (k, m). split; [done|]. by apply elem_of_map_to_list.
  - intros [[k' m] [-> Hm%elem_of_map_to_list]]. by exists m.
Qed.

Lemma Get_insert_ne (r : Registry) (ms : gmap string Motivation) (k : string) :
  motivations r !! k = ms !! k -> Get (set_motivations ms r) k = Get r k.
Proof. intros H. unfold Get. cbn. by rewrite H. Qed.

Lemma guard_iff (a b c : bool) :
  (if negb a && negb b then false else c) = true <->
  (a = true ∨ b = true) ∧ c = true.
Proof. destruct a, b, c; cbn; intuition congruence. Qed.

Lemma Matches_iff (f : MotivationFilters.t) (m : Motivation) :
  Matches f m = true <->
  (MotivationFilters.Type_ f = ""%string ∨ Type_ m = MotivationFilters.Type_ f) ∧
  (MotivationFilters.Status f = StatusUnset ∨ Status m = MotivationFilters.Status f) ∧
  (MotivationFilters.AgentRole f = ""%string
   ∨ AgentRole m = MotivationFilters.AgentRole f) ∧
  (MotivationFilters.ProjectID f = ""%string
   ∨ ProjectID m = MotivationFilters.ProjectID f) ∧
  (MotivationFilters.IsBuiltIn f = None
   ∨ MotivationFilters.IsBuiltIn f = Some (IsBuiltIn m)).
Proof.
  unfold Matches. rewrite !guard_iff, !String.eqb_eq, !bool_decide_eq_true.
  do 4 (apply and_iff_compat_l).
  destruct (MotivationFilters.IsBuiltIn f) as [[]|], (IsBuiltIn m);
    cbn; intuition congruence.
Qed.

End RegistryQueries.

(** X2.  Registering a motivation whose ID (its own, or the generated
    "mot-N" when it has none) is not in the registry succeeds; [Get] on
    that ID then returns the stored motivation, which carries the ID, the
    defaults for an unset status and a zero creation time, and the time of
    the call as [UpdatedAt]; [Count] grows by one and [Get] on every other
    ID answers as before. *)
Theorem Register_then_Get (r : Registry) (m : Motivation) (t1 t2 : Time) :
  motivations r !! storedID r m = None ->
  ∃ r' m',
    Register r (Some m) t1 t2 = (r', Some m', None) ∧
    Get r' (storedID r m) = (Some m', None) ∧
    ID m' = storedID r m ∧
    Status m' = match Status m with
                | StatusUnset => if EnabledByDefault (config r)
                                 then MotivationStatusActive
                                 else MotivationStatusDisabled
                | s => s
                end ∧
    CreatedAt m' = (if IsZero (CreatedAt m) then t1 else CreatedAt m) ∧
    UpdatedAt m' = t2 ∧
    Count r' = S (Count r) ∧
    (∀ k, k ≠ storedID r m -> Get r' k = Get r k).
Proof.
  intros Hfresh.
  destruct (Register_success r m t1 t2 Hfresh)
    as (r' & m' & Hreg & Hm' & Hms & _).
  exists r', m'. split; [exact Hreg|].
  split; [unfold Get; by rewrite Hms, lookup_insert_eq|].
  assert (Hfields :
    ID m' = storedID r m ∧
    Status m' = match Status m with
                | StatusUnset => if EnabledByDefault (config r)
                                 then MotivationStatusActive
                                 else MotivationStatusDisabled
                | s => s
                end ∧
    CreatedAt m' = (if IsZero (CreatedAt m) then t1 else CreatedAt m) ∧
    UpdatedAt m' = t2).
  { rewrite Hm'. unfold withDefaults. cbn [Status set_ID CooldownPeriod CreatedAt].
    destruct (Status m) eqn:Hst, (EnabledByDefault (config r)); cbn;
      destruct (CooldownPeriod m =? 0); cbn;
      destruct (IsZero (CreatedAt m)); cbn; by repeat split. }
  destruct Hfields as (H1 & H2 & H3 & H4).
  do 4 (split; [assumption|]). split.
  - unfold Count. rewrite Hms. by apply map_size_insert_None.
  - intros k Hk. unfold Get. by rewrite Hms, lookup_insert_ne.
Qed.

(** A motivation without ID registered after "m1": it is stored under
    "mot-1". *)
Lemma Register_then_Get_witness :
  ∃ r' m',
    Register registry1 (Some (zeroMotivation "" "Second")) 1500 1501
    = (r', Some m', None) ∧
    Get r' "mot-1" = (Some m', None) ∧
    Status m' = MotivationStatusActive ∧ Count r' = 2%nat.
Proof.
  destruct (Register_then_Get registry1 (zeroMotivation "" "Second") 1500 1501)
    as (r' & m' & Hreg & Hget & _ & Hst & _ & _ & Hcount & _).
  - vm_compute. reflexivity.
  - exists r', m'. split; [exact Hreg|]. split; [exact Hget|].
    split; [exact Hst | exact Hcount].
Defined.

(** X3.  [Unregister] of a registered ID returns nil; afterwards [Get] on
    the ID fails with "motivation not found", [Count] is one less, every
    other ID answers as before, the trigger history still holds the
    triggers of the removed motivation, and a second [Unregister] of the
    ID fails and changes nothing. *)
Theorem Unregister_then_Get (r : Registry) (id : string) (m : Motivation) :
  motivations r !! id = Some m ->
  ∃ r',
    Unregister r id = (r', None) ∧
    Get r' id = (None, Some ("motivation not found: " ++ id)%string) ∧
    S (Count r') = Count r ∧
    (∀ k, k ≠ id -> Get r' k = Get r k) ∧
    triggers r' = triggers r ∧
    Unregister r' id = (r', Some ("motivation not found: " ++ id)%string).
Proof.
  intros Hm.
  destruct (Unregister_success r id m Hm) as (r' & Hun & Hms & _ & _ & Htr & _).
  exists r'. split; [exact Hun|].
  assert (Hnone : motivations r' !! id = None).
  { rewrite Hms, lookup_delete. by case_decide. }
  split; [unfold Get; by rewrite Hnone|]. split.
  - unfold Count. rewrite Hms, map_size_delete_Some by eauto.
    assert (size (motivations r) ≠ 0%nat); [|lia].
    intros H0%map_size_empty_inv. rewrite H0 in Hm. by rewrite lookup_empty in Hm.
  - split; [|split; [exact Htr|]].
    + intros k Hk. unfold Get. by rewrite Hms, lookup_delete_ne.
    + unfold Unregister. by rewrite Hnone.
Qed.

(** "mot-2" of the three motivations of [registry3]. *)
Lemma Unregister_then_Get_witness :
  ∃ r',
    Unregister registry3 "mot-2" = (r', None) ∧
    Get r' "mot-2" = (None, Some "motivation not found: mot-2"%string) ∧
    Count r' = 2%nat.
Proof.
  destruct (Unregister_then_Get registry3 "mot-2"
              (set_UpdatedAt 1001 (set_CreatedAt 1001
                 (set_CooldownPeriod (50 * millisecond)
                    (set_Status MotivationStatusActive
                       (testMotivation "mot-2" "M2" "idle" "ceo" false true))))))
    as (r' & Hun & Hget & Hcount & _).
  - vm_compute. reflexivity.
  - exists r'. split; [exact Hun|]. split; [exact Hget|].
    assert (Hc3 : Count registry3 = 3%nat) by (vm_compute; reflexivity).
    rewrite Hc3 in Hcount. by injection Hcount.
Defined.

Lemma enumerates_by_dom (r : Registry) (order : list string) :
  NoDup order ->
  list_to_set order = dom (motivations r) ->
  enumerates r order.
Proof.
  intros Hnd Hdom. split; [exact Hnd|]. intros k.
  by rewrite <- elem_of_dom, <- Hdom, elem_of_list_to_set.
Qed.

Lemma reachable_registry3 : reachable registry3.
Proof.
  unfold registry3. cbv zeta. do 3 apply reach_Register. apply reach_NewRegistry.
Qed.

Lemma enumerates_registry3 : enumerates registry3 order3.
Proof.
  apply enumerates_by_dom.
  - apply (bool_decide_eq_true_1 (NoDup order3)). vm_compute. reflexivity.
  - vm_compute. reflexivity.
Qed.

(** X4.  In a registry built by the operations, registering a motivation
    under a fresh ID and unregistering it again gives back the map and the
    contents of both indexes (the slice under every role and every
    project) as they were, and the history and the configuration are
    untouched; only the ID counter may have advanced. *)
Theorem Register_Unregister_round_trip (r : Registry) (m : Motivation)
    (t1 t2 : Time) :
  reachable r ->
  motivations r !! storedID r m = None ->
  ∃ r' m' r'',
    Register r (Some m) t1 t2 = (r', Some m', None) ∧
    Unregister r' (ID m') = (r'', None) ∧
    motivations r'' = motivations r ∧
    (∀ role, index_get (byRole r'') role = index_get (byRole r) role) ∧
    (∀ proj, index_get (byProject r'') proj = index_get (byProject r) proj) ∧
    triggers r'' = triggers r ∧ config r'' = config r.
Proof.
  intros Hr Hfresh.
  pose proof (reachable_wf r Hr) as Hwf.
  destruct (reachable_index_ok r Hr) as (Hrole & _ & Hproj & _).
  destruct (Register_success r m t1 t2 Hfresh)
    as (r' & m' & Hreg & Hm' & Hms & Hbr & Hbp & Htr & Hcfg).
  set (id := storedID r m) in *.
  destruct (withDefaults_fields (config r) (set_ID id m) t1 t2)
    as (Hid & _ & Har & Hpr & _).
  rewrite <- Hm' in Hid, Har, Hpr. cbn in Hid, Har, Hpr.
  assert (Hlook : motivations r' !! id = Some m')
    by (by rewrite Hms, lookup_insert_eq).
  destruct (Unregister_success r' id m' Hlook)
    as (r'' & Hun & Hms2 & Hbr2 & Hbp2 & Htr2 & Hcfg2 & _).
  rewrite Hid, Har in Hbr2. rewrite Hid, Hpr in Hbp2.
  assert (Hderef : deref_ID r' id = id).
  { unfold deref_ID. by rewrite Hlook. }
  assert (Hold : ∀ x mx, motivations r !! x = Some mx -> deref_ID r' x ≠ id).
  { intros x mx Hx. unfold deref_ID.
    assert (x ≠ id) by (intros ->; congruence).
    rewrite Hms, lookup_insert_ne, Hx by done. by rewrite (Hwf x mx Hx). }
  exists r', m', r''. split; [exact Hreg|]. rewrite Hid.
  split; [exact Hun|]. split; [|split; [|split; [|split]]].
  - rewrite Hms2, Hms. by apply delete_insert_id.
  - intros role. rewrite Hbr2, Hbr.
    destruct (String.eqb (AgentRole m) ""); [done|].
    rewrite !index_get_insert. case_decide as Hk; [|done]. subst role.
    destruct (decide (AgentRole m = AgentRole m)); [|done].
    apply removeFromSlice_snoc; [|exact Hderef].
    intros x (_ & mx & Hx & _)%Hrole. by apply (Hold x mx).
  - intros proj. rewrite Hbp2, Hbp.
    rewrite !index_get_insert. case_decide as Hk; [|done]. subst proj.
    destruct (decide (ProjectID m = ProjectID m)); [|done].
    apply removeFromSlice_snoc; [|exact Hderef].
    intros x (mx & Hx & _)%Hproj. by apply (Hold x mx).
  - by rewrite Htr2.
  - by rewrite Hcfg2.
Qed.

(** A fourth motivation, with role "ceo", registered in [registry3] and
    unregistered: the slice of "ceo" is again that of "mot-1" and
    "mot-2". *)
Lemma Register_Unregister_round_trip_witness :
  ∃ r' m' r'',
    Register registry3 (Some (testMotivation "x" "X" "idle" "ceo" false true))
      2000 2000 = (r', Some m', None) ∧
    Unregister r' (ID m') = (r'', None) ∧
    motivations r'' = motivations registry3 ∧
    index_get (byRole r'') "ceo" = ["mot-1"; "mot-2"]%string.
Proof.
  destruct (Register_Unregister_round_trip registry3
              (testMotivation "x" "X" "idle" "ceo" false true) 2000 2000)
    as (r' & m' & r'' & Hreg & Hun & Hms & Hbr & _).
  - apply reachable_registry3.
  - vm_compute. reflexivity.
  - exists r', m', r''. split; [exact Hreg|]. split; [exact Hun|].
    split; [exact Hms|]. rewrite Hbr. vm_compute. reflexivity.
Defined.

(** X5.  In a registry built by the operations, [ListByProject] answers
    from the project index what the map holds: it returns, each once, the
    pointers of the motivations without project and of those of the given
    project. *)
Theorem ListByProject_agrees_with_map (r : Registry) (projectID : string) :
  reachable r ->
  NoDup (ListByProject r projectID) ∧
  ∀ p, p ∈ ListByProject r projectID <->
       ∃ m, motivations r !! p = Some m ∧
            (ProjectID m = ""%string ∨ ProjectID m = projectID).
Proof.
  intros Hr. destruct (reachable_index_ok r Hr) as (_ & _ & Hproj & Hnd).
  unfold ListByProject.
  destruct (String.eqb_spec projectID "") as [->|Hne].
  - rewrite app_nil_r. split; [apply Hnd|]. intros p. rewrite Hproj.
    split; intros (m & Hm & H); exists m; [by auto | by destruct H].
  - split.
    + apply NoDup_app. split; [apply Hnd|]. split; [|apply Hnd].
      intros p (m & Hm & Hp)%Hproj (m2 & Hm2 & Hp2)%Hproj. congruence.
    + intros p. rewrite elem_of_app, !Hproj. split.
      * intros [(m & Hm & H)|(m & Hm & H)]; exists m; by auto.
      * intros (m & Hm & [H|H]); [left|right]; by exists m.
Qed.

(** [registryProjects]: [ListByProject "p1"] lists "c", "a" and "b". *)
Lemma ListByProject_agrees_with_map_witness :
  ListByProject registryProjects "p1" = ["c"; "a"; "b"]%string ∧
  ∀ p, p ∈ ListByProject registryProjects "p1" <->
       ∃ m, motivations registryProjects !! p = Some m ∧
            (ProjectID m = ""%string ∨ ProjectID m = "p1"%string).
Proof.
  split; [vm_compute; reflexivity|].
  apply ListByProject_agrees_with_map.
  unfold registryProjects. cbv zeta. do 4 apply reach_Register.
  apply reach_NewRegistry.
Defined.

(** X6.  In a registry built by the operations, when the iteration visits
    every key once, [ListByRole], which scans the map, returns the
    motivations without role together with exactly the slice that the role
    index holds for the role. *)
Theorem ListByRole_agrees_with_index (r : Registry) (role : string)
    (order : list string) :
  reachable r ->
  enumerates r order ->
  NoDup (ListByRole r role order) ∧
  ∀ p, p ∈ ListByRole r role order <->
       (∃ m, motivations r !! p = Some m ∧ AgentRole m = ""%string)
       ∨ p ∈ index_get (byRole r) role.
Proof.
  intros Hr [Hnd Hin]. destruct (reachable_index_ok r Hr) as (Hrole & _).
  unfold ListByRole. split; [by apply NoDup_filter|].
  intros p. rewrite list_elem_of_filter, Hrole, Hin. unfold roleListedAt. split.
  - intros [Hp [m Hm]]. rewrite Hm in Hp.
    destruct (String.eqb_spec (AgentRole m) "") as [He|He]; [left; by exists m|].
    cbn in Hp. apply String.eqb_eq in Hp. right. split; [congruence|by exists m].
  - intros [(m & Hm & He)|(Hne & m & Hm & He)]; rewrite Hm.
    + split; [|by exists m]. rewrite He. done.
    + split; [|by exists m]. rewrite He, String.eqb_refl. apply orb_true_r.
Qed.

(** The three motivations of [registry3], two of role "ceo". *)
Lemma ListByRole_agrees_with_index_witness :
  ListByRole registry3 "ceo" order3 = ["mot-1"; "mot-2"]%string ∧
  ∀ p, p ∈ ListByRole registry3 "ceo" order3 <->
       (∃ m, motivations registry3 !! p = Some m ∧ AgentRole m = ""%string)
       ∨ p ∈ index_get (byRole registry3) "ceo".
Proof.
  split; [vm_compute; reflexivity|].
  apply ListByRole_agrees_with_index;
    [apply reachable_registry3 | apply enumerates_registry3].
Defined.

(** ** Registry: [List], [Enable], [Disable], [Update] *)

Section ListLemmas.

Lemma filter_all {A} (P : A -> Prop) `{∀ x, Decision (P x)} (l : list A) :
  (∀ x, x ∈ l -> P x) -> filter P l = l.
Proof.
  induction l as [|x l IH]; intros Hl; [done|].
  rewrite filter_cons_True by (apply Hl; by left).
  f_equal. apply IH. intros y Hy. apply Hl. by right.
Qed.

Lemma listedAt_iff (r : Registry) (f : MotivationFilters.t) (k : string) :
  listedAt r (Some f) k = true <->
  ∃ m, motivations r !! k = Some m ∧ Matches f m = true.
Proof.
  unfold listedAt. destruct (motivations r !! k) as [m|].
  - split; [intros H; by exists m | by intros (m' & [= <-] & H)].
  - split; [done | by intros (m' & [=] & _)].
Qed.

End ListLemmas.

(** X7.  When the iteration visits every key once, [List] with a nil
    filter, or with a filter that sets nothing, returns every motivation
    once: its length is [Count]. *)
Theorem List_without_filter (r : Registry) (order : list string) :
  enumerates r order ->
  List r None order = order ∧
  List r (Some (MotivationFilters.mk "" StatusUnset "" "" None)) order = order ∧
  length (List r None order) = Count r.
Proof.
  intros Hen. pose proof Hen as [_ Hin].
  assert (H1 : List r None order = order).
  { apply filter_all. intros k [m Hm]%Hin. unfold listedAt. by rewrite Hm. }
  split; [exact H1|]. split.
  - apply filter_all. intros k [m Hm]%Hin. apply listedAt_iff. by exists m.
  - rewrite H1. by apply enumerates_length.
Qed.

Lemma List_without_filter_witness :
  List registry3 None order3 = order3 ∧
  length (List registry3 None order3) = Count registry3.
Proof.
  destruct (List_without_filter registry3 order3 enumerates_registry3)
    as (H1 & _ & H2).
  split; [exact H1 | exact H2].
Defined.

(** X8.  [List] with a filter returns, in the order of the iteration, the
    motivations that agree with every field the filter sets (a field left
    empty, or a nil [IsBuiltIn], does not filter); with only the status
    Active set it returns what [GetActive] returns. *)
Theorem List_with_filter (r : Registry) (f : MotivationFilters.t)
    (order : list string) :
  (∀ p, p ∈ List r (Some f) order <->
        p ∈ order ∧
        ∃ m, motivations r !! p = Some m ∧
          (MotivationFilters.Type_ f = ""%string
           ∨ Type_ m = MotivationFilters.Type_ f) ∧
          (MotivationFilters.Status f = StatusUnset
           ∨ Status m = MotivationFilters.Status f) ∧
          (MotivationFilters.AgentRole f = ""%string
           ∨ AgentRole m = MotivationFilters.AgentRole f) ∧
          (MotivationFilters.ProjectID f = ""%string
           ∨ ProjectID m = MotivationFilters.ProjectID f) ∧
          (MotivationFilters.IsBuiltIn f = None
           ∨ MotivationFilters.IsBuiltIn f = Some (IsBuiltIn m))) ∧
  List r (Some f) order `sublist_of` List r None order ∧
  List r (Some (MotivationFilters.mk "" MotivationStatusActive "" "" None)) order
  = GetActive r order.
Proof.
  split; [|split].
  - intros p. unfold List. rewrite list_elem_of_filter, listedAt_iff.
    split.
    + intros [(m & Hm & HM) Hp]. split; [exact Hp|]. exists m.
      split; [exact Hm|]. by apply Matches_iff.
    + intros [Hp (m & Hm & HM)]. split; [|exact Hp]. exists m.
      split; [exact Hm|]. by apply Matches_iff.
  - unfold List. induction order as [|k order IH]; [done|].
    rewrite !filter_cons.
    destruct (decide (listedAt r (Some f) k = true)) as [Hk|Hk].
    + assert (Hk' : listedAt r None k = true).
      { apply listedAt_iff in Hk as (m & Hm & _). unfold listedAt. by rewrite Hm. }
      rewrite decide_True by exact Hk'. by apply sublist_skip.
    + destruct (decide (listedAt r None k = true)); [by apply sublist_cons|done].
  - unfold List, GetActive. apply list_filter_iff. intros k.
    rewrite listedAt_iff. unfold activeAt, isActive.
    destruct (motivations r !! k) as [m|].
    + rewrite bool_decide_eq_true. split.
      * intros (m' & [= <-] & HM). apply Matches_iff in HM.
        cbn in HM. destruct HM as (_ & [?|?] & _); done.
      * intros Hst. exists m. split; [done|]. apply Matches_iff. cbn.
        by repeat split; auto.
    + split; [by intros (m' & [=] & _) | done].
Qed.

(** The role "ceo" as filter on [registry3], and the status Active. *)
Lemma List_with_filter_witness :
  List registry3 (Some (MotivationFilters.mk "" StatusUnset "ceo" "" None)) order3
  = ["mot-1"; "mot-2"]%string ∧
  List registry3 (Some (MotivationFilters.mk "" MotivationStatusActive "" "" None))
    order3
  = GetActive registry3 order3.
Proof.
  split; [vm_compute; reflexivity|].
  exact (proj2 (proj2 (List_with_filter registry3
                         (MotivationFilters.mk "" StatusUnset "" "" None) order3))).
Defined.


(** X9.  [Disable] followed by [Enable] on an active motivation that was
    never disabled gives the motivation back with only [UpdatedAt]
    changed; in between it is not in the active set. *)
Theorem Disable_Enable_round_trip (r : Registry) (id : string) (m : Motivation)
    (t1 t2 : Time) (order : list string) :
  motivations r !! id = Some m ->
  Status m = MotivationStatusActive ->
  DisabledAt m = None ->
  ∃ r1,
    Disable r id t1 = (r1, None) ∧
    (id ∉ GetActive r1 order) ∧
    Enable r1 id t2
    = (set_motivations (<[id := set_UpdatedAt t2 m]> (motivations r)) r, None).
Proof.
  intros Hm Hst Hdis. unfold Disable. rewrite Hm. eexists. split; [reflexivity|].
  split.
  - unfold GetActive. rewrite list_elem_of_filter. intros [Hact _].
    unfold activeAt in Hact. cbn in Hact. by rewrite lookup_insert_eq in Hact.
  - unfold Enable. cbn [motivations set_motivations].
    rewrite lookup_insert_eq, insert_insert_eq. f_equal.
    unfold set_motivations. cbn. f_equal. f_equal.
    destruct m. cbn in *. by subst.
Qed.

Lemma Disable_Enable_round_trip_witness :
  ∃ r1 m,
    motivations registry1 !! "m1"%string = Some m ∧
    Disable registry1 "m1" 2000 = (r1, None) ∧
    Enable r1 "m1" 2001
    = (set_motivations (<["m1"%string := set_UpdatedAt 2001 m]>
                          (motivations registry1)) registry1, None).
Proof.
  set (m := set_UpdatedAt 1000 (set_CreatedAt 1000
              (set_CooldownPeriod (50 * millisecond)
                 (set_Status MotivationStatusActive (zeroMotivation "m1" "Test"))))).
  assert (Hm : motivations registry1 !! "m1"%string = Some m)
    by (vm_compute; reflexivity).
  destruct (Disable_Enable_round_trip registry1 "m1" m 2000 2001 ["m1"%string] Hm)
    as (r1 & Hd & _ & He); [reflexivity | reflexivity |].
  exists r1, m. split; [exact Hm|]. split; [exact Hd | exact He].
Defined.

(** X10.  [Enable] does not look at the status: a motivation in Cooldown
    (or Disabled) is Active at once, with [DisabledAt] cleared, and is in
    the active set of the next [GetActive], whatever time
    [CheckCooldowns] reads before it; [LastTriggeredAt] and
    [TriggerCount] are kept. *)
Theorem Enable_overrides_cooldown (r : Registry) (id : string) (m : Motivation)
    (now later : Time) (order : list string) :
  motivations r !! id = Some m ->
  id ∈ order ->
  ∃ r1 m1,
    Enable r id now = (r1, None) ∧
    motivations r1 !! id = Some m1 ∧
    Status m1 = MotivationStatusActive ∧ DisabledAt m1 = None ∧
    UpdatedAt m1 = now ∧
    LastTriggeredAt m1 = LastTriggeredAt m ∧ TriggerCount m1 = TriggerCount m ∧
    motivations (CheckCooldowns r1 later) !! id = Some m1 ∧
    id ∈ GetActive (CheckCooldowns r1 later) order.
Proof.
  intros Hm Hin. unfold Enable. rewrite Hm. eexists _, _.
  split; [reflexivity|]. cbn [motivations set_motivations].
  split; [apply lookup_insert_eq|]. do 5 (split; [reflexivity|]).
  assert (Hl : motivations
                 (CheckCooldowns
                    (set_motivations
                       (<[id := set_UpdatedAt now (set_DisabledAt None
                                  (set_Status MotivationStatusActive m))]>
                          (motivations r)) r) later) !! id
               = Some (set_UpdatedAt now (set_DisabledAt None
                         (set_Status MotivationStatusActive m)))).
  { rewrite CheckCooldowns_lookup. cbn [motivations set_motivations].
    by rewrite lookup_insert_eq. }
  split; [exact Hl|].
  unfold GetActive. apply list_elem_of_filter. split; [|exact Hin].
  unfold activeAt. by rewrite Hl.
Qed.

(** "m1" is put in Cooldown by a trigger at 2000 and enabled at 2001,
    long before its 50 ms have passed. *)
Lemma Enable_overrides_cooldown_witness :
  let r := RecordTrigger registry1
             (plainTrigger "t1" "m1" 2000 TriggerResultSuccess) 2000 in
  GetActive r ["m1"%string] = [] ∧
  ∃ r1, Enable r "m1" 2001 = (r1, None) ∧
        "m1"%string ∈ GetActive (CheckCooldowns r1 2002) ["m1"%string].
Proof.
  intros r. split; [vm_compute; reflexivity|].
  destruct (Enable_overrides_cooldown r "m1"
              (markTriggered (plainTrigger "t1" "m1" 2000 TriggerResultSuccess) 2000
                 (set_UpdatedAt 1000 (set_CreatedAt 1000
                    (set_CooldownPeriod (50 * millisecond)
                       (set_Status MotivationStatusActive
                          (zeroMotivation "m1" "Test"))))))
              2001 2002 ["m1"%string])
    as (r1 & m1 & He & _ & _ & _ & _ & _ & _ & _ & Hact).
  - vm_compute. reflexivity.
  - by left.
  - exists r1. split; [exact He | exact Hact].
Defined.

(** ** Registry: [Update] *)

Section UpdateLemmas.

(** The keys [Update] reads. *)
Lemma Update_reads (r : Registry) (id : string) (u u' : gmap string UpdateValue)
    (now : Time) :
  u !! "name"%string = u' !! "name"%string ->
  u !! "description"%string = u' !! "description"%string ->
  u !! "parameters"%string = u' !! "parameters"%string ->
  u !! "cooldown_period"%string = u' !! "cooldown_period"%string ->
  u !! "priority"%string = u' !! "priority"%string ->
  Update r id u now = Update r id u' now.
Proof.
  intros H1 H2 H3 H4 H5. unfold Update. by rewrite H1, H2, H3, H4, H5.
Qed.

(** What [Update] stores: a property that every assignment of [Update]
    keeps holds of the stored motivation when it held before. *)
Lemma Update_fields (r : Registry) (id : string)
    (updates : gmap string UpdateValue) (now : Time) (m : Motivation) :
  motivations r !! id = Some m ->
  ∃ m',
    Update r id updates now
    = (set_motivations (<[id := m']> (motivations r)) r, None) ∧
    UpdatedAt m' = now ∧
    (∀ n, updates !! "priority"%string = Some (UScalar (VInt n)) ->
          Priority m' = n) ∧
    (∀ d, updates !! "cooldown_period"%string = Some (UScalar (VDuration d)) ->
          CooldownPeriod m' = d) ∧
    (∀ P : Motivation -> Prop,
       (∀ s x, P x -> P (set_Name s x)) ->
       (∀ s x, P x -> P (set_Description s x)) ->
       (∀ p x, P x -> P (set_Parameters p x)) ->
       (∀ d x, P x -> P (set_CooldownPeriod d x)) ->
       (∀ n x, P x -> P (set_Priority n x)) ->
       (∀ t x, P x -> P (set_UpdatedAt t x)) ->
       P m -> P m').
Proof.
  intros Hm. unfold Update. rewrite Hm. cbv zeta.
  set (m1 := match updates !! "name"%string with
             | Some (UScalar (VString name)) => set_Name name m
             | _ => m
             end).
  set (m2 := match updates !! "description"%string with
             | Some (UScalar (VString desc)) => set_Description desc m1
             | _ => m1
             end).
  set (m3 := match updates !! "parameters"%string with
             | Some (UParameters params) => set_Parameters params m2
             | _ => m2
             end).
  set (m4 := match updates !! "cooldown_period"%string with
             | Some (UScalar (VDuration cooldown)) => set_CooldownPeriod cooldown m3
             | _ => m3
             end).
  set (m5 := match updates !! "priority"%string with
             | Some (UScalar (VInt priority)) => set_Priority priority m4
             | _ => m4
             end).
  exists (set_UpdatedAt now m5). split; [reflexivity|]. split; [reflexivity|].
  split; [|split].
  - intros n Hn. unfold m5. by rewrite Hn.
  - intros d Hd. cbn [CooldownPeriod set_UpdatedAt].
    assert (H4 : CooldownPeriod m4 = d) by (unfold m4; by rewrite Hd).
    unfold m5. by destruct (updates !! "priority"%string) as [[[]|]|].
  - intros P Hname Hdesc Hpar Hcd Hprio Hupd HP.
    assert (P m1) by (unfold m1; destruct (updates !! "name"%string) as [[[]|]|]; auto).
    assert (P m2)
      by (unfold m2; destruct (updates !! "description"%string) as [[[]|]|]; auto).
    assert (P m3)
      by (unfold m3; destruct (updates !! "parameters"%string) as [[|]|]; auto).
    assert (P m4)
      by (unfold m4; destruct (updates !! "cooldown_period"%string) as [[[]|]|]; auto).
    assert (P m5)
      by (unfold m5; destruct (updates !! "priority"%string) as [[[]|]|]; auto).
    by apply Hupd.
Qed.

End UpdateLemmas.

(** X11.  [Update] changes nothing but [Name], [Description],
    [Parameters], [CooldownPeriod], [Priority] and [UpdatedAt] of the one
    motivation: its ID, type, condition, agent, role, project, status,
    flags, creation, trigger and disable times and trigger count stay, as
    do the other motivations, the indexes and the history.  The new
    priority and cooldown are stored as given, whatever their value. *)
Theorem Update_frame (r : Registry) (id : string)
    (updates : gmap string UpdateValue) (now : Time) (m : Motivation) :
  motivations r !! id = Some m ->
  ∃ r' m',
    Update r id updates now = (r', None) ∧
    motivations r' = <[id := m']> (motivations r) ∧
    byRole r' = byRole r ∧ byProject r' = byProject r ∧
    triggers r' = triggers r ∧ config r' = config r ∧
    ID m' = ID m ∧ Type_ m' = Type_ m ∧ Condition m' = Condition m ∧
    AgentID m' = AgentID m ∧ AgentRole m' = AgentRole m ∧
    ProjectID m' = ProjectID m ∧ Status m' = Status m ∧
    CreateBeadOnTrigger m' = CreateBeadOnTrigger m ∧
    WakeAgent m' = WakeAgent m ∧ IsBuiltIn m' = IsBuiltIn m ∧
    CreatedAt m' = CreatedAt m ∧ LastTriggeredAt m' = LastTriggeredAt m ∧
    NextTriggerAt m' = NextTriggerAt m ∧ DisabledAt m' = DisabledAt m ∧
    TriggerCount m' = TriggerCount m ∧
    UpdatedAt m' = now ∧
    (∀ n, updates !! "priority"%string = Some (UScalar (VInt n)) ->
          Priority m' = n) ∧
    (∀ d, updates !! "cooldown_period"%string = Some (UScalar (VDuration d)) ->
          CooldownPeriod m' = d).
Proof.
  intros Hm.
  destruct (Update_fields r id updates now m Hm) as (m' & Hu & Hat & Hp & Hc & HP).
  eexists _, m'. split; [exact Hu|].
  cbn [motivations byRole byProject triggers config set_motivations].
  do 5 (split; [reflexivity|]).
  repeat match goal with
         | |- _ ∧ _ => split
         | |- ?f m' = ?f m => by apply (HP (fun x => f x = f m))
         end; assumption.
Qed.

(** The priority of "m1" set to 500. *)
Lemma Update_frame_witness :
  ∃ r' m',
    Update registry1 "m1" {[ "priority"%string := UScalar (VInt 500) ]} 2000
    = (r', None) ∧
    motivations r' !! "m1"%string = Some m' ∧
    Priority m' = 500 ∧ Status m' = MotivationStatusActive.
Proof.
  destruct (Update_frame registry1 "m1"
              {[ "priority"%string := UScalar (VInt 500) ]} 2000
              (set_UpdatedAt 1000 (set_CreatedAt 1000
                 (set_CooldownPeriod (50 * millisecond)
                    (set_Status MotivationStatusActive (zeroMotivation "m1" "Test"))))))
    as (r' & m' & Hu & Hms & _ & _ & _ & _ & _ & _ & _ & _ & _ & _ & Hst & H).
  - vm_compute. reflexivity.
  - exists r', m'. split; [exact Hu|].
    split; [by rewrite Hms, lookup_insert_eq|].
    split; [|exact Hst].
    destruct H as (_ & _ & _ & _ & _ & _ & _ & _ & _ & Hprio & _).
    apply Hprio. vm_compute. reflexivity.
Defined.

(** X12.  [Update] ignores every key of [updates] other than "name",
    "description", "parameters", "cooldown_period" and "priority" (so a
    "status" entry changes nothing), and a value whose dynamic type is not
    the expected one counts as absent: it is skipped without error. *)
Theorem Update_ignores (r : Registry) (id : string)
    (updates : gmap string UpdateValue) (now : Time) (k : string)
    (v : UpdateValue) :
  match k with
  | "name"%string | "description"%string => ∀ s, v ≠ UScalar (VString s)
  | "parameters"%string => ∀ p, v ≠ UParameters p
  | "cooldown_period"%string => ∀ d, v ≠ UScalar (VDuration d)
  | "priority"%string => ∀ n, v ≠ UScalar (VInt n)
  | _ => True
  end ->
  Update r id (<[k := v]> updates) now = Update r id (delete k updates) now.
Proof.
  intros Hv.
  destruct (decide (k = "name"%string)) as [->|H1].
  { unfold Update. rewrite lookup_insert_eq, lookup_delete_eq.
    rewrite !lookup_insert_ne, !lookup_delete_ne by done.
    destruct v as [[]|]; try done; exfalso; by eapply Hv. }
  destruct (decide (k = "description"%string)) as [->|H2].
  { unfold Update. rewrite lookup_insert_eq, lookup_delete_eq.
    rewrite !lookup_insert_ne, !lookup_delete_ne by done.
    destruct v as [[]|]; try done; exfalso; by eapply Hv. }
  destruct (decide (k = "parameters"%string)) as [->|H3].
  { unfold Update. rewrite lookup_insert_eq, lookup_delete_eq.
    rewrite !lookup_insert_ne, !lookup_delete_ne by done.
    destruct v as [[]|]; try done; exfalso; by eapply Hv. }
  destruct (decide (k = "cooldown_period"%string)) as [->|H4].
  { unfold Update. rewrite lookup_insert_eq, lookup_delete_eq.
    rewrite !lookup_insert_ne, !lookup_delete_ne by done.
    destruct v as [[]|]; try done; exfalso; by eapply Hv. }
  destruct (decide (k = "priority"%string)) as [->|H5].
  { unfold Update. rewrite lookup_insert_eq, lookup_delete_eq.
    rewrite !lookup_insert_ne, !lookup_delete_ne by done.
    destruct v as [[]|]; try done; exfalso; by eapply Hv. }
  apply Update_reads; by rewrite lookup_insert_ne, lookup_delete_ne.
Qed.

(** A "status" entry and a priority given as a string. *)
Lemma Update_ignores_witness :
  Update registry1 "m1"
    (<["status"%string := UScalar (VString "disabled")]> ∅) 2000
  = Update registry1 "m1" (delete "status"%string ∅) 2000 ∧
  Update registry1 "m1"
    (<["priority"%string := UScalar (VString "90")]> ∅) 2000
  = Update registry1 "m1" (delete "priority"%string ∅) 2000.
Proof.
  split.
  - by apply (Update_ignores registry1 "m1" ∅ 2000 "status"
                (UScalar (VString "disabled"))).
  - apply (Update_ignores registry1 "m1" ∅ 2000 "priority"
             (UScalar (VString "90"))).
    intros n. discriminate.
Defined.

(** ** Registry: [CheckCooldowns], [RecordTrigger], [GetTriggerHistory] *)

Section CooldownLemmas.

Lemma Sub_mono (t t' u : Time) : t <= t' -> Sub t u <= Sub t' u.
Proof. unfold Sub. lia. Qed.

Lemma checkCooldown_absorbs (now now' : Time) (m : Motivation) :
  now <= now' ->
  checkCooldown now' (checkCooldown now m) = checkCooldown now' m.
Proof.
  intros Hle. unfold checkCooldown.
  destruct (Status m) eqn:Hst; rewrite ?Hst; try done.
  destruct (LastTriggeredAt m) as [last|] eqn:Hlast; rewrite ?Hst, ?Hlast; [|done].
  destruct (Z.leb_spec (CooldownPeriod m) (Sub now last)) as [H1|H1].
  - cbn. pose proof (Sub_mono now now' last Hle).
    destruct (Z.leb_spec (CooldownPeriod m) (Sub now' last)); [done|lia].
  - by rewrite Hst, Hlast.
Qed.

Lemma checkCooldown_fixed (now : Time) (m : Motivation) :
  Status m ≠ MotivationStatusCooldown ∨ LastTriggeredAt m = None ->
  checkCooldown now m = m.
Proof.
  intros [H|H]; unfold checkCooldown.
  - by destruct (Status m).
  - rewrite H. by destruct (Status m).
Qed.

End CooldownLemmas.

(** X13.  A [CheckCooldowns] is absorbed by a later one: checking at a
    time and then at a later time leaves the registry that the later check
    alone leaves.  In particular [CheckCooldowns] twice at one time is
    [CheckCooldowns] once. *)
Theorem CheckCooldowns_absorbs (r : Registry) (now now' : Time) :
  now <= now' ->
  CheckCooldowns (CheckCooldowns r now) now' = CheckCooldowns r now'.
Proof.
  intros Hle. unfold CheckCooldowns, set_motivations. cbn. f_equal.
  rewrite <- map_fmap_compose. apply map_fmap_ext. intros k m _.
  by apply checkCooldown_absorbs.
Qed.

(** "m1" triggered at 2000 with a cooldown of 50 ms, checked 10 ms and
    60 ms later. *)
Lemma CheckCooldowns_absorbs_witness :
  let r := RecordTrigger registry1
             (plainTrigger "t1" "m1" 2000 TriggerResultSuccess) 2000 in
  CheckCooldowns (CheckCooldowns r (2000 + 10 * millisecond))
    (2000 + 60 * millisecond)
  = CheckCooldowns r (2000 + 60 * millisecond).
Proof.
  intros r. apply CheckCooldowns_absorbs. vm_compute. discriminate.
Defined.

(** X14.  A motivation that is not in Cooldown (Active, Disabled, or any
    other status it was registered with), or that is in Cooldown without
    ever having been triggered, is left as it is by every run of
    [CheckCooldowns], at whatever times: the first is never activated
    behind the caller's back, the second never leaves Cooldown on its
    own. *)
Theorem CheckCooldowns_leaves (r : Registry) (k : string) (m : Motivation)
    (times : list Time) :
  motivations r !! k = Some m ->
  Status m ≠ MotivationStatusCooldown ∨ LastTriggeredAt m = None ->
  motivations (foldl CheckCooldowns r times) !! k = Some m.
Proof.
  intros Hm Hfix. revert r Hm. induction times as [|t times IH]; intros r Hm.
  - exact Hm.
  - cbn [foldl]. apply IH. rewrite CheckCooldowns_lookup, Hm. cbn.
    by rewrite checkCooldown_fixed.
Qed.

(** A motivation registered with the status Cooldown and no trigger
    time. *)
Lemma CheckCooldowns_leaves_witness :
  let m0 := set_Status MotivationStatusCooldown (zeroMotivation "stuck" "Stuck") in
  let r := (Register (NewRegistry cfg0) (Some m0) 1000 1000).1.1 in
  ∃ m, motivations r !! "stuck"%string = Some m ∧
       Status m = MotivationStatusCooldown ∧
       motivations (foldl CheckCooldowns r [2000; 2000 + 3600000 * millisecond])
         !! "stuck"%string = Some m.
Proof.
  intros m0 r.
  exists (set_UpdatedAt 1000 (set_CreatedAt 1000
            (set_CooldownPeriod (50 * millisecond) m0))).
  assert (Hm : motivations r !! "stuck"%string
               = Some (set_UpdatedAt 1000 (set_CreatedAt 1000
                         (set_CooldownPeriod (50 * millisecond) m0))))
    by (vm_compute; reflexivity).
  split; [exact Hm|]. split; [reflexivity|].
  apply CheckCooldowns_leaves; [exact Hm | by right].
Defined.

(** X15.  [RecordTrigger] with a [MotivationID] that is not in the
    registry changes no motivation and no index, but still appends the
    trigger to the history, as its newest entry. *)
Theorem RecordTrigger_unknown_motivation (r : Registry) (t : MotivationTrigger)
    (now : Time) :
  motivations r !! MotivationID t = None ->
  motivations (RecordTrigger r t now) = motivations r ∧
  byRole (RecordTrigger r t now) = byRole r ∧
  byProject (RecordTrigger r t now) = byProject r ∧
  triggers (RecordTrigger r t now) = lastN 1000 (triggers r ++ [t]) ∧
  last (triggers (RecordTrigger r t now)) = Some t.
Proof.
  intros Hm.
  split; [|split; [|split; [|split]]].
  - unfold RecordTrigger. by rewrite Hm.
  - unfold RecordTrigger. by rewrite Hm.
  - unfold RecordTrigger. by rewrite Hm.
  - apply RecordTrigger_triggers.
  - apply RecordTrigger_last.
Qed.

Lemma RecordTrigger_unknown_motivation_witness :
  let t := plainTrigger "t9" "gone" 2000 TriggerResultSuccess in
  motivations (RecordTrigger registry1 t 2000) = motivations registry1 ∧
  triggers (RecordTrigger registry1 t 2000) = [t].
Proof.
  intros t.
  destruct (RecordTrigger_unknown_motivation registry1 t 2000)
    as (H1 & _ & _ & H2 & _).
  - vm_compute. reflexivity.
  - split; [exact H1|]. rewrite H2. reflexivity.
Defined.

Lemma GetTriggerHistory_closed (r : Registry) (limit : Z) :
  GetTriggerHistory r limit
  = if 0 <? limit then lastN (Z.to_nat limit) (triggers r) else triggers r.
Proof.
  unfold GetTriggerHistory, lastN.
  set (len := Z.of_nat (length (triggers r))).
  assert (Hlen : length (triggers r) = Z.to_nat len) by (unfold len; lia).
  destruct (Z.ltb_spec 0 limit) as [Hpos|Hneg].
  - destruct (Z.leb_spec limit 0) as [?|_]; [lia|]. cbn [orb].
    destruct (Z.ltb_spec len limit) as [Hbig|Hsmall].
    + rewrite Z.sub_diag. cbn. rewrite drop_0.
      replace (length (triggers r) - Z.to_nat limit)%nat with 0%nat by lia.
      rewrite drop_0. apply take_ge. lia.
    + destruct (Z.ltb_spec (len - limit) 0) as [?|_]; [lia|].
      replace (Z.to_nat (len - limit))
        with (length (triggers r) - Z.to_nat limit)%nat by lia.
      apply take_ge. rewrite length_drop. lia.
  - destruct (Z.leb_spec limit 0) as [_|?]; [|lia]. cbn [orb].
    rewrite Z.sub_diag. cbn. rewrite drop_0. apply take_ge. lia.
Qed.

(** X16.  [GetTriggerHistory] with a positive limit returns the last
    [limit] triggers, oldest first (all of them when there are fewer);
    with a limit of zero or less it returns the whole history.  So the
    newest trigger is last: after a [RecordTrigger], a limit of 1 gives
    that trigger. *)
Theorem GetTriggerHistory_lastN (r : Registry) (limit : Z) :
  GetTriggerHistory r limit
  = (if 0 <? limit then lastN (Z.to_nat limit) (triggers r) else triggers r) ∧
  ∀ t now, GetTriggerHistory (RecordTrigger r t now) 1 = [t].
Proof.
  split; [apply GetTriggerHistory_closed|].
  intros t now. rewrite GetTriggerHistory_closed. change (0 <? 1) with true.
  cbv iota. change (Z.to_nat 1) with 1%nat.
  pose proof (RecordTrigger_last r t now) as Hlast.
  unfold lastN.
  destruct (triggers (RecordTrigger r t now)) as [|x l _] using rev_ind; [done|].
  rewrite last_snoc in Hlast. injection Hlast as ->.
  rewrite length_app. cbn [length].
  replace (length l + 1 - 1)%nat with (length l) by lia.
  by rewrite drop_app_length.
Qed.

(** The last three of the five triggers of [TestTriggerHistory]. *)
Lemma GetTriggerHistory_lastN_witness :
  GetTriggerHistory (recordAll registry1 fiveTriggers) 3
  = lastN 3 (triggers (recordAll registry1 fiveTriggers)) ∧
  TrigID <$> GetTriggerHistory (recordAll registry1 fiveTriggers) 3
  = ["trigger-c"; "trigger-d"; "trigger-e"]%string.
Proof.
  split; [|vm_compute; reflexivity].
  set (r := recordAll registry1 fiveTriggers). clearbody r.
  rewrite (proj1 (GetTriggerHistory_lastN r 3)). reflexivity.
Defined.


(** X17.  On an ID that is not in the registry, [Unregister], [Enable],
    [Disable] and [Update] return the error "motivation not found: <id>"
    and leave the registry as it is; [Get] returns nil with the same
    error. *)
Theorem unknown_id_changes_nothing (r : Registry) (id : string) (now : Time)
    (updates : gmap string UpdateValue) :
  motivations r !! id = None ->
  let err := Some ("motivation not found: " ++ id)%string in
  Get r id = (None, err) ∧
  Unregister r id = (r, err) ∧
  Enable r id now = (r, err) ∧
  Disable r id now = (r, err) ∧
  Update r id updates now = (r, err).
Proof.
  intros Hm err. unfold Get, Unregister, Enable, Disable, Update.
  by rewrite Hm.
Qed.

Lemma unknown_id_changes_nothing_witness :
  Unregister registry1 "nope"
  = (registry1, Some "motivation not found: nope"%string) ∧
  Enable registry1 "nope" 2000
  = (registry1, Some "motivation not found: nope"%string).
Proof.
  destruct (unknown_id_changes_nothing registry1 "nope" 2000 ∅)
    as (_ & H1 & H2 & _).
  - vm_compute. reflexivity.
  - split; [exact H1 | exact H2].
Defined.

(** ** Engine: [fire] and the loop of [Tick], exactly *)

Section FireExact.

Variable clock : nat -> Time.
Variable e : Engine.

Lemma fireCreateBead_exact (m : Motivation) (data : gmap string Value)
    (t : MotivationTrigger) :
  quietBlock e (fireCreateBead e m data t)
    (fun t' _ => t' = afterCreateBead e m data t).
Proof.
  intros w. unfold fireCreateBead, afterCreateBead, theHandler.
  destruct (CreateBeadOnTrigger m).
  - destruct (actionHandler e) as [h|]; [|reflexivity].
    unfold bind, ret, emit. cbn [registry reads trace].
    destruct (ActionHandler.CreateStimulusBead h m data) as [beadID [err|]];
      cbn [registry reads trace];
      (split; [reflexivity|]; split; [reflexivity|]);
      eexists; (split; [reflexivity|]); by split.
  - unfold ret. split; [reflexivity|]. split; [reflexivity|].
    exists []. by rewrite app_nil_r.
Qed.

Lemma fireWake_exact (m : Motivation) (t : MotivationTrigger) :
  quietBlock e (fireWake e m t) (fun t' _ => t' = afterWake e m t).
Proof.
  intros w. unfold fireWake, afterWake, theHandler.
  destruct (WakeAgent m && bool_decide (Result t = TriggerResultSuccess)).
  - destruct (String.eqb (AgentID m) ""); cbn [negb].
    + destruct (String.eqb (AgentRole m) ""); cbn [negb].
      * unfold ret. split; [reflexivity|]. split; [reflexivity|].
        exists []. by rewrite app_nil_r.
      * destruct (actionHandler e) as [h|]; [|reflexivity].
        unfold bind, ret, emit. cbn [registry reads trace].
        destruct (ActionHandler.WakeAgentsByRole h (AgentRole m) m);
          cbn [registry reads trace];
          (split; [reflexivity|]; split; [reflexivity|]);
          eexists; rewrite <- ?app_assoc; (split; [reflexivity|]); by split.
    + destruct (actionHandler e) as [h|]; [|reflexivity].
      unfold bind, ret, emit. cbn [registry reads trace].
      destruct (ActionHandler.WakeAgent h (AgentID m) m);
        cbn [registry reads trace];
        (split; [reflexivity|]; split; [reflexivity|]);
        eexists; rewrite <- ?app_assoc; (split; [reflexivity|]); by split.
  - unfold ret. split; [reflexivity|]. split; [reflexivity|].
    exists []. by rewrite app_nil_r.
Qed.

#[local] Arguments fireCreateBead : simpl never.
#[local] Arguments fireWake : simpl never.
#[local] Arguments firePublish : simpl never.
#[local] Arguments RecordTrigger : simpl never.
#[local] Arguments newTrigger : simpl never.
#[local] Arguments afterCreateBead : simpl never.
#[local] Arguments afterWake : simpl never.

(** [fire] records [firedTrigger], reading the clock twice. *)
Lemma fire_records (p : string) (m : Motivation) (data : gmap string Value)
    (w : World) :
  match fire clock e p m data w with
  | Returns err w' =>
      err = None ∧ reads w' = S (S (reads w)) ∧
      registry w'
      = RecordTrigger (registry w) (firedTrigger e p m data (clock (reads w)))
          (clock (S (reads w))) ∧
      ∃ evs, trace w' = trace w ++ evs
                          ++ [LogMotivationFired (Name m) (ID m) (AgentRole m)] ∧
             firedIDs evs = []
  | Panics => actionHandler e = None
  end.
Proof.
  unfold fire, bind, time_Now, firedTrigger. simpl.
  match goal with |- context [fireCreateBead e m data ?t ?w1] =>
    pose proof (fireCreateBead_exact m data t w1) as H1;
    destruct (fireCreateBead e m data t w1) as [t1 w2|]; [|exact H1] end.
  simpl in H1. destruct H1 as (Hr1 & Hc1 & evs1 & Ht1 & Hf1 & ->).
  match goal with |- context [fireWake e m ?t ?w2] =>
    pose proof (fireWake_exact m t w2) as H2;
    destruct (fireWake e m t w2) as [t2 w3|]; [|exact H2] end.
  destruct H2 as (Hr2 & Hc2 & evs2 & Ht2 & Hf2 & ->).
  match goal with |- context [firePublish e ?t ?w3] =>
    pose proof (firePublish_quiet e t w3) as H3;
    destruct (firePublish e t w3) as [[] w4|]; [|exact H3] end.
  destruct H3 as (Hr3 & Hc3 & evs3 & Ht3 & Hf3 & _).
  unfold modifyRegistry, emit, ret. simpl.
  split; [reflexivity|]. split; [congruence|].
  split; [by rewrite Hr3, Hr2, Hr1, Hc3, Hc2, Hc1|].
  exists (evs1 ++ evs2 ++ evs3). split.
  - rewrite Ht3, Ht2, Ht1. by rewrite <- !app_assoc.
  - by rewrite !firedIDs_app, Hf1, Hf2, Hf3.
Qed.

End FireExact.

Section TickExact.

Variable clock : nat -> Time.
Variable e : Engine.

#[local] Arguments RecordTrigger : simpl never.
#[local] Arguments firedTrigger : simpl never.

Lemma afterCreateBead_same (m : Motivation) (data : gmap string Value)
    (t : MotivationTrigger) :
  sameFiring t (afterCreateBead e m data t).
Proof.
  unfold afterCreateBead.
  destruct (CreateBeadOnTrigger m); [|apply sameFiring_refl].
  destruct (actionHandler e) as [h|]; [|apply sameFiring_refl].
  by destruct (ActionHandler.CreateStimulusBead h m data) as [beadID [err|]].
Qed.

Lemma afterWake_same (m : Motivation) (t : MotivationTrigger) :
  sameFiring t (afterWake e m t) ∧ Result (afterWake e m t) = Result t ∧
  Error (afterWake e m t) = Error t ∧
  BeadCreated (afterWake e m t) = BeadCreated t.
Proof.
  unfold afterWake.
  destruct (WakeAgent m && bool_decide (Result t = TriggerResultSuccess));
    [|by repeat split].
  destruct (negb (String.eqb (AgentID m) "")); [|by repeat split].
  destruct (actionHandler e) as [h|]; [|by repeat split].
  by destruct (ActionHandler.WakeAgent h (AgentID m) m).
Qed.

Lemma firedTrigger_same (p : string) (m : Motivation)
    (data : gmap string Value) (now : Time) :
  sameFiring (newTrigger p m data now) (firedTrigger e p m data now).
Proof.
  unfold firedTrigger. eapply sameFiring_trans; [apply afterCreateBead_same|].
  apply afterWake_same.
Qed.

Lemma firedTrigger_ID (p : string) (m : Motivation)
    (data : gmap string Value) (now : Time) :
  MotivationID (firedTrigger e p m data now) = ID m.
Proof. by destruct (firedTrigger_same p m data now) as (_ & -> & _). Qed.

Lemma tickPlan_ext (r r' : Registry) (ms : list string) :
  (∀ k, k ∈ ms -> motivations r' !! k = motivations r !! k) ->
  ∀ triggered lastErr reads,
    tickPlan clock e r' ms triggered lastErr reads
    = tickPlan clock e r ms triggered lastErr reads.
Proof.
  induction ms as [|p rest IH]; intros Hk triggered lastErr reads; [done|].
  assert (Hrest : ∀ k, k ∈ rest -> motivations r' !! k = motivations r !! k)
    by (intros k Hin; apply Hk; by right).
  cbn [tickPlan]. rewrite (Hk p) by (by left).
  destruct (MaxTriggersPerTick (engine_config e) <=? triggered); [done|].
  destruct (motivations r !! p) as [m|]; [|by apply IH].
  destruct (evaluate e m) as [[shouldFire data] [err|]]; [by apply IH|].
  destruct shouldFire; [|by apply IH].
  by rewrite (IH Hrest).
Qed.

(** In a well-formed registry, over pointers that do not repeat, the loop
    of [Tick] does what [tickPlan] computes from the registry as the loop
    finds it. *)
Lemma tickLoop_exact (ms : list string) :
  NoDup ms ->
  ∀ (triggered : Z) (lastErr : error) (w : World),
    registry_wf (registry w) ->
    let plan := tickPlan clock e (registry w) ms triggered lastErr (reads w) in
    match tickLoop clock e ms triggered lastErr w with
    | Returns (n, err) w' =>
        n = triggered + Z.of_nat (length plan.1) ∧ err = plan.2 ∧
        registry w' = recordAll (registry w) plan.1 ∧
        reads w' = (reads w + 2 * length plan.1)%nat ∧
        ∃ evs, trace w' = trace w ++ evs ∧
               firedIDs evs = MotivationID <$> plan.1.*1
    | Panics => actionHandler e = None
    end.
Proof.
  induction ms as [|p rest IH]; intros Hnd triggered lastErr w Hw; cbv zeta.
  - cbn. split; [lia|]. split; [done|]. split; [done|]. split; [lia|].
    exists []. by rewrite app_nil_r.
  - apply NoDup_cons in Hnd as [Hp Hnd]. specialize (IH Hnd).
    cbn [tickLoop tickPlan].
    destruct (Z.leb_spec (MaxTriggersPerTick (engine_config e)) triggered)
      as [Hcap|Hcap].
    { cbn. split; [lia|]. split; [done|]. split; [done|]. split; [lia|].
      exists []. by rewrite app_nil_r. }
    unfold bind at 1, getRegistry.
    destruct (motivations (registry w) !! p) as [m|] eqn:Hm;
      [|by apply IH].
    destruct (evaluate e m) as [[shouldFire data] [err|]]; [by apply IH|].
    destruct shouldFire; [|by apply IH].
    unfold bind. pose proof (fire_records clock e p m data w) as Hfire.
    destruct (fire clock e p m data w) as [ferr w1|]; [|exact Hfire].
    destruct Hfire as (-> & Hreads & Hreg & evs1 & Htrace & Hquiet).
    assert (Hw1 : registry_wf (registry w1))
      by (rewrite Hreg; by apply RecordTrigger_wf).
    specialize (IH (triggered + 1) lastErr w1 Hw1). cbv zeta in IH.
    assert (Hplan : tickPlan clock e (registry w1) rest (triggered + 1) lastErr
                      (reads w1)
                    = tickPlan clock e (registry w) rest (triggered + 1) lastErr
                        (S (S (reads w)))).
    { rewrite Hreads. apply tickPlan_ext. intros k Hk. rewrite Hreg.
      apply RecordTrigger_lookup_ne. rewrite firedTrigger_ID, (Hw p m Hm).
      intros ->. by apply Hp. }
    rewrite Hplan in IH.
    destruct (tickLoop clock e rest (triggered + 1) lastErr w1)
      as [[n err] w'|]; [|exact IH].
    destruct IH as (Hn & Herr & Hreg' & Hreads' & evs2 & Ht2 & Hf2).
    set (plan := tickPlan clock e (registry w) rest (triggered + 1) lastErr
                   (S (S (reads w)))) in *.
    cbn [fst snd length]. split; [lia|]. split; [exact Herr|].
    split; [by rewrite Hreg', Hreg|]. split; [lia|].
    exists ((evs1 ++ [LogMotivationFired (Name m) (ID m) (AgentRole m)]) ++ evs2).
    split.
    + rewrite Ht2, Htrace. by rewrite <- !app_assoc.
    + rewrite !firedIDs_app, Hquiet, Hf2. cbn. by rewrite firedTrigger_ID.
Qed.

(** [Tick], in a well-formed registry and an iteration without
    repetition. *)
Lemma Tick_exact (order : list string) (w : World) :
  registry_wf (registry w) ->
  NoDup order ->
  let r1 := CheckCooldowns (registry w) (clock (reads w)) in
  let plan := tickPlan clock e r1 (GetActive r1 order) 0 None (S (reads w)) in
  match Tick clock e order w with
  | Returns (n, err) w' =>
      n = Z.of_nat (length plan.1) ∧ err = plan.2 ∧
      registry w' = recordAll r1 plan.1 ∧
      reads w' = (S (reads w) + 2 * length plan.1)%nat ∧
      ∃ evs, trace w' = trace w ++ evs ∧
             firedIDs evs = MotivationID <$> plan.1.*1
  | Panics => actionHandler e = None
  end.
Proof.
  intros Hw Hnd r1 plan. rewrite Tick_unfold. cbv zeta. cbn [registry].
  fold r1. unfold plan.
  destruct (length (GetActive r1 order) =? 0)%nat eqn:Hlen.
  - apply Nat.eqb_eq, nil_length_inv in Hlen. rewrite Hlen. cbn.
    split; [done|]. split; [done|]. split; [done|]. split; [lia|].
    exists []. by rewrite app_nil_r.
  - match goal with |- context [tickLoop clock e ?ms 0 None ?w1] =>
      pose proof (tickLoop_exact ms (NoDup_filter _ _ Hnd) 0 None w1) as H
    end.
    cbn [registry reads trace] in H. specialize (H (CheckCooldowns_wf _ _ Hw)).
    cbv zeta in H. fold r1 in H.
    destruct (tickLoop clock e (GetActive r1 order) 0 None _) as [[n err] w'|];
      [|exact H].
    destruct H as (Hn & Herr & Hreg & Hreads & evs & Ht & Hf).
    split; [lia|]. split; [exact Herr|]. split; [exact Hreg|].
    split; [exact Hreads|]. by exists evs.
Qed.

End TickExact.

Section TickPlan.

Variable clock : nat -> Time.
Variable e : Engine.

#[local] Arguments firedTrigger : simpl never.

(** The pointers a plan fires, in order. *)
Lemma tickPlan_sublist (r : Registry) (ms : list string) :
  registry_wf r ->
  ∀ triggered lastErr reads,
    (MotivationID <$> (tickPlan clock e r ms triggered lastErr reads).1.*1)
      `sublist_of` ms.
Proof.
  intros Hw. induction ms as [|p rest IH]; intros triggered lastErr reads; [done|].
  cbn [tickPlan].
  destruct (MaxTriggersPerTick (engine_config e) <=? triggered);
    [apply sublist_nil_l|].
  destruct (motivations r !! p) as [m|] eqn:Hm; [|by apply sublist_cons].
  destruct (evaluate e m) as [[shouldFire data] [err|]]; [by apply sublist_cons|].
  destruct shouldFire; [|by apply sublist_cons].
  cbn. rewrite firedTrigger_ID, (Hw p m Hm). by apply sublist_skip.
Qed.

Lemma tickPlan_sound (r : Registry) (ms : list string) :
  ∀ triggered lastErr reads t now,
    (t, now) ∈ (tickPlan clock e r ms triggered lastErr reads).1 ->
    ∃ p m data i,
      p ∈ ms ∧ motivations r !! p = Some m ∧
      evaluate e m = (true, data, None) ∧
      t = firedTrigger e p m data (clock i) ∧ now = clock (S i).
Proof.
  induction ms as [|p rest IH]; intros triggered lastErr reads t now Hin.
  { by apply elem_of_nil in Hin. }
  assert (Hrest : ∀ triggered lastErr reads,
            (t, now) ∈ (tickPlan clock e r rest triggered lastErr reads).1 ->
            ∃ p0 m data i,
              p0 ∈ p :: rest ∧ motivations r !! p0 = Some m ∧
              evaluate e m = (true, data, None) ∧
              t = firedTrigger e p0 m data (clock i) ∧ now = clock (S i)).
  { intros tr le rd H. destruct (IH tr le rd t now H) as (p0 & m & d & i & Hp0 & H').
    exists p0, m, d, i. split; [by right | exact H']. }
  cbn [tickPlan] in Hin.
  destruct (MaxTriggersPerTick (engine_config e) <=? triggered);
    [by apply elem_of_nil in Hin|].
  destruct (motivations r !! p) as [m|] eqn:Hm; [|by eapply Hrest].
  destruct (evaluate e m) as [[shouldFire data] [err|]] eqn:Hev; [by eapply Hrest|].
  destruct shouldFire; [|by eapply Hrest].
  cbn [fst] in Hin. apply elem_of_cons in Hin as [[= -> ->]|Hin]; [|by eapply Hrest].
  exists p, m, data, reads. split; [by left|]. by repeat split.
Qed.

Lemma tickPlan_complete (r : Registry) (ms : list string) :
  registry_wf r ->
  ∀ triggered lastErr reads,
    triggered + Z.of_nat (length (tickPlan clock e r ms triggered lastErr reads).1)
    < MaxTriggersPerTick (engine_config e) ->
    ∀ p m data,
      p ∈ ms -> motivations r !! p = Some m ->
      evaluate e m = (true, data, None) ->
      p ∈ MotivationID <$> (tickPlan clock e r ms triggered lastErr reads).1.*1.
Proof.
  intros Hw. induction ms as [|p0 rest IH];
    intros triggered lastErr reads Hcount p m data Hin Hm Hev.
  { by apply elem_of_nil in Hin. }
  cbn [tickPlan] in *.
  destruct (Z.leb_spec (MaxTriggersPerTick (engine_config e)) triggered)
    as [Hcap|Hcap]; [cbn in Hcount; lia|].
  apply elem_of_cons in Hin as [->|Hin].
  - rewrite Hm, Hev. cbn. rewrite firedTrigger_ID, (Hw p0 m Hm). by left.
  - destruct (motivations r !! p0) as [m0|] eqn:Hm0; [|by eapply IH].
    destruct (evaluate e m0) as [[shouldFire data0] [err|]]; [by eapply IH|].
    destruct shouldFire; [|by eapply IH].
    cbn [fst length] in *. rewrite !fmap_cons. right.
    eapply (IH (triggered + 1)); eauto. lia.
Qed.

(** The error of a plan: the one it was entered with, or that of an
    evaluation that failed. *)
Lemma tickPlan_error (r : Registry) (ms : list string) :
  ∀ triggered lastErr reads,
    (tickPlan clock e r ms triggered lastErr reads).2 = lastErr
    ∨ ∃ p m shouldFire data msg,
        p ∈ ms ∧ motivations r !! p = Some m ∧
        evaluate e m = (shouldFire, data, Some msg) ∧
        (tickPlan clock e r ms triggered lastErr reads).2 = Some msg.
Proof.
  induction ms as [|p rest IH]; intros triggered lastErr reads; [by left|].
  assert (Hrest : ∀ triggered reads,
    (tickPlan clock e r rest triggered lastErr reads).2 = lastErr
    ∨ ∃ p0 m shouldFire data msg,
        p0 ∈ p :: rest ∧ motivations r !! p0 = Some m ∧
        evaluate e m = (shouldFire, data, Some msg) ∧
        (tickPlan clock e r rest triggered lastErr reads).2 = Some msg).
  { intros tr rd. destruct (IH tr lastErr rd) as [H|(p0 & m & b & d & msg & H0 & H)];
      [by left|]. right. exists p0, m, b, d, msg. split; [by right | exact H]. }
  cbn [tickPlan].
  destruct (MaxTriggersPerTick (engine_config e) <=? triggered); [by left|].
  destruct (motivations r !! p) as [m|] eqn:Hm; [|apply Hrest].
  destruct (evaluate e m) as [[shouldFire data] [err|]] eqn:Hev.
  - right. destruct (IH triggered (Some err) reads)
      as [H|(p0 & m0 & b & d & msg & H0 & H)].
    + exists p, m, shouldFire, data, err. split; [by left|]. by repeat split.
    + exists p0, m0, b, d, msg. split; [by right | exact H].
  - destruct shouldFire; [|apply Hrest]. cbn [snd]. apply Hrest.
Qed.

(** Below the cap, an evaluation that fails shows in the error. *)
Lemma tickPlan_error_complete (r : Registry) (ms : list string) :
  ∀ triggered lastErr reads,
    triggered + Z.of_nat (length (tickPlan clock e r ms triggered lastErr reads).1)
    < MaxTriggersPerTick (engine_config e) ->
    (tickPlan clock e r ms triggered lastErr reads).2 = None ->
    lastErr = None ∧
    ∀ p m, p ∈ ms -> motivations r !! p = Some m -> (evaluate e m).2 = None.
Proof.
  induction ms as [|p0 rest IH]; intros triggered lastErr reads Hcount Herr.
  { split; [exact Herr|]. intros p m Hin. by apply elem_of_nil in Hin. }
  cbn [tickPlan] in *.
  destruct (Z.leb_spec (MaxTriggersPerTick (engine_config e)) triggered)
    as [Hcap|Hcap]; [cbn in Hcount; lia|].
  destruct (motivations r !! p0) as [m0|] eqn:Hm0.
  - destruct (evaluate e m0) as [[shouldFire data0] [err|]] eqn:Hev0.
    + by destruct (IH _ _ _ Hcount Herr) as [? _].
    + destruct shouldFire.
      * cbn [fst snd length] in *.
        destruct (IH (triggered + 1) lastErr (S (S reads))) as [Hl Hall];
          [lia | exact Herr |].
        split; [exact Hl|]. intros p m [->|Hin]%elem_of_cons Hm.
        -- rewrite Hm0 in Hm. injection Hm as <-. by rewrite Hev0.
        -- by eapply Hall.
      * destruct (IH _ _ _ Hcount Herr) as [Hl Hall].
        split; [exact Hl|]. intros p m [->|Hin]%elem_of_cons Hm.
        -- rewrite Hm0 in Hm. injection Hm as <-. by rewrite Hev0.
        -- by eapply Hall.
  - destruct (IH _ _ _ Hcount Herr) as [Hl Hall].
    split; [exact Hl|]. intros p m [->|Hin]%elem_of_cons Hm.
    + congruence.
    + by eapply Hall.
Qed.

End TickPlan.

Section RecordAll.

Lemma recordAll_lookup_ne (calls : list (MotivationTrigger * Time)) :
  ∀ (r : Registry) (k : string),
    k ∉ MotivationID <$> calls.*1 ->
    motivations (recordAll r calls) !! k = motivations r !! k.
Proof.
  induction calls as [|[t now] calls IH]; intros r k Hk; [done|].
  rewrite !fmap_cons in Hk. apply not_elem_of_cons in Hk as [Hne Hk].
  cbn [recordAll foldl]. unfold recordAll in IH. rewrite IH by exact Hk.
  by apply RecordTrigger_lookup_ne.
Qed.

Lemma recordAll_lookup (calls : list (MotivationTrigger * Time)) :
  ∀ (r : Registry) (t : MotivationTrigger) (now : Time) (m : Motivation),
    NoDup (MotivationID <$> calls.*1) ->
    (t, now) ∈ calls ->
    motivations r !! MotivationID t = Some m ->
    motivations (recordAll r calls) !! MotivationID t
    = Some (markTriggered t now m).
Proof.
  induction calls as [|[t0 now0] calls IH]; intros r t now m Hnd Hin Hm.
  { by apply elem_of_nil in Hin. }
  rewrite !fmap_cons in Hnd. apply NoDup_cons in Hnd as [Hfirst Hnd].
  cbn [recordAll foldl]. apply elem_of_cons in Hin as [[= -> ->]|Hin].
  - fold (recordAll (RecordTrigger r t0 now0) calls).
    rewrite recordAll_lookup_ne by exact Hfirst.
    by apply RecordTrigger_lookup.
  - unfold recordAll in IH. apply IH; [exact Hnd | exact Hin |].
    rewrite RecordTrigger_lookup_ne; [exact Hm|].
    intros Heq. apply Hfirst. rewrite <- Heq.
    apply list_elem_of_fmap. exists t. split; [done|].
    apply list_elem_of_fmap. by exists (t, now).
Qed.

End RecordAll.

Lemma registry3_wf : registry_wf registry3.
Proof. apply reachable_wf, reachable_registry3. Qed.

Lemma NoDup_order3 : NoDup order3.
Proof. apply (bool_decide_eq_true_1 (NoDup order3)). vm_compute. reflexivity. Qed.

Lemma registryIdle_wf : registry_wf registryIdle.
Proof. apply reachable_wf. apply reach_Register, reach_NewRegistry. Qed.

Lemma registryBead_wf : registry_wf registryBead.
Proof. apply reachable_wf. apply reach_Register, reach_NewRegistry. Qed.

Lemma NoDup_one (k : string) : NoDup [k].
Proof. apply NoDup_singleton. Qed.

(** X18.  In a well-formed registry, with an iteration that visits no key
    twice, a tick does to the registry exactly this: [CheckCooldowns], then
    one [RecordTrigger] for each motivation of the plan that the loop
    computes from the registry as [CheckCooldowns] left it; firings of
    the same tick do not influence one another.  The count returned is the
    number of these calls, the error is the plan's, each firing reads the
    clock twice, and the "Motivation fired" lines name the recorded
    motivations in order. *)
Theorem Tick_runs_plan (clock : nat -> Time) (e : Engine) (order : list string)
    (w : World) :
  registry_wf (registry w) ->
  NoDup order ->
  let r1 := CheckCooldowns (registry w) (clock (reads w)) in
  let plan := tickPlan clock e r1 (GetActive r1 order) 0 None (S (reads w)) in
  match Tick clock e order w with
  | Returns (n, err) w' =>
      n = Z.of_nat (length plan.1) ∧ err = plan.2 ∧
      registry w' = recordAll r1 plan.1 ∧
      reads w' = (S (reads w) + 2 * length plan.1)%nat ∧
      firedIDs (eventsSince w w') = MotivationID <$> plan.1.*1
  | Panics => actionHandler e = None
  end.
Proof.
  intros Hw Hnd. pose proof (Tick_exact clock e order w Hw Hnd) as H.
  cbv zeta in *.
  destruct (Tick clock e order w) as [[n err] w'|]; [|exact H].
  destruct H as (Hn & Herr & Hreg & Hreads & evs & Ht & Hf).
  rewrite (eventsSince_app _ _ _ Ht). by repeat split.
Qed.

(** [TestEngineMaxTriggersPerTick]: the registry after the tick is the
    one after the two [RecordTrigger] calls of the plan. *)
Lemma Tick_runs_plan_witness :
  let r1 := CheckCooldowns registry3 (clock0 0) in
  ∃ w', Tick clock0 engine0 order3 world3 = Returns (2, None) w' ∧
        registry w'
        = recordAll r1
            (tickPlan clock0 engine0 r1 (GetActive r1 order3) 0 None 1).1 ∧
        firedIDs (eventsSince world3 w') = ["mot-1"; "mot-2"]%string.
Proof.
  intros r1.
  pose proof (Tick_runs_plan clock0 engine0 order3 world3 registry3_wf
                NoDup_order3) as H.
  cbv zeta in H.
  destruct (Tick clock0 engine0 order3 world3) as [[n err] w'|] eqn:E;
    [|discriminate].
  destruct H as (Hn & Herr & Hreg & _ & Hf).
  exists w'. split; [|split; [exact Hreg|]].
  - rewrite Hn, Herr. vm_compute. reflexivity.
  - rewrite Hf. vm_compute. reflexivity.
Defined.


(** X19.  A tick fires only motivations that [CheckCooldowns] left Active
    and whose evaluator said fire without error; it fires them in the
    order of the iteration and none of them twice. *)
Theorem Tick_fires_only_approved (clock : nat -> Time) (e : Engine)
    (order : list string) (w : World) :
  registry_wf (registry w) ->
  NoDup order ->
  let r1 := CheckCooldowns (registry w) (clock (reads w)) in
  match Tick clock e order w with
  | Returns (n, err) w' =>
      firedIDs (eventsSince w w') `sublist_of` GetActive r1 order ∧
      NoDup (firedIDs (eventsSince w w')) ∧
      ∀ id, id ∈ firedIDs (eventsSince w w') ->
        ∃ m data, motivations r1 !! id = Some m ∧
                  Status m = MotivationStatusActive ∧
                  evaluate e m = (true, data, None)
  | Panics => actionHandler e = None
  end.
Proof.
  intros Hw Hnd. pose proof (Tick_exact clock e order w Hw Hnd) as H.
  cbv zeta in *.
  destruct (Tick clock e order w) as [[n err] w'|]; [|exact H].
  destruct H as (_ & _ & _ & _ & evs & Ht & Hf).
  rewrite (eventsSince_app _ _ _ Ht), Hf.
  set (r1 := CheckCooldowns (registry w) (clock (reads w))) in *.
  assert (Hw1 : registry_wf r1) by (by apply CheckCooldowns_wf).
  pose proof (tickPlan_sublist clock e r1 (GetActive r1 order) Hw1 0 None
                (S (reads w))) as Hsub.
  split; [exact Hsub|]. split.
  - eapply sublist_NoDup; [|exact Hsub]. by apply NoDup_filter.
  - intros id Hid.
    apply list_elem_of_fmap in Hid as (t & -> & Ht').
    apply list_elem_of_fmap in Ht' as ([t' now] & -> & Hin). cbn [fst].
    destruct (tickPlan_sound clock e r1 _ _ _ _ _ _ Hin)
      as (p & m & data & i & Hp & Hm & Hev & -> & _).
    rewrite firedTrigger_ID, (Hw1 p m Hm).
    exists m, data. split; [exact Hm|]. split; [|exact Hev].
    unfold GetActive in Hp. apply list_elem_of_filter in Hp as [Hact _].
    unfold activeAt in Hact. rewrite Hm in Hact.
    by apply bool_decide_eq_true_1 in Hact.
Qed.

Lemma Tick_fires_only_approved_witness :
  ∃ n err w', Tick clock0 engine0 order3 world3 = Returns (n, err) w' ∧
    NoDup (firedIDs (eventsSince world3 w')) ∧
    firedIDs (eventsSince world3 w')
      `sublist_of` GetActive (CheckCooldowns registry3 (clock0 0)) order3.
Proof.
  pose proof (Tick_fires_only_approved clock0 engine0 order3 world3 registry3_wf
                NoDup_order3) as H.
  cbv zeta in H.
  destruct (Tick clock0 engine0 order3 world3) as [[n err] w'|] eqn:E;
    [|discriminate].
  destruct H as (Hsub & Hnd & _).
  exists n, err, w'. split; [reflexivity|]. split; [exact Hnd | exact Hsub].
Defined.


(** X20.  When a tick ends below the cap it has looked at the whole
    active set: every active motivation whose evaluator said fire without
    error was fired, and the error returned is nil exactly when no
    evaluation of an active motivation failed. *)
Theorem Tick_fires_all_below_cap (clock : nat -> Time) (e : Engine)
    (order : list string) (w : World) :
  registry_wf (registry w) ->
  NoDup order ->
  let r1 := CheckCooldowns (registry w) (clock (reads w)) in
  match Tick clock e order w with
  | Returns (n, err) w' =>
      n < MaxTriggersPerTick (engine_config e) ->
      (∀ p m data,
         p ∈ GetActive r1 order -> motivations r1 !! p = Some m ->
         evaluate e m = (true, data, None) ->
         p ∈ firedIDs (eventsSince w w')) ∧
      (err = None <->
       ∀ p m, p ∈ GetActive r1 order -> motivations r1 !! p = Some m ->
              (evaluate e m).2 = None)
  | Panics => actionHandler e = None
  end.
Proof.
  intros Hw Hnd. pose proof (Tick_exact clock e order w Hw Hnd) as H.
  cbv zeta in *.
  destruct (Tick clock e order w) as [[n err] w'|]; [|exact H].
  destruct H as (Hn & Herr & _ & _ & evs & Ht & Hf).
  rewrite (eventsSince_app _ _ _ Ht), Hf.
  set (r1 := CheckCooldowns (registry w) (clock (reads w))) in *.
  assert (Hw1 : registry_wf r1) by (by apply CheckCooldowns_wf).
  intros Hcap. split.
  - intros p m data Hp Hm Hev.
    eapply tickPlan_complete; eauto. lia.
  - split.
    + intros ->. symmetry in Herr.
      eapply tickPlan_error_complete; [|exact Herr]. lia.
    + intros Hall. rewrite Herr.
      destruct (tickPlan_error clock e r1 (GetActive r1 order) 0 None (S (reads w)))
        as [H|(p & m & b & d & msg & Hp & Hm & Hev & _)]; [exact H|].
      specialize (Hall p m Hp Hm). by rewrite Hev in Hall.
Qed.

(** One motivation under a cap of 2: the tick ends below the cap and has
    fired it. *)
Lemma Tick_fires_all_below_cap_witness :
  ∃ w', Tick clock0 engine0 ["m1"%string] worldIdle = Returns (1, None) w' ∧
        "m1"%string ∈ firedIDs (eventsSince worldIdle w').
Proof.
  pose proof (Tick_fires_all_below_cap clock0 engine0 ["m1"%string] worldIdle
                registryIdle_wf (NoDup_one _)) as H.
  cbv zeta in H.
  destruct (Tick clock0 engine0 ["m1"%string] worldIdle) as [[n err] w'|] eqn:E;
    [|discriminate].
  assert (Hres : (n, err) = (1, @None string)).
  { vm_compute in E. by injection E as <- <- _. }
  injection Hres as -> ->.
  exists w'. split; [reflexivity|].
  assert (Hlt : 1 < MaxTriggersPerTick (engine_config engine0))
    by (vm_compute; reflexivity).
  eapply (proj1 (H Hlt) "m1"%string).
  - vm_compute. by left.
  - vm_compute. reflexivity.
  - vm_compute. reflexivity.
Defined.


(** X21.  After a tick, every motivation it fired has been marked once:
    [LastTriggeredAt] is a time read during the tick and [TriggerCount]
    is one more.  It is in Cooldown when it creates no bead; when it
    creates one and [CreateStimulusBead] fails it is still Active, although
    the firing was counted. *)
Theorem Tick_marks_fired (clock : nat -> Time) (e : Engine)
    (order : list string) (w : World) :
  registry_wf (registry w) ->
  NoDup order ->
  let r1 := CheckCooldowns (registry w) (clock (reads w)) in
  match Tick clock e order w with
  | Returns (n, err) w' =>
      ∀ id, id ∈ firedIDs (eventsSince w w') ->
        ∃ m m' data i,
          motivations r1 !! id = Some m ∧
          evaluate e m = (true, data, None) ∧
          motivations (registry w') !! id = Some m' ∧
          (reads w < i < reads w')%nat ∧
          LastTriggeredAt m' = Some (clock i) ∧
          TriggerCount m' = wrap64 (TriggerCount m + 1) ∧
          (CreateBeadOnTrigger m = false ->
           Status m' = MotivationStatusCooldown) ∧
          (∀ h bead msg,
             actionHandler e = Some h -> CreateBeadOnTrigger m = true ->
             ActionHandler.CreateStimulusBead h m data = (bead, Some msg) ->
             Status m' = MotivationStatusActive)
  | Panics => actionHandler e = None
  end.
Proof.
  intros Hw Hnd. pose proof (Tick_exact clock e order w Hw Hnd) as H.
  cbv zeta in *.
  destruct (Tick clock e order w) as [[n err] w'|]; [|exact H].
  destruct H as (_ & _ & Hreg & Hreads & evs & Ht & Hf).
  rewrite (eventsSince_app _ _ _ Ht), Hf.
  set (r1 := CheckCooldowns (registry w) (clock (reads w))) in *.
  set (plan := tickPlan clock e r1 (GetActive r1 order) 0 None (S (reads w))) in *.
  assert (Hw1 : registry_wf r1) by (by apply CheckCooldowns_wf).
  assert (Hnd' : NoDup (MotivationID <$> plan.1.*1)).
  { apply (sublist_NoDup _ (GetActive r1 order));
      [by apply NoDup_filter | by apply tickPlan_sublist]. }
  intros id Hid.
  apply list_elem_of_fmap in Hid as (t & -> & Ht').
  apply list_elem_of_fmap in Ht' as ([t' now] & -> & Hin). cbn [fst].
  assert (Hidx : ∃ i, (S (reads w) <= i < S (reads w) + 2 * length plan.1)%nat ∧
                      TriggeredAt t' = clock i).
  { clear -Hin. unfold plan in *. clear plan.
    generalize dependent (S (reads w)). generalize 0. generalize (@None string).
    induction (GetActive r1 order) as [|p rest IH]; intros lastErr triggered rd Hin;
      [by apply elem_of_nil in Hin|].
    cbn [tickPlan] in *.
    destruct (MaxTriggersPerTick (engine_config e) <=? triggered);
      [by apply elem_of_nil in Hin|].
    destruct (motivations r1 !! p) as [m|]; [|by apply IH].
    destruct (evaluate e m) as [[shouldFire data] [err|]]; [by apply IH|].
    destruct shouldFire; [|by apply IH].
    cbn [fst length] in *. apply elem_of_cons in Hin as [[= -> ->]|Hin].
    - exists rd. split; [lia|].
      by destruct (firedTrigger_same e p m data (clock rd)) as (_ & _ & _ & -> & _).
    - destruct (IH _ _ _ Hin) as (i & Hi & Hc). exists i. split; [lia|exact Hc]. }
  destruct Hidx as (i & Hi & Hclock).
  destruct (tickPlan_sound clock e r1 _ _ _ _ _ _ Hin)
    as (p & m & data & j & Hp & Hm & Hev & Htrig & _).
  assert (Hidp : MotivationID t' = p).
  { rewrite Htrig, firedTrigger_ID. by apply Hw1. }
  assert (Hm' : motivations r1 !! MotivationID t' = Some m) by (by rewrite Hidp).
  exists m, (markTriggered t' now m), data, i.
  split; [exact Hm'|]. split; [exact Hev|].
  split; [rewrite Hreg; by apply recordAll_lookup|].
  split; [lia|].
  assert (Hres : Result t' = Result (afterCreateBead e m data
                                       (newTrigger p m data (clock j)))).
  { rewrite Htrig. unfold firedTrigger. apply afterWake_same. }
  unfold markTriggered.
  split; [by destruct (bool_decide _); cbn; rewrite Hclock|].
  split; [by destruct (bool_decide _)|]. split.
  - intros Hb. rewrite bool_decide_eq_true_2; [done|].
    rewrite Hres. unfold afterCreateBead. by rewrite Hb.
  - intros h bead msg Hh Hb Hfail. rewrite bool_decide_eq_false_2.
    + cbn. apply list_elem_of_filter in Hp as [Hact _].
      unfold activeAt in Hact. rewrite Hm in Hact.
      by apply bool_decide_eq_true_1 in Hact.
    + rewrite Hres. unfold afterCreateBead. by rewrite Hb, Hh, Hfail.
Qed.

(** "cost" creates a bead, and the handler fails to: the tick counts the
    firing and "cost" is still Active, with a trigger count of 1. *)
Lemma Tick_marks_fired_witness :
  ∃ w' m',
    Tick clock0 engineFailing ["cost"%string] worldBead = Returns (1, None) w' ∧
    motivations (registry w') !! "cost"%string = Some m' ∧
    Status m' = MotivationStatusActive ∧ TriggerCount m' = 1.
Proof.
  pose proof (Tick_marks_fired clock0 engineFailing ["cost"%string] worldBead
                registryBead_wf (NoDup_one _)) as H.
  cbv zeta in H.
  destruct (Tick clock0 engineFailing ["cost"%string] worldBead)
    as [[n err] w'|] eqn:E; [|discriminate].
  assert (Hres : (n, err) = (1, @None string)).
  { vm_compute in E. by injection E as <- <- _. }
  injection Hres as -> ->.
  assert (Hf : firedIDs (eventsSince worldBead w') = ["cost"%string]).
  { vm_compute in E. injection E as <-. vm_compute. reflexivity. }
  destruct (H "cost"%string) as (m & m' & data & i & Hm & Hev & Hm' & _ & _ & Hcnt
                                 & _ & Hfail).
  { rewrite Hf. by left. }
  vm_compute in Hm. injection Hm as <-.
  exists w', m'. split; [reflexivity|]. split; [exact Hm'|]. split.
  - apply (Hfail failingHandler "" "bead store unavailable"%string);
      reflexivity.
  - rewrite Hcnt. vm_compute. reflexivity.
Defined.


(** X22.  The trigger [ManualTrigger] returns is not the one it records.
    The one returned is built before [fire] runs: its ID is
    "trig-manual-<t0>" for the first time read, its result is Success and
    it names no bead or agent, whatever [fire] went through.  [fire] builds
    and records its own, "trig-<t1>" for the next time read, which carries
    the outcome of the actions.  The motivation is marked from the recorded
    one: triggered at [t1], in Cooldown exactly when that result is
    Success, whatever its status was (Disabled too). *)
Theorem ManualTrigger_records (clock : nat -> Time) (e : Engine) (id : string)
    (w : World) (m : Motivation) :
  motivations (registry w) !! id = Some m ->
  let t0 := clock (reads w) in
  let t1 := clock (S (reads w)) in
  let t2 := clock (S (S (reads w))) in
  let manual : gmap string Value := {[ "manual"%string := VBool true ]} in
  let recorded := firedTrigger e id m manual t1 in
  match ManualTrigger clock e id w with
  | Returns (ot, err) w' =>
      err = None ∧
      ot = Some {| TrigID := "trig-manual-" ++ fmt_d t0;
                   MotivationID := ID m; MotivationRef := id;
                   TriggeredAt := t0; TriggerData := manual;
                   Result := TriggerResultSuccess; Error := "";
                   BeadCreated := ""; AgentWoken := "" |} ∧
      registry w' = RecordTrigger (registry w) recorded t2 ∧
      reads w' = S (S (S (reads w))) ∧
      TrigID recorded = ("trig-" ++ fmt_d t1)%string ∧
      TriggeredAt recorded = t1 ∧
      (CreateBeadOnTrigger m = false -> Result recorded = TriggerResultSuccess) ∧
      (∀ h bead msg,
         actionHandler e = Some h -> CreateBeadOnTrigger m = true ->
         ActionHandler.CreateStimulusBead h m manual = (bead, Some msg) ->
         Result recorded = TriggerResultError ∧ Error recorded = msg) ∧
      (ID m = id ->
       ∃ m', motivations (registry w') !! id = Some m' ∧
             LastTriggeredAt m' = Some t1 ∧
             Status m' = if bool_decide (Result recorded = TriggerResultSuccess)
                         then MotivationStatusCooldown else Status m)
  | Panics => actionHandler e = None
  end.
Proof.
  intros Hm t0 t1 t2 manual recorded.
  cbv beta iota zeta delta [ManualTrigger bind getRegistry Get].
  rewrite Hm. cbv beta iota zeta delta [time_Now]. cbn [TriggerData].
  set (w1 := {| registry := registry w; reads := S (reads w); trace := trace w |}).
  pose proof (fire_records clock e id m manual w1) as Hfire.
  fold manual.
  destruct (fire clock e id m manual w1) as [ferr w'|]; [|exact Hfire].
  destruct Hfire as (-> & Hreads & Hreg & _).
  cbn [registry reads w1] in Hreads, Hreg. fold t1 t2 recorded in Hreg.
  unfold ret. split; [reflexivity|]. split; [reflexivity|].
  split; [exact Hreg|]. split; [exact Hreads|].
  destruct (firedTrigger_same e id m manual t1) as (Hid & Hmid & _ & Hat & _).
  fold recorded in Hid, Hmid, Hat.
  split; [exact Hid|]. split; [exact Hat|].
  assert (Hres : Result recorded
                 = Result (afterCreateBead e m manual (newTrigger id m manual t1)) ∧
                 Error recorded
                 = Error (afterCreateBead e m manual (newTrigger id m manual t1))).
  { unfold recorded, firedTrigger.
    destruct (afterWake_same e m (afterCreateBead e m manual
                                    (newTrigger id m manual t1)))
      as (_ & H1 & H2 & _). by split. }
  destruct Hres as [Hres Herr].
  split; [|split].
  - intros Hb. rewrite Hres. unfold afterCreateBead. by rewrite Hb.
  - intros h bead msg Hh Hb Hfail. rewrite Hres, Herr. unfold afterCreateBead.
    by rewrite Hb, Hh, Hfail.
  - intros Hself. exists (markTriggered recorded t2 m).
    assert (Hm' : motivations (registry w) !! MotivationID recorded = Some m).
    { change (MotivationID (newTrigger id m manual t1)) with (ID m) in Hmid.
      by rewrite Hmid, Hself. }
    split.
    + rewrite Hreg. rewrite <- Hself at 1.
      change (ID m) with (MotivationID (newTrigger id m manual t1)).
      rewrite <- Hmid. by apply RecordTrigger_lookup.
    + unfold markTriggered. rewrite Hat.
      by destruct (bool_decide (Result recorded = TriggerResultSuccess)).
Qed.

(** "cost" creates a bead and the handler fails: the caller gets a
    Success trigger and a nil error; the history holds an Error trigger,
    and "cost" stays Active. *)
Lemma ManualTrigger_records_witness :
  ∃ returned recorded w' m',
    ManualTrigger clock0 engineFailing "cost" worldBead
    = Returns (Some returned, None) w' ∧
    Result returned = TriggerResultSuccess ∧
    last (triggers (registry w')) = Some recorded ∧
    Result recorded = TriggerResultError ∧
    Error recorded = "bead store unavailable"%string ∧
    TrigID returned = "trig-manual-3000"%string ∧
    TrigID recorded = "trig-3001"%string ∧
    motivations (registry w') !! "cost"%string = Some m' ∧
    Status m' = MotivationStatusActive.
Proof.
  set (m := set_UpdatedAt 1000 (set_CreatedAt 1000
              (set_CooldownPeriod (50 * millisecond) beadMotivation))).
  assert (Hm : motivations (registry worldBead) !! "cost"%string = Some m)
    by (vm_compute; reflexivity).
  pose proof (ManualTrigger_records clock0 engineFailing "cost" worldBead m Hm) as H.
  cbv zeta in H.
  destruct (ManualTrigger clock0 engineFailing "cost" worldBead)
    as [[ot err] w'|] eqn:E; [|discriminate].
  destruct H as (-> & -> & Hreg & _ & Hid & _ & _ & Hfail & Hmark).
  destruct (Hfail failingHandler "" "bead store unavailable"%string)
    as [Hres Herr]; [reflexivity..|].
  destruct (Hmark eq_refl) as (m' & Hm' & _ & Hst).
  eexists _, _, w', m'. split; [reflexivity|]. split; [reflexivity|].
  split; [rewrite Hreg; apply RecordTrigger_last|].
  split; [exact Hres|]. split; [exact Herr|].
  split; [vm_compute; reflexivity|]. split; [rewrite Hid; vm_compute; reflexivity|].
  split; [exact Hm'|]. rewrite Hst, Hres. reflexivity.
Defined.

(** ** Engine: [tick] and [Tick] *)

Section TickLog.

Variable clock : nat -> Time.
Variable e : Engine.

Lemma evaluationErrors_app (l1 l2 : list TickLog) :
  evaluationErrors (l1 ++ l2) = evaluationErrors l1 ++ evaluationErrors l2.
Proof. apply omap_app. Qed.

(** The loop of [tick] goes through the worlds the loop of [Tick] goes
    through. *)
Lemma tickLogLoop_tickLoop (ms : list string) :
  ∀ (triggered : Z) (lastErr : error) (logs : list TickLog) (w : World),
    match tickLoop clock e ms triggered lastErr w with
    | Returns (n, err) w' =>
        ∃ logs',
          tickLogLoop clock e ms triggered logs w = Returns (logs ++ logs') w' ∧
          err = from_option Some lastErr (last (evaluationErrors logs')) ∧
          (∀ id msg, LogErrorFiring id msg ∉ logs') ∧
          (∀ cap, LogMaxTriggersReached cap ∈ logs' ->
                  cap = MaxTriggersPerTick (engine_config e) ∧ cap <= n)
    | Panics => tickLogLoop clock e ms triggered logs w = Panics
    end.
Proof.
  induction ms as [|p rest IH]; intros triggered lastErr logs w.
  - cbn. exists []. rewrite app_nil_r. split; [done|]. split; [done|].
    split; [intros id msg H; by apply elem_of_nil in H|].
    intros cap H. by apply elem_of_nil in H.
  - cbn [tickLoop tickLogLoop].
    destruct (Z.leb_spec (MaxTriggersPerTick (engine_config e)) triggered)
      as [Hcap|Hcap].
    { cbn. eexists [_]. split; [done|]. split; [done|]. split.
      - intros id msg H. apply list_elem_of_singleton in H. discriminate.
      - intros cap H. apply list_elem_of_singleton in H. injection H as ->. done. }
    cbv beta iota delta [bind getRegistry].
    destruct (motivations (registry w) !! p) as [m|] eqn:Hm; [|apply IH].
    destruct (evaluate e m) as [[shouldFire data] [err|]].
    + specialize (IH triggered (Some err) (logs ++ [LogErrorEvaluating (ID m) err]) w).
      destruct (tickLoop clock e rest triggered (Some err) w) as [[n err'] w'|];
        [|exact IH].
      destruct IH as (logs' & Hrun & Herr & Hnf & Hmax).
      exists (LogErrorEvaluating (ID m) err :: logs').
      split; [by rewrite Hrun, <- app_assoc|]. split; [|split].
      * rewrite Herr.
        change (evaluationErrors (LogErrorEvaluating (ID m) err :: logs'))
          with (err :: evaluationErrors logs').
        rewrite last_cons. by destruct (last (evaluationErrors logs')).
      * intros id msg [H|H]%elem_of_cons; [discriminate | by eapply Hnf].
      * intros cap [H|H]%elem_of_cons; [discriminate | by apply Hmax].
    + destruct shouldFire; [|apply IH].
      pose proof (fire_records clock e p m data w) as Hfire.
      destruct (fire clock e p m data w) as [ferr w1|]; [|reflexivity].
      destruct Hfire as (-> & _).
      specialize (IH (triggered + 1) lastErr logs w1).
      destruct (tickLoop clock e rest (triggered + 1) lastErr w1)
        as [[n err'] w'|]; exact IH.
Qed.

End TickLog.

(** X23.  [tick], the cycle the background loop runs, does to the world
    what [Tick] does: whenever [Tick] returns, [tick] ends in the same
    world (on a nil handler that has to be called, both panic).  The
    error [Tick] returns is the message of the last "Error evaluating
    motivation" line of [tick], nil when there is none; [tick] never
    writes an "Error firing motivation" line, [fire] having returned nil;
    and it writes the "Max triggers per tick" line only when the count has
    reached the cap. *)
Theorem tick_is_Tick (clock : nat -> Time) (e : Engine) (order : list string)
    (w : World) :
  match Tick clock e order w with
  | Returns (n, err) w' =>
      ∃ logs,
        tick clock e order w = Returns logs w' ∧
        err = last (evaluationErrors logs) ∧
        (∀ id msg, LogErrorFiring id msg ∉ logs) ∧
        (∀ cap, LogMaxTriggersReached cap ∈ logs ->
                cap = MaxTriggersPerTick (engine_config e) ∧ cap <= n)
  | Panics => tick clock e order w = Panics
  end.
Proof.
  rewrite Tick_unfold. cbv zeta.
  cbv beta iota zeta delta [tick bind time_Now modifyRegistry getRegistry].
  cbn [registry reads trace].
  destruct (length (GetActive _ order) =? 0)%nat.
  - exists []. split; [done|]. split; [done|].
    split; [intros id msg H; by apply elem_of_nil in H|].
    intros cap H. by apply elem_of_nil in H.
  - match goal with |- context [tickLoop clock e ?ms 0 None ?w1] =>
      pose proof (tickLogLoop_tickLoop clock e ms 0 None [] w1) as H;
      destruct (tickLoop clock e ms 0 None w1) as [[n err] w'|]; [|exact H]
    end.
    destruct H as (logs' & Hrun & Herr & Hnf & Hmax).
    exists logs'. split; [exact Hrun|]. split; [|by split].
    rewrite Herr. by destruct (last (evaluationErrors logs')).
Qed.

(** [TestEngineMaxTriggersPerTick] run by [tick]: the same world, and the
    "Max triggers per tick" line. *)
Lemma tick_is_Tick_witness :
  ∃ w', Tick clock0 engine0 order3 world3 = Returns (2, None) w' ∧
        tick clock0 engine0 order3 world3 = Returns [LogMaxTriggersReached 2] w'.
Proof.
  pose proof (tick_is_Tick clock0 engine0 order3 world3) as H.
  remember (tick clock0 engine0 order3 world3) as tk eqn:Htk.
  destruct (Tick clock0 engine0 order3 world3) as [[n err] w'|] eqn:E;
    [|exfalso; vm_compute in E; discriminate].
  destruct H as (logs & Hrun & _).
  assert (Hres : (n, err) = (2, @None string)).
  { vm_compute in E. by injection E as <- <- _. }
  injection Hres as -> ->.
  exists w'. split; [reflexivity|]. rewrite Hrun. f_equal.
  rewrite Htk in Hrun. vm_compute in Hrun. by injection Hrun as <- _.
Defined.


(** ** The Temporal activity *)

Section Activity.

Lemma lastN_lastN_app {A} (k : nat) (old new : list A) :
  lastN (length new) (lastN k (old ++ new)) = lastN k new.
Proof.
  destruct (Nat.le_gt_cases (length new) k) as [Hle|Hgt].
  - rewrite (lastN_short k new) by exact Hle.
    unfold lastN. rewrite drop_drop, length_drop, length_app.
    replace (length old + length new - k
             + (length old + length new - (length old + length new - k)
                - length new))%nat
      with (length old) by lia.
    by rewrite drop_app_length.
  - rewrite lastN_short by (rewrite lastN_length; lia).
    unfold lastN. rewrite length_app, drop_app.
    rewrite drop_ge by lia. cbn. f_equal. lia.
Qed.

Lemma fmap_lastN {A B} (f : A -> B) (k : nat) (l : list A) :
  f <$> lastN k l = lastN k (f <$> l).
Proof. unfold lastN. by rewrite fmap_drop, length_fmap. Qed.

End Activity.

(** X24.  [EvaluateMotivations] ends in the world its one [Tick] leaves
    and always returns a nil error: the error of the tick goes to
    [Errors].  [MotivationsEvaluated] counts the motivations active before
    the tick has run [CheckCooldowns]; [MotivationsFired] is the count of
    the tick.  When the tick fired something, [FiredMotivationIDs] holds
    the IDs it fired, in order (the last 1,000 of them); when it fired
    nothing, [GetTriggerHistory(0)] returns the whole history and
    [FiredMotivationIDs] holds the IDs of every trigger stored. *)
Theorem EvaluateMotivations_result (clock : nat -> Time) (e : Engine)
    (BeatCount : Z) (order1 order2 : list string) (w : World) :
  registry_wf (registry w) ->
  NoDup order2 ->
  (length (triggers (registry w)) <= 1000)%nat ->
  match Tick clock e order2 w with
  | Returns (n, terr) w' =>
      ∃ res logs,
        EvaluateMotivations clock (Some e) BeatCount order1 order2 w
        = Returns (res, None, logs) w' ∧
        MotivationsEvaluated res
        = Z.of_nat (length (GetActive (registry w) order1)) ∧
        MotivationsFired res = n ∧
        Errors res = match terr with Some msg => [msg] | None => [] end ∧
        (0 < n ->
         FiredMotivationIDs res = lastN 1000 (firedIDs (eventsSince w w'))) ∧
        (n = 0 ->
         FiredMotivationIDs res = MotivationID <$> triggers (registry w))
  | Panics =>
      EvaluateMotivations clock (Some e) BeatCount order1 order2 w = Panics
  end.
Proof.
  intros Hw Hnd Hlen. pose proof (Tick_exact clock e order2 w Hw Hnd) as H.
  cbv zeta in H.
  cbv beta iota zeta delta [EvaluateMotivations bind getRegistry ret].
  destruct (Tick clock e order2 w) as [[n terr] w'|]; [|reflexivity].
  destruct H as (Hn & _ & Hreg & _ & evs & Ht & Hf).
  set (r1 := CheckCooldowns (registry w) (clock (reads w))) in *.
  set (plan := tickPlan clock e r1 (GetActive r1 order2) 0 None (S (reads w))) in *.
  cbn [fst snd]. eexists _, _. split; [reflexivity|].
  cbn [MotivationsEvaluated MotivationsFired Errors FiredMotivationIDs].
  do 3 (split; [reflexivity|]).
  rewrite GetTriggerHistory_closed, (eventsSince_app _ _ _ Ht), Hf. split.
  - intros Hpos. destruct (Z.ltb_spec 0 n) as [_|?]; [|lia].
    rewrite Hreg, recordAll_triggers by exact Hlen.
    replace (Z.to_nat n) with (length plan.1.*1) by (rewrite length_fmap; lia).
    by rewrite lastN_lastN_app, fmap_lastN.
  - intros ->. cbn. rewrite Hreg.
    destruct plan.1; [done|cbn in Hn; lia].
Qed.

(** After "m1" has fired once, later ticks find it in Cooldown and fire
    nothing: all the same [FiredMotivationIDs] names "m1". *)
Lemma EvaluateMotivations_result_witness :
  ∃ w1 res logs w2,
    Tick clock0 engine0 ["m1"%string] worldIdle = Returns (1, None) w1 ∧
    EvaluateMotivations clock0 (Some engine0) 7 ["m1"%string] ["m1"%string] w1
    = Returns (res, None, logs) w2 ∧
    MotivationsFired res = 0 ∧
    FiredMotivationIDs res = ["m1"%string].
Proof.
  destruct (Tick clock0 engine0 ["m1"%string] worldIdle) as [[n err] w1|] eqn:E1;
    [|discriminate].
  assert (Hwf1 : registry_wf (registry w1)).
  { pose proof (Tick_spec clock0 engine0 ["m1"%string] worldIdle) as Hspec.
    cbv zeta in Hspec. rewrite E1 in Hspec.
    destruct Hspec as (evs & _ & _ & _ & _ & Hwf).
    by destruct (Hwf registryIdle_wf) as [Hwf1 _]. }
  pose proof E1 as Hc. vm_compute in Hc. injection Hc as Hn Herr Hw1.
  subst n err.
  assert (Hlen1 : (length (triggers (registry w1)) <= 1000)%nat)
    by (rewrite <- Hw1; vm_compute; lia).
  pose proof (EvaluateMotivations_result clock0 engine0 7 ["m1"%string]
                ["m1"%string] w1 Hwf1 (NoDup_one _) Hlen1) as H.
  destruct (Tick clock0 engine0 ["m1"%string] w1) as [[n2 err2] w2|] eqn:E2.
  - destruct H as (res & logs & Hrun & _ & Hfired & _ & _ & Hzero).
    assert (Hn2 : n2 = 0).
    { rewrite <- Hw1 in E2. vm_compute in E2. by injection E2 as <- _ _. }
    exists w1, res, logs, w2. split; [reflexivity|]. split; [exact Hrun|].
    split; [by rewrite Hfired|]. rewrite (Hzero Hn2), <- Hw1.
    vm_compute. reflexivity.
  - exfalso. rewrite <- Hw1 in E2. vm_compute in E2. discriminate.
Defined.

(** ** Engine: evaluators *)

(** X25.  A motivation whose type has no evaluator is never fired by a
    tick; when the tick ends below the cap and the motivation was active,
    the tick returns an error.  [RegisterEvaluator] makes the evaluator
    the one [evaluate] uses for its type, replacing an earlier one, and
    leaves the other types as they were. *)
Theorem unknown_type_never_fires (clock : nat -> Time) (e : Engine)
    (order : list string) (w : World) (id : string) (m : Motivation) :
  registry_wf (registry w) ->
  NoDup order ->
  motivations (registry w) !! id = Some m ->
  evaluators e !! Type_ m = None ->
  match Tick clock e order w with
  | Returns (n, err) w' =>
      (id ∉ firedIDs (eventsSince w w')) ∧
      (n < MaxTriggersPerTick (engine_config e) ->
       id ∈ order -> Status m = MotivationStatusActive -> err ≠ None) ∧
      ∀ ev m', evaluate (RegisterEvaluator e (Type_ m) ev) m'
               = if decide (Type_ m' = Type_ m) then ev m' else evaluate e m'
  | Panics => actionHandler e = None
  end.
Proof.
  intros Hw Hnd Hm Hnone. pose proof (Tick_exact clock e order w Hw Hnd) as H.
  cbv zeta in H.
  destruct (Tick clock e order w) as [[n err] w'|]; [|exact H].
  destruct H as (Hn & Herr & _ & _ & evs & Ht & Hf).
  rewrite (eventsSince_app _ _ _ Ht), Hf.
  set (r1 := CheckCooldowns (registry w) (clock (reads w))) in *.
  assert (Hw1 : registry_wf r1) by (by apply CheckCooldowns_wf).
  assert (Hm1 : motivations r1 !! id = Some (checkCooldown (clock (reads w)) m)).
  { unfold r1. by rewrite CheckCooldowns_lookup, Hm. }
  assert (Hty : ∀ now, Type_ (checkCooldown now m) = Type_ m).
  { intros now. unfold checkCooldown.
    destruct (Status m); try done. destruct (LastTriggeredAt m); [|done].
    by destruct (_ <=? _). }
  assert (Hev : (evaluate e (checkCooldown (clock (reads w)) m)).2 ≠ None).
  { unfold evaluate. rewrite Hty.
    match goal with |- context [match ?x with _ => _ end] =>
      replace x with (@None Evaluator) by (symmetry; exact Hnone) end.
    done. }
  split; [|split].
  - intros Hid.
    apply list_elem_of_fmap in Hid as (t & Hidt & Ht').
    apply list_elem_of_fmap in Ht' as ([t' now] & -> & Hin). cbn [fst] in Hidt.
    destruct (tickPlan_sound clock e r1 _ _ _ _ _ _ Hin)
      as (p & m0 & data & i & Hp & Hm0 & Hev0 & -> & _).
    rewrite firedTrigger_ID, (Hw1 p m0 Hm0) in Hidt. subst p.
    rewrite Hm1 in Hm0. injection Hm0 as <-. by rewrite Hev0 in Hev.
  - intros Hcap Hin Hst ->. apply Hev.
    destruct (tickPlan_error_complete clock e r1 (GetActive r1 order) 0 None
                (S (reads w))) as [_ Hall]; [lia | by symmetry |].
    apply (Hall id); [|exact Hm1].
    unfold GetActive. apply list_elem_of_filter. split; [|exact Hin].
    unfold activeAt. rewrite Hm1. unfold isActive.
    apply bool_decide_eq_true_2. unfold checkCooldown. by rewrite Hst.
  - intros ev m'. unfold evaluate, RegisterEvaluator. cbn [evaluators].
    rewrite lookup_insert. by destruct (decide (Type_ m = Type_ m')),
      (decide (Type_ m' = Type_ m)); try congruence.
Qed.

(** "m1" has the type "idle"; an engine without evaluators does not fire
    it and reports the error. *)
Lemma unknown_type_never_fires_witness :
  let e := NewEngine registryIdle ∅ (Some mockHandler) in
  ∃ msg w', Tick clock0 e ["m1"%string] worldIdle = Returns (0, Some msg) w' ∧
            "m1"%string ∉ firedIDs (eventsSince worldIdle w').
Proof.
  intros e.
  set (m := set_UpdatedAt 1000 (set_CreatedAt 1000
              (set_CooldownPeriod (50 * millisecond)
                 (set_Status MotivationStatusActive
                    (testMotivation "m1" "System Idle" "idle" "ceo" false true))))).
  assert (Hm : motivations (registry worldIdle) !! "m1"%string = Some m)
    by (vm_compute; reflexivity).
  pose proof (unknown_type_never_fires clock0 e ["m1"%string] worldIdle "m1" m
                registryIdle_wf (NoDup_one _) Hm eq_refl) as H.
  destruct (Tick clock0 e ["m1"%string] worldIdle) as [[n err] w'|] eqn:E;
    [|discriminate].
  destruct H as (Hnot & _).
  assert (Hres : ∃ msg, (n, err) = (0, Some msg)).
  { vm_compute in E. injection E as <- <- _. by eexists. }
  destruct Hres as (msg & [= -> ->]).
  exists msg, w'. split; [reflexivity | exact Hnot].
Defined.

(** ** Worker: the newest message *)

Section Newest.

Lemma totalTokens_app (l1 l2 : list ChatMessage) :
  totalTokens (l1 ++ l2) = totalTokens l1 + totalTokens l2.
Proof.
  induction l1 as [|m l1 IH]; [by rewrite totalTokens_nil|].
  cbn [app]. rewrite !totalTokens_cons, IH. lia.
Qed.

(** When the newest message does not fit beside the first, the backwards
    loop stops on it. *)
Lemma startIndexOf_newest (maxTokens : Z) (first newest : ChatMessage)
    (mid : list ChatMessage) :
  maxTokens < msgTokens first + msgTokens newest ->
  startIndexOf maxTokens (first :: mid ++ [newest])
  = length (first :: mid ++ [newest]).
Proof.
  intros Hover. unfold startIndexOf. cbn [length]. rewrite length_app. cbn [length].
  replace (S (length mid + 1) - 1)%nat with (S (length mid)) by lia.
  cbn [truncateLoop].
  replace ((first :: mid ++ [newest]) !! S (length mid)) with (Some newest)
    by (symmetry; cbn; by apply list_lookup_middle).
  destruct (Z.gtb_spec (msgTokens first + 0 + msgTokens newest) maxTokens);
    [lia | lia].
Qed.

End Newest.

(** X26.  The newest message of a conversation (the task at hand) is
    sent exactly when it fits beside the first message: if it does not,
    the list sent is the first message and the notice alone, every other
    message being dropped; if it does, it is the last message sent. *)
Theorem handleTokenLimits_newest_message (w : Worker)
    (first newest : ChatMessage) (mid : list ChatMessage) :
  let maxTokens := maxTokensOf (getModelTokenLimit w) in
  let messages := first :: mid ++ [newest] in
  (maxTokens < msgTokens first + msgTokens newest ->
   handleTokenLimits w messages
   = [first; noticeMsg (Z.of_nat (length mid) + 1)]) ∧
  (msgTokens first + msgTokens newest <= maxTokens ->
   last (handleTokenLimits w messages) = Some newest).
Proof.
  intros maxTokens messages. split.
  - intros Hover. unfold handleTokenLimits. fold maxTokens.
    assert (Htot : maxTokens < totalTokens messages).
    { unfold messages. rewrite totalTokens_cons, totalTokens_app,
        totalTokens_cons, totalTokens_nil.
      pose proof (totalTokens_nonneg mid). lia. }
    destruct (Z.leb_spec (totalTokens messages) maxTokens) as [?|_]; [lia|].
    unfold messages. rewrite startIndexOf_newest by exact Hover.
    cbn [length]. rewrite length_app. cbn [length].
    destruct (Nat.ltb_spec 1 (S (length mid + 1))) as [_|?]; [|lia].
    rewrite drop_ge by (cbn; rewrite length_app; cbn; lia).
    cbn. do 3 f_equal. lia.
  - intros Hfit.
    assert (Hlast : ∀ l, last (l ++ [newest]) = Some newest)
      by (intros l; apply last_snoc).
    pose proof (handleTokenLimits_cases w messages) as H.
    cbv zeta in H. fold maxTokens in H.
    destruct H as [[_ ->]|[(f & Heq & _)|(f & r & k & Heq & Hk & -> & Hgt & _)]].
    + unfold messages. by rewrite app_comm_cons.
    + unfold messages in Heq. injection Heq as _ Heq.
      by destruct mid.
    + unfold messages in Heq. injection Heq as <- <-.
      rewrite length_app in Hk. cbn [length] in Hk.
      destruct (decide (k = length mid + 1)%nat) as [->|Hne].
      * exfalso. replace (length mid + 1 - 1)%nat with (length mid) in Hgt by lia.
        rewrite drop_app_length, totalTokens_cons, totalTokens_nil in Hgt. lia.
      * rewrite drop_app_le by lia.
        change (first :: noticeMsg (Z.of_nat k) :: drop k mid ++ [newest])
          with ((first :: noticeMsg (Z.of_nat k) :: drop k mid) ++ [newest]).
        apply last_snoc.
Qed.

(** Under the cap of 3,276 of "gpt-3.5-turbo": a task of 13,200 bytes
    after a system prompt of 400 is not sent; one of 8,000 bytes is. *)
Lemma handleTokenLimits_newest_message_witness :
  handleTokenLimits gpt35 [systemMsg_ 400; userMsg 100; userMsg 13200]
  = [systemMsg_ 400; noticeMsg 2] ∧
  last (handleTokenLimits gpt35 [systemMsg_ 400; userMsg 9000; userMsg 8000])
  = Some (userMsg 8000).
Proof.
  split.
  - apply (proj1 (handleTokenLimits_newest_message gpt35 (systemMsg_ 400)
                    (userMsg 13200) [userMsg 100])).
    vm_compute. reflexivity.
  - apply (proj2 (handleTokenLimits_newest_message gpt35 (systemMsg_ 400)
                    (userMsg 8000) [userMsg 9000])).
    vm_compute. discriminate.
Defined.

(** ** Idle detector *)

Section IdleDetector.

Import Idle.

Lemma visits_length {A} (m : gmap string A) (order : list string) :
  visits m order -> length order = size m.
Proof.
  intros [Hnd Hin]. rewrite <- length_map_to_list.
  rewrite <- (length_fmap fst (map_to_list m)).
  apply Permutation_length, NoDup_Permutation;
    [done | apply NoDup_fst_map_to_list |].
  intros k. rewrite Hin, list_elem_of_fmap. split.
  - intros [a Ha]. exists (k, a). split; [done|]. by apply elem_of_map_to_list.
  - intros [[k' a] [-> Ha%elem_of_map_to_list]]. by exists a.
Qed.

Lemma visits_by_dom {A} (m : gmap string A) (order : list string) :
  NoDup order -> list_to_set order = dom m -> visits m order.
Proof.
  intros Hnd Hdom. split; [exact Hnd|]. intros k.
  by rewrite <- elem_of_dom, <- Hdom, elem_of_list_to_set.
Qed.

(** The counters after the loop over the agent states, entered with any
    values, and the agents that pass the test of [GetIdleAgentIDs]. *)
Lemma countAgents_from (states : gmap string AgentActivityState)
    (threshold : Duration) (now : Time) (order : list string) :
  (∀ k, k ∈ order -> is_Some (states !! k)) ->
  ∀ total working paused idle,
    let '(total', working', paused', idle') :=
      foldl (fun acc k => match states !! k with
                          | Some a => countAgent acc a
                          | None => acc
                          end) (total, working, paused, idle) order in
    total' = total + Z.of_nat (length order) ∧
    total' - total = (working' - working) + (paused' - paused) + (idle' - idle) ∧
    working <= working' ∧ paused <= paused' ∧
    idle + Z.of_nat (length (filter
                       (fun agentID =>
                          match states !! agentID with
                          | Some state =>
                              String.eqb (Status state) "idle"
                              && (threshold <=? Sub now (LastActive state))
                          | None => false
                          end = true) order)) <= idle'.
Proof.
  induction order as [|k order IH]; intros Hall total working paused idle.
  - cbn. lia.
  - destruct (Hall k) as [a Ha]; [by left|].
    assert (Hrest : ∀ k', k' ∈ order -> is_Some (states !! k'))
      by (intros k' Hk'; apply Hall; by right).
    cbn [foldl]. rewrite Ha. rewrite filter_cons, Ha. unfold countAgent.
    destruct (String.eqb_spec (Status a) "working") as [Hw|Hw].
    + specialize (IH Hrest (total + 1) (working + 1) paused idle).
      destruct (foldl _ _ order) as [[[t' w'] p'] i'].
      rewrite Hw. cbn [String.eqb Ascii.eqb Bool.eqb andb].
      rewrite decide_False by done. cbn [length] in *. lia.
    + destruct (String.eqb_spec (Status a) "paused") as [Hp|Hp].
      * specialize (IH Hrest (total + 1) working (paused + 1) idle).
        destruct (foldl _ _ order) as [[[t' w'] p'] i'].
        rewrite Hp. cbn [String.eqb Ascii.eqb Bool.eqb andb].
        rewrite decide_False by done. cbn [length] in *. lia.
      * specialize (IH Hrest (total + 1) working paused (idle + 1)).
        destruct (foldl _ _ order) as [[[t' w'] p'] i'].
        destruct (decide _); cbn [length] in *; lia.
Qed.

Lemma findProject_states (cfg : IdleConfig) (now : Time)
    (states : gmap string ProjectActivityState) (projectID : string)
    (order : list string) :
  findProject projectID (projectIdleStates cfg now states order)
  = if decide (projectID ∈ order)
    then match states !! projectID with
         | Some ps =>
             if ProjectIdleThreshold cfg <=? Sub now (LastActivity ps)
             then (true, Sub now (LastActivity ps))
             else (false, 0)
         | None => (false, 0)
         end
    else (false, 0).
Proof.
  induction order as [|k order IH].
  - cbn. by rewrite decide_False by apply not_elem_of_nil.
  - unfold projectIdleStates in *. cbn [omap list_omap].
    destruct (decide (k = projectID)) as [->|Hne].
    + rewrite decide_True by (by left).
      destruct (states !! projectID) as [ps|] eqn:Hps; cbn [fmap option_fmap option_map].
      * cbn [findProject]. unfold projectIdleState.
        destruct (ProjectIdleThreshold cfg <=? Sub now (LastActivity ps));
          cbn [PProjectID IsIdle IdlePeriod]; by rewrite String.eqb_refl.
      * rewrite IH. by destruct (decide (projectID ∈ order)).
    + assert (Hiff : projectID ∈ k :: order <-> projectID ∈ order).
      { rewrite elem_of_cons. split; [intros [?|?]; [congruence|done] | by right]. }
      destruct (states !! k) as [ps|]; cbn [fmap option_fmap option_map].
      * cbn [findProject].
        replace (PProjectID (projectIdleState cfg now k ps)) with k
          by (unfold projectIdleState; by destruct (_ <=? _)).
        destruct (String.eqb_spec k projectID) as [?|_]; [congruence|].
        rewrite IH. destruct (decide (projectID ∈ order)) as [Hin|Hin].
        -- by rewrite decide_True by (by apply Hiff).
        -- by rewrite decide_False by (by rewrite Hiff).
      * rewrite IH. destruct (decide (projectID ∈ order)) as [Hin|Hin].
        -- by rewrite decide_True by (by apply Hiff).
        -- by rewrite decide_False by (by rewrite Hiff).
Qed.

End IdleDetector.

(** X27.  When the iteration visits every agent once, [CheckIdleState]
    counts every agent in exactly one of working, paused and idle: an
    agent of any other status counts as idle.  [GetIdleAgentIDs], which
    asks for the status "idle" and the threshold, therefore never returns
    more agents than [IdleAgents] counts. *)
Theorem CheckIdleState_agent_counts (d : Idle.IdleDetector)
    (p : Idle.IdleDataProvider) (now : Time) (o : Idle.Orders) :
  Idle.visits (Idle.GetAgentStates p) (Idle.agentOrder o) ->
  let s := Idle.CheckIdleState d (Some p) now o in
  Idle.TotalAgents s = Z.of_nat (size (Idle.GetAgentStates p)) ∧
  Idle.TotalAgents s
  = Idle.WorkingAgents s + Idle.PausedAgents s + Idle.IdleAgents s ∧
  0 <= Idle.WorkingAgents s ∧ 0 <= Idle.PausedAgents s ∧
  ∃ ids, Idle.GetIdleAgentIDs d (Some p) now (Idle.agentOrder o) = Some ids ∧
         Z.of_nat (length ids) <= Idle.IdleAgents s.
Proof.
  intros Hv s. pose proof Hv as [_ Hin].
  pose proof (countAgents_from (Idle.GetAgentStates p)
                (Idle.AgentIdleThreshold (Idle.config d)) now (Idle.agentOrder o)
                (fun k Hk => proj1 (Hin k) Hk) 0 0 0 0) as H.
  unfold s, Idle.CheckIdleState, Idle.GetIdleAgentIDs, Idle.countAgents.
  destruct (foldl _ _ (Idle.agentOrder o)) as [[[t' w'] p'] i'].
  destruct (Idle.countBeads _ _) as [[tb ob] ib].
  cbn [Idle.TotalAgents Idle.WorkingAgents Idle.PausedAgents Idle.IdleAgents].
  destruct H as (Ht & Hsum & Hw & Hp & Hi).
  rewrite <- (visits_length _ _ Hv).
  split; [lia|]. split; [lia|]. split; [lia|]. split; [lia|].
  eexists. split; [reflexivity|]. lia.
Qed.

(** "a1" is idle, "a2" has the status "unknown" and "a3" is paused: two
    agents count as idle, one is listed. *)
Lemma CheckIdleState_agent_counts_witness :
  let s := Idle.CheckIdleState detector0 (Some provider0) (10 * minute) orders0 in
  Idle.TotalAgents s = 3 ∧ Idle.IdleAgents s = 2 ∧
  Idle.GetIdleAgentIDs detector0 (Some provider0) (10 * minute)
    (Idle.agentOrder orders0) = Some ["a1"%string] ∧
  Idle.TotalAgents s
  = Idle.WorkingAgents s + Idle.PausedAgents s + Idle.IdleAgents s.
Proof.
  intros s. split; [vm_compute; reflexivity|]. split; [vm_compute; reflexivity|].
  split; [vm_compute; reflexivity|].
  apply (CheckIdleState_agent_counts detector0 provider0 (10 * minute) orders0).
  apply visits_by_dom.
  - apply (bool_decide_eq_true_1 (NoDup (Idle.agentOrder orders0))).
    vm_compute. reflexivity.
  - vm_compute. reflexivity.
Defined.

(** X28.  The system is idle exactly when no agent is working and the
    last agent work lies at least [SystemIdleThreshold] back.  Bead
    activity and system events are not consulted: [RecordBeadActivity]
    and [RecordSystemEvent] never change the answer.  After a
    [RecordAgentActivity] the system is not idle until the threshold has
    passed again. *)
Theorem system_idle_criterion (d : Idle.IdleDetector)
    (provider : option Idle.IdleDataProvider) (now : Time) (o : Idle.Orders) :
  let s := Idle.CheckIdleState d provider now o in
  (Idle.IsSystemIdle_ s = true <->
   Idle.WorkingAgents s = 0 ∧
   Idle.SystemIdleThreshold (Idle.config d) <= Sub now (Idle.lastAgentWork d)) ∧
  (∀ beadID t1 t2,
     Idle.IsSystemIdle (Idle.RecordBeadActivity d beadID t1 t2) provider now o
     = Idle.IsSystemIdle d provider now o) ∧
  (∀ t,
     Idle.IsSystemIdle (Idle.RecordSystemEvent d t) provider now o
     = Idle.IsSystemIdle d provider now o) ∧
  (∀ agentID t1 t2,
     Sub now t1 < Idle.SystemIdleThreshold (Idle.config d) ->
     Idle.IsSystemIdle (Idle.RecordAgentActivity d agentID t1 t2) provider now o
     = (false, 0)) ∧
  (Idle.IsSystemIdle d None now o
   = if Idle.SystemIdleThreshold (Idle.config d) <=? Sub now (Idle.lastAgentWork d)
     then (true, Sub now (Idle.lastAgentWork d)) else (false, 0)).
Proof.
  intros s. split; [|split; [|split; [|split]]].
  - unfold s, Idle.CheckIdleState.
    destruct (match provider with Some p => Idle.countAgents _ _ | None => _ end)
      as [[[t' w'] p'] i'].
    destruct (match provider with Some p => Idle.countBeads _ _ | None => _ end)
      as [[tb ob] ib].
    cbn [Idle.IsSystemIdle_ Idle.WorkingAgents].
    rewrite andb_true_iff, Z.eqb_eq, Z.leb_le. done.
  - intros beadID t1 t2. unfold Idle.IsSystemIdle, Idle.CheckIdleState.
    cbn [Idle.RecordBeadActivity Idle.config Idle.lastAgentWork].
    destruct (match provider with Some p => Idle.countAgents _ _ | None => _ end)
      as [[[t' w'] p'] i'].
    by destruct (match provider with Some p => Idle.countBeads _ _ | None => _ end)
      as [[tb ob] ib].
  - intros t. unfold Idle.IsSystemIdle, Idle.CheckIdleState.
    cbn [Idle.RecordSystemEvent Idle.config Idle.lastAgentWork].
    destruct (match provider with Some p => Idle.countAgents _ _ | None => _ end)
      as [[[t' w'] p'] i'].
    by destruct (match provider with Some p => Idle.countBeads _ _ | None => _ end)
      as [[tb ob] ib].
  - intros agentID t1 t2 Hlt.
    unfold Idle.IsSystemIdle, Idle.CheckIdleState.
    cbn [Idle.RecordAgentActivity Idle.config Idle.lastAgentWork].
    destruct (match provider with Some p => Idle.countAgents _ _ | None => _ end)
      as [[[t' w'] p'] i'].
    destruct (match provider with Some p => Idle.countBeads _ _ | None => _ end)
      as [[tb ob] ib].
    cbn [Idle.IsSystemIdle_ Idle.SystemIdlePeriod].
    destruct (Z.leb_spec (Idle.SystemIdleThreshold (Idle.config d)) (Sub now t1));
      [lia|]. by rewrite andb_false_r.
  - unfold Idle.IsSystemIdle, Idle.CheckIdleState.
    cbn [Idle.IsSystemIdle_ Idle.SystemIdlePeriod]. cbn [Z.eqb andb].
    by destruct (_ <=? _).
Qed.

(** Agent work recorded after 50 minutes: ten minutes later the system is
    not idle, though it had been for 50 minutes before. *)
Lemma system_idle_criterion_witness :
  Idle.IsSystemIdle detector0 (Some provider0) (50 * minute) orders0
  = (true, 50 * minute) ∧
  Idle.IsSystemIdle
    (Idle.RecordAgentActivity detector0 "a1" (50 * minute) (50 * minute))
    (Some provider0) (60 * minute) orders0 = (false, 0).
Proof.
  split; [vm_compute; reflexivity|].
  apply (proj1 (proj2 (proj2 (proj2
           (system_idle_criterion detector0 (Some provider0) (60 * minute)
              orders0))))).
  vm_compute. reflexivity.
Defined.

(** X29.  When the iteration visits every project once, [IsProjectIdle]
    answers for the project's own entry: idle, with the time since its
    last activity, exactly when that time has reached
    [ProjectIdleThreshold]; not idle, with a period of 0, otherwise.  For
    a project the provider does not know, and for a nil provider, it
    answers not idle. *)
Theorem IsProjectIdle_lookup (d : Idle.IdleDetector) (projectID : string)
    (p : Idle.IdleDataProvider) (now : Time) (o : Idle.Orders) :
  Idle.visits (Idle.GetProjectStates p) (Idle.projectOrder o) ->
  Idle.IsProjectIdle d projectID (Some p) now o
  = match Idle.GetProjectStates p !! projectID with
    | Some ps =>
        if Idle.ProjectIdleThreshold (Idle.config d)
           <=? Sub now (Idle.LastActivity ps)
        then (true, Sub now (Idle.LastActivity ps))
        else (false, 0)
    | None => (false, 0)
    end ∧
  Idle.IsProjectIdle d projectID None now o = (false, 0).
Proof.
  intros [_ Hin]. split; [|reflexivity].
  unfold Idle.IsProjectIdle, Idle.CheckIdleState.
  destruct (Idle.countAgents _ _) as [[[t' w'] p'] i'].
  destruct (Idle.countBeads _ _) as [[tb ob] ib].
  cbn [Idle.IdleProjects]. rewrite findProject_states.
  destruct (decide (projectID ∈ Idle.projectOrder o)) as [Hp|Hp]; [done|].
  destruct (Idle.GetProjectStates p !! projectID) as [ps|] eqn:Hps; [|done].
  exfalso. apply Hp, Hin. by exists ps.
Qed.

(** After 30 minutes "p1", last active at 0, is idle; "p2", last active
    after 20 minutes, is not. *)
Lemma IsProjectIdle_lookup_witness :
  Idle.IsProjectIdle detector0 "p1" (Some provider0) (30 * minute) orders0
  = (true, 30 * minute) ∧
  Idle.IsProjectIdle detector0 "p2" (Some provider0) (30 * minute) orders0
  = (false, 0).
Proof.
  assert (Hv : Idle.visits (Idle.GetProjectStates provider0)
                 (Idle.projectOrder orders0)).
  { apply visits_by_dom.
    - apply (bool_decide_eq_true_1 (NoDup (Idle.projectOrder orders0))).
      vm_compute. reflexivity.
    - vm_compute. reflexivity. }
  split.
  - rewrite (proj1 (IsProjectIdle_lookup detector0 "p1" provider0 (30 * minute)
                      orders0 Hv)).
    vm_compute. reflexivity.
  - rewrite (proj1 (IsProjectIdle_lookup detector0 "p2" provider0 (30 * minute)
                      orders0 Hv)).
    vm_compute. reflexivity.
Defined.

(** X30.  [NotifyListeners] never calls [OnAgentIdle].  It calls
    [OnSystemIdle] on every listener, with the idle period of the state,
    when the state says the system is idle, and on none otherwise; it
    calls [OnProjectIdle] on every listener for exactly the projects the
    state marks idle, with their idle period.  On a state from
    [CheckIdleState] these are projects whose last activity lies at least
    [ProjectIdleThreshold] back. *)
Theorem NotifyListeners_calls (d : Idle.IdleDetector) (state : Idle.IdleState) :
  (∀ l a t, Idle.OnAgentIdle l a t ∉ Idle.NotifyListeners d state) ∧
  (∀ l t, Idle.OnSystemIdle l t ∈ Idle.NotifyListeners d state <->
          l ∈ Idle.listeners d ∧ Idle.IsSystemIdle_ state = true ∧
          t = Idle.SystemIdlePeriod state) ∧
  (∀ l pid t, Idle.OnProjectIdle l pid t ∈ Idle.NotifyListeners d state <->
              l ∈ Idle.listeners d ∧
              ∃ project, project ∈ Idle.IdleProjects state ∧
                         Idle.IsIdle project = true ∧
                         Idle.PProjectID project = pid ∧
                         Idle.IdlePeriod project = t) ∧
  (∀ p now o project,
     project ∈ Idle.IdleProjects (Idle.CheckIdleState d (Some p) now o) ->
     Idle.IsIdle project = true ->
     ∃ ps, Idle.GetProjectStates p !! Idle.PProjectID project = Some ps ∧
           Idle.ProjectIdleThreshold (Idle.config d)
           <= Sub now (Idle.LastActivity ps) ∧
           Idle.IdlePeriod project = Sub now (Idle.LastActivity ps)).
Proof.
  assert (Hcalls : ∀ c, c ∈ Idle.NotifyListeners d state <->
    ∃ l, l ∈ Idle.listeners d ∧
         ((Idle.IsSystemIdle_ state = true ∧
           c = Idle.OnSystemIdle l (Idle.SystemIdlePeriod state))
          ∨ ∃ project, project ∈ Idle.IdleProjects state ∧
                       Idle.IsIdle project = true ∧
                       c = Idle.OnProjectIdle l (Idle.PProjectID project)
                             (Idle.IdlePeriod project))).
  { intros c. unfold Idle.NotifyListeners.
    rewrite list_elem_of_In, in_concat. split.
    - intros (calls & Hcalls & Hc). apply in_map_iff in Hcalls as (l & <- & Hl).
      exists l. split; [by apply list_elem_of_In|].
      apply list_elem_of_In, elem_of_app in Hc as [Hc|Hc].
      + left. destruct (Idle.IsSystemIdle_ state); [|by apply elem_of_nil in Hc].
        apply list_elem_of_singleton in Hc. by split.
      + right. apply list_elem_of_omap in Hc as (project & Hp & Hc).
        exists project. split; [exact Hp|].
        destruct (Idle.IsIdle project); [|discriminate]. by injection Hc as <-.
    - intros (l & Hl & Hc). eexists. split.
      + apply in_map_iff. exists l. split; [reflexivity|]. by apply list_elem_of_In.
      + apply list_elem_of_In, elem_of_app.
        destruct Hc as [[Hs ->]|(project & Hp & Hi & ->)].
        * left. rewrite Hs. by left.
        * right. apply list_elem_of_omap. exists project. split; [exact Hp|].
          by rewrite Hi. }
  split; [|split; [|split]].
  - intros l a t (l' & _ & [[_ ?]|(? & _ & _ & ?)])%Hcalls; discriminate.
  - intros l t. rewrite Hcalls. split.
    + intros (l' & Hl & [[Hs [= -> ->]]|(? & _ & _ & ?)]); [done|discriminate].
    + intros (Hl & Hs & ->). exists l. split; [exact Hl|]. by left.
  - intros l pid t. rewrite Hcalls. split.
    + intros (l' & Hl & [[_ ?]|(project & Hp & Hi & [= -> -> ->])]); [discriminate|].
      split; [exact Hl|]. by exists project.
    + intros (Hl & project & Hp & Hi & <- & <-). exists l. split; [exact Hl|].
      right. by exists project.
  - intros p now o project Hp Hi. unfold Idle.CheckIdleState in Hp.
    destruct (Idle.countAgents _ _) as [[[t' w'] p'] i'].
    destruct (Idle.countBeads _ _) as [[tb ob] ib].
    cbn [Idle.IdleProjects] in Hp. unfold Idle.projectIdleStates in Hp.
    apply list_elem_of_omap in Hp as (k & _ & Hk).
    destruct (Idle.GetProjectStates p !! k) as [ps|] eqn:Hps; [|discriminate].
    cbn in Hk. injection Hk as <-. unfold Idle.projectIdleState in *.
    destruct (Z.leb_spec (Idle.ProjectIdleThreshold (Idle.config d))
                (Sub now (Idle.LastActivity ps))); [|discriminate].
    exists ps. by repeat split.
Qed.

(** After 30 minutes, with the one listener: one [OnSystemIdle], one
    [OnProjectIdle] for "p1", none for "p2", and no [OnAgentIdle]. *)
Lemma NotifyListeners_calls_witness :
  Idle.NotifyListeners detector0
    (Idle.CheckIdleState detector0 (Some provider0) (30 * minute) orders0)
  = [Idle.OnSystemIdle 1 (30 * minute);
     Idle.OnProjectIdle 1 "p1" (30 * minute)] ∧
  ∀ l a t,
    Idle.OnAgentIdle l a t
    ∉ Idle.NotifyListeners detector0
        (Idle.CheckIdleState detector0 (Some provider0) (30 * minute) orders0).
Proof.
  split; [vm_compute; reflexivity|].
  apply (proj1 (NotifyListeners_calls detector0 _)).
Defined.
